(** * Licitaciones: the request/response core of [app.py]

    A shallow embedding of the non-UI part of [src/app.py]: the URL
    validator, the prompt builder, the per-source document pipeline with its
    temporary file, the response aggregator, the table of predefined
    questions and the JSON extractor.

    Conventions.
    - A Python [str] is a Rocq [string] holding the UTF-8 encoding of the
      text, so a non-ASCII character of the source appears as its bytes.
    - [bytes] is [list Byte.byte].
    - Code that logs, touches the file system, the network or the model runs
      in the monad [M]: a state monad over [World] whose results are either a
      value or a raised exception.
    - Third-party functions ([urllib.parse.urlparse], [json.loads],
      [httpx.get], the model client, the operating system's failures) are
      Section variables: every theorem holds for all of them. *)

From Stdlib Require Import String Ascii DecimalString Bool Arith Lia.
From stdpp Require Import base option list strings gmap.

Open Scope string_scope.

(** ** Python strings *)

Module Py.

(** The line feed, written [\n] in the source. *)
Definition nl : string := String (ascii_of_nat 10) EmptyString.

(** The double quote. *)
Definition dq : string := String (ascii_of_nat 34) EmptyString.

(** [str(i)] and [f"{i}"] for a non-negative [int]. *)
Definition str_of_nat (n : nat) : string :=
  NilEmpty.string_of_uint (Nat.to_uint n).

(** Truth value of a [str]: false exactly for the empty string. *)
Definition truthy (s : string) : bool :=
  match s with
  | EmptyString => false
  | String _ _ => true
  end.

(** Truth value of a list: false exactly for the empty list. *)
Definition truthy_list {A} (l : list A) : bool :=
  match l with
  | [] => false
  | _ :: _ => true
  end.

(** Truth value of an optional list: [None] and [[]] are false. *)
Definition truthy_opt_list {A} (l : option (list A)) : bool :=
  match l with
  | None => false
  | Some l => truthy_list l
  end.

(** [sep.join(parts)]. *)
Definition join (sep : string) (parts : list string) : string :=
  String.concat sep parts.

(** [l[:-1]]: every element but the last; the empty list for [[]]. *)
Definition all_but_last {A} (l : list A) : list A :=
  take (length l - 1) l.

(** *** [str.strip()]

    Python strips the characters for which [str.isspace] holds:
    U+0009..U+000D, U+001C..U+0020, U+0085, U+00A0, U+1680,
    U+2000..U+200A, U+2028, U+2029, U+202F, U+205F and U+3000.  On the
    UTF-8 encoding these are the one, two and three byte sequences below. *)

Definition is_space1 (a : ascii) : bool :=
  let n := nat_of_ascii a in
  (((9 <=? n) && (n <=? 13)) || ((28 <=? n) && (n <=? 32)))%nat.

Definition is_space2 (a b : ascii) : bool :=
  ((nat_of_ascii a =? 194) &&
   ((nat_of_ascii b =? 133) || (nat_of_ascii b =? 160)))%nat.

Definition is_space3 (a b c : ascii) : bool :=
  let x := nat_of_ascii a in
  let y := nat_of_ascii b in
  let z := nat_of_ascii c in
  (((x =? 225) && (y =? 154) && (z =? 128)) ||
   ((x =? 226) && (y =? 128) &&
      (((128 <=? z) && (z <=? 138)) || (z =? 168) || (z =? 169) || (z =? 175))) ||
   ((x =? 226) && (y =? 129) && (z =? 159)) ||
   ((x =? 227) && (y =? 128) && (z =? 128)))%nat.

Fixpoint lstrip (s : string) : string :=
  match s with
  | String a s1 =>
      if is_space1 a then lstrip s1 else
      match s1 with
      | String b s2 =>
          if is_space2 a b then lstrip s2 else
          match s2 with
          | String c s3 => if is_space3 a b c then lstrip s3 else s
          | EmptyString => s
          end
      | EmptyString => s
      end
  | EmptyString => s
  end.

(** The same scan over the reversed string: the bytes of a character come
    last byte first. *)
Fixpoint lstrip_rev (s : string) : string :=
  match s with
  | String a s1 =>
      if is_space1 a then lstrip_rev s1 else
      match s1 with
      | String b s2 =>
          if is_space2 b a then lstrip_rev s2 else
          match s2 with
          | String c s3 => if is_space3 c b a then lstrip_rev s3 else s
          | EmptyString => s
          end
      | EmptyString => s
      end
  | EmptyString => s
  end.

Definition rstrip (s : string) : string :=
  String.rev (lstrip_rev (String.rev s)).

Definition strip (s : string) : string := rstrip (lstrip s).

(** *** [str.lower()] and [str.endswith]

    [lower] is modelled on the ASCII letters.  The only characters whose
    lower case is one of [.], [p], [d], [f] are those characters and
    [P], [D], [F], so the suffix test of [is_pdf_url] sees the same four
    final characters. *)

Definition lower_ascii (a : ascii) : ascii :=
  let n := nat_of_ascii a in
  if ((65 <=? n) && (n <=? 90))%nat then ascii_of_nat (n + 32) else a.

Fixpoint lower (s : string) : string :=
  match s with
  | EmptyString => EmptyString
  | String a s' => String (lower_ascii a) (lower s')
  end.

Definition endswith (s suffix : string) : bool :=
  String.prefix (String.rev suffix) (String.rev s).

End Py.

Import Py.

(** ** Data model *)

Definition bytes : Type := list Byte.byte.

(** The value of [urlparse(url)]: a six-field named tuple of strings. *)
Record ParseResult := mkParseResult {
  scheme : string;
  netloc : string;
  path : string;
  params : string;
  query : string;
  fragment : string
}.

(** A file object of the upload widget: [source.name], [source.getvalue()]
    and the text [f"{source}"] puts in a log line. *)
Record UploadedFile := mkUploadedFile {
  name : string;
  getvalue : bytes;
  file_repr : string
}.

(** An element of [sources]: an uploaded file or a URL string. *)
Inductive Source :=
| SFile (f : UploadedFile)
| SUrl (url : string).

(** The [source_type] argument: ['file'], ['url'], or any other string. *)
Inductive SourceType :=
| TFile
| TUrl
| TOther (s : string).

(** One entry of the chat history: a dict with the keys ['question'] and
    ['answer'], and ['is_json_summary'] on the automatic first turn. *)
Record ChatTurn := mkChatTurn {
  question : string;
  answer : string;
  is_json_summary : bool
}.

(** One entry of [responses]: [{'filename': ..., 'response': ...}]. *)
Record Entry := mkEntry {
  filename : string;
  response : string
}.

(** What [httpx.get] returns: the status code, the body, and what
    [raise_for_status()] does on this response ([Some e]: it raises [e]). *)
Record HttpResponse := mkHttpResponse {
  status_code : nat;
  content : bytes;
  raise_for_status : option string
}.

(** A value produced by [json.loads].  Python's [None] is [JNull]: the
    extractor's "nothing" and the parse of the text [null] are one value. *)
#[warnings="-register-all"]
Inductive JSON :=
| JNull
| JBool (b : bool)
| JNumber (literal : string)
| JString (s : string)
| JArray (items : list JSON)
| JObject (members : list (string * JSON)).

(** ** The world and the monad of effects *)

(** An exception is represented by its message, [str(e)].  Only the
    [Exception] hierarchy is modelled, which every [except Exception]
    of the source catches. *)
Definition exn : Type := string.

(** What [json.loads] does on a [str].  It returns the value, or raises
    [json.JSONDecodeError], or raises an exception of another class:
    [RecursionError] on a text nested too deeply, [ValueError] on an integer
    literal with more digits than the interpreter converts.  [msg] and [e]
    are [str] of the exception. *)
Inductive JsonOutcome :=
| Parsed (v : JSON)
| DecodeError (msg : string)
| OtherError (e : exn).

(** The operations on the file system that can fail. *)
Inductive FsOp :=
| OpCreate
| OpWrite (path : string)
| OpRead (path : string)
| OpUnlink (path : string).

Record World := mkWorld {
  fs : gmap string bytes;             (* the files that exist *)
  log : list string;                  (* logging.error records, oldest first *)
  ui_errors : list string;            (* st.error messages, oldest first *)
  requests : list string;             (* URLs passed to httpx.get *)
  model_calls : list (bytes * string) (* (document, prompt) sent to the model *)
}.

Definition set_fs (f : gmap string bytes → gmap string bytes) (w : World) : World :=
  mkWorld (f (fs w)) (log w) (ui_errors w) (requests w) (model_calls w).

Definition add_log (msg : string) (w : World) : World :=
  mkWorld (fs w) (log w ++ [msg]) (ui_errors w) (requests w) (model_calls w).

Definition add_ui_error (msg : string) (w : World) : World :=
  mkWorld (fs w) (log w) (ui_errors w ++ [msg]) (requests w) (model_calls w).

Definition add_request (url : string) (w : World) : World :=
  mkWorld (fs w) (log w) (ui_errors w) (requests w ++ [url]) (model_calls w).

Definition add_model_call (pdf_data : bytes) (prompt : string) (w : World) : World :=
  mkWorld (fs w) (log w) (ui_errors w) (requests w) (model_calls w ++ [(pdf_data, prompt)]).

Inductive Result (A : Type) :=
| Ok (a : A)
| Raise (e : exn).
Arguments Ok {A} a.
Arguments Raise {A} e.

Definition M (A : Type) : Type := World → Result A * World.

Definition ret {A} (a : A) : M A := fun w => (Ok a, w).

Definition raise {A} (e : exn) : M A := fun w => (Raise e, w).

Definition bind {A B} (m : M A) (k : A → M B) : M B :=
  fun w =>
    match m w with
    | (Ok a, w') => k a w'
    | (Raise e, w') => (Raise e, w')
    end.

Notation "'let*' x ':=' m 'in' k" := (bind m (fun x => k))
  (at level 10, x name, m at level 100, k at level 200).
Notation "m >> k" := (bind m (fun _ => k))
  (at level 65, right associativity).

(** [try: body  except Exception as e: handler e]. *)
Definition try_except {A} (body : M A) (handler : exn → M A) : M A :=
  fun w =>
    match body w with
    | (Ok a, w') => (Ok a, w')
    | (Raise e, w') => handler e w'
    end.

(** [try: body  finally: final].  The final block always runs; when it
    raises, its exception replaces the outcome of the body. *)
Definition try_finally {A} (body : M A) (final : M unit) : M A :=
  fun w =>
    match body w with
    | (r, w') =>
        match final w' with
        | (Ok _, w'') => (r, w'')
        | (Raise e, w'') => (Raise e, w'')
        end
    end.

(** [logging.error(msg)]. *)
Definition logging_error (msg : string) : M unit :=
  fun w => (Ok (), add_log msg w).

(** [st.error(msg)]. *)
Definition st_error (msg : string) : M unit :=
  fun w => (Ok (), add_ui_error msg w).

(** [with st.spinner(text): body]: the spinner only draws. *)
Definition st_spinner {A} (text : string) (body : M A) : M A := body.

(** Turn an outcome that does not depend on the world into an action. *)
Definition lift {A} (r : Result A) : M A := fun w => (r, w).

(** ** The program *)

Section Program.

(** [urllib.parse.urlparse] on a [str]: a parse result, or [ValueError]. *)
Variable urlparse : string → Result ParseResult.

(** [json.loads] on a [str]: a value, [json.JSONDecodeError], or an
    exception of another class. *)
Variable json_loads : string → JsonOutcome.

(** [httpx.get(url, follow_redirects=True)]: a response, or a transport
    error.  The answer may depend on everything that happened before. *)
Variable httpx_get : World → string → Result HttpResponse.

(** [client.models.generate_content(...)] followed by [.text]: the reply
    text ([None] when the reply has no text), or an API error. *)
Variable generate_content : World → bytes → string → Result (option string).

(** The name [tempfile.NamedTemporaryFile] picks for the new file. *)
Variable tmp_name : World → string.

(** The failures the operating system injects: [Some e] makes the
    operation raise [e] (disk full, permission denied, ...). *)
Variable fs_fault : World → FsOp → option exn.

(** *** Validator (lines 21-31) *)

Definition is_valid_url (url : string) : bool :=
  match urlparse url with
  | Ok result => truthy (scheme result) && truthy (netloc result)
  | Raise _ => false
  end.

Definition is_pdf_url (url : string) : bool :=
  endswith (lower url) ".pdf" || endswith (lower url) ".PDF".

(** *** Prompt builder (lines 106-122 of [process_pdf_data]) *)

(** The [for i, chat in enumerate(chat_history[:-1], 1)] loop, with its
    counter [i] and the accumulated [history_context]. *)
Fixpoint history_loop (i : nat) (chats : list ChatTurn)
    (history_context : string) : string :=
  match chats with
  | [] => history_context
  | chat :: rest =>
      let history_context :=
        history_context +:+
          (nl +:+ nl +:+ "Pregunta " +:+ str_of_nat i +:+ ": " +:+ question chat) in
      let history_context :=
        history_context +:+
          (nl +:+ "Respuesta " +:+ str_of_nat i +:+ ": " +:+ answer chat) in
      history_loop (S i) rest history_context
  end.

Definition history_header : string :=
  nl +:+ nl +:+ "Historial de la conversación:".

Definition history_context (chat_history : option (list ChatTurn)) : string :=
  match chat_history with
  | Some h =>
      if truthy_list h && (1 <? length h)%nat
      then history_loop 1 (all_but_last h) history_header +:+ (nl +:+ nl)
      else EmptyString
  | None => EmptyString
  end.

Definition base_prompt : string :=
  "Eres un asistente de inteligencia artificial especializado en licitaciones españolas y tus usuarios son empresas españolas que buscan aplicar a licitaciones." +:+ nl +:+
  "        Los documentos que te proporcionaré son documentos de licitaciones españolas." +:+ nl +:+
  "        Debes responder teniendo en cuenta este contexto, evitando responder preguntas no relacionadas." +:+ nl +:+
  "        Es relevante obtener un resumen de la licitación que incluya el precio de la licitación, requisitos técnicos y administrativos, potencialidad, fórmulas de relevancia con propuestas de valores y resumen de posibles problemas o ventajas para la empresa que aplica." +:+ nl +:+
  "        Es también relevante proporcionar recomendación sobre si aplicar o no.".

(** [f"{base_prompt}\n\n{history_context}\n\nPregunta: {prompt_text}"]. *)
Definition build_prompt (prompt_text : string)
    (chat_history : option (list ChatTurn)) : string :=
  base_prompt +:+ (nl +:+ nl) +:+ history_context chat_history +:+
    (nl +:+ nl) +:+ "Pregunta: " +:+ prompt_text.

(** *** Model client (lines 124-140 of [process_pdf_data]) *)

Definition client_generate_content (pdf_data : bytes) (prompt : string)
    : M (option string) :=
  fun w => (generate_content w pdf_data prompt, add_model_call pdf_data prompt w).

(** [response.text if response.text else None]. *)
Definition text_or_none (text : option string) : option string :=
  match text with
  | Some t => if truthy t then Some t else None
  | None => None
  end.

Definition process_pdf_data (pdf_data : bytes) (prompt_text source_name : string)
    (chat_history : option (list ChatTurn)) : M (option string) :=
  try_except
    (let prompt := build_prompt prompt_text chat_history in
     let* text := client_generate_content pdf_data prompt in
     ret (text_or_none text))
    (fun e =>
       logging_error ("Error in Gemini API call: " +:+ e) >>
       ret None).

(** *** Document fetcher: the file system and the network *)

(** [tempfile.NamedTemporaryFile(delete=False, suffix='.pdf')]: creates
    an empty file and gives its path. *)
Definition named_temporary_file : M string :=
  fun w =>
    match fs_fault w OpCreate with
    | Some e => (Raise e, w)
    | None => (Ok (tmp_name w), set_fs (insert (tmp_name w) []) w)
    end.

(** [tmp_file.write(data)], and the close at the end of the [with]. *)
Definition file_write (path : string) (data : bytes) : M unit :=
  fun w =>
    match fs_fault w (OpWrite path) with
    | Some e => (Raise e, w)
    | None => (Ok (), set_fs (insert path data) w)
    end.

(** [with open(path, 'rb') as f: f.read()]. *)
Definition open_read (path : string) : M bytes :=
  fun w =>
    match fs_fault w (OpRead path) with
    | Some e => (Raise e, w)
    | None =>
        match fs w !! path with
        | Some data => (Ok data, w)
        | None => (Raise ("[Errno 2] No such file or directory: '" +:+ path +:+ "'"), w)
        end
    end.

(** [os.unlink(path)]. *)
Definition os_unlink (path : string) : M unit :=
  fun w =>
    match fs_fault w (OpUnlink path) with
    | Some e => (Raise e, w)
    | None =>
        match fs w !! path with
        | Some _ => (Ok (), set_fs (delete path) w)
        | None => (Raise ("[Errno 2] No such file or directory: '" +:+ path +:+ "'"), w)
        end
    end.

(** [httpx.get(url, follow_redirects=True)], recorded in [requests]. *)
Definition http_get (url : string) : M HttpResponse :=
  fun w => (httpx_get w url, add_request url w).

(** [response.raise_for_status()]. *)
Definition do_raise_for_status (r : HttpResponse) : M unit :=
  match raise_for_status r with
  | Some e => raise e
  | None => ret ()
  end.

(** *** Per-source pipeline (lines 36-101) *)

(** [f"{source}"]. *)
Definition source_repr (source : Source) : string :=
  match source with
  | SFile f => file_repr f
  | SUrl url => url
  end.

(** [if response_text: responses.append({...})].  The append is the last
    statement of its [try] block, so the list is passed on as a value. *)
Definition append_response (responses : list Entry) (filename : string)
    (response_text : option string) : list Entry :=
  match response_text with
  | Some t => if truthy t then responses ++ [mkEntry filename t] else responses
  | None => responses
  end.

(** The ['file'] branch, lines 44-67. *)
Definition process_file (source : Source) (prompt_text : string)
    (chat_history : option (list ChatTurn)) (responses : list Entry)
    : M (list Entry) :=
  match source with
  | SUrl _ => raise "'str' object has no attribute 'name'"
  | SFile f =>
      st_spinner ("Processing " +:+ name f +:+ "...")
        (let* tmp_file_path :=
           (let* tmp_file := named_temporary_file in
            file_write tmp_file (getvalue f) >>
            ret tmp_file) in
         try_finally
           (let* pdf_data := open_read tmp_file_path in
            let* response_text :=
              process_pdf_data pdf_data prompt_text (name f) chat_history in
            ret (append_response responses (name f) response_text))
           (try_except
              (os_unlink tmp_file_path)
              (fun e => logging_error ("Error deleting temporary file: " +:+ e))))
  end.

(** The ['url'] branch, lines 71-90. *)
Definition process_url (source : Source) (prompt_text : string)
    (chat_history : option (list ChatTurn)) (responses : list Entry)
    : M (list Entry) :=
  st_spinner ("Processing PDF from URL: " +:+ source_repr source +:+ "...")
    (try_except
       (match source with
        | SFile _ => raise "Invalid type for url.  Expected str or httpx.URL"
        | SUrl url =>
            let* response := http_get url in
            do_raise_for_status response >>
            if (status_code response =? 200)%nat then
              let* parsed := lift (urlparse url) in
              let domain := netloc parsed in
              let filename := "PDF_from_" +:+ domain +:+ ".pdf" in
              let* response_text :=
                process_pdf_data (content response) prompt_text filename chat_history in
              ret (append_response responses filename response_text)
            else ret responses
        end)
       (fun e =>
          logging_error ("Error processing URL " +:+ source_repr source +:+ ": " +:+ e) >>
          st_error ("Failed to process PDF from URL: " +:+ source_repr source) >>
          ret responses)).

(** The body of the [for] loop, lines 41-94: one source, with the
    per-source [except Exception] that logs and continues. *)
Definition process_source (source_type : SourceType) (prompt_text : string)
    (chat_history : option (list ChatTurn)) (source : Source)
    (responses : list Entry) : M (list Entry) :=
  try_except
    (match source_type with
     | TFile => process_file source prompt_text chat_history responses
     | TUrl => process_url source prompt_text chat_history responses
     | TOther _ => ret responses
     end)
    (fun e =>
       logging_error ("Error processing source " +:+ source_repr source +:+ ": " +:+ e) >>
       ret responses).

(** [for source in sources: ...]. *)
Fixpoint for_sources (source_type : SourceType) (prompt_text : string)
    (chat_history : option (list ChatTurn)) (sources : list Source)
    (responses : list Entry) : M (list Entry) :=
  match sources with
  | [] => ret responses
  | source :: rest =>
      let* responses :=
        process_source source_type prompt_text chat_history source responses in
      for_sources source_type prompt_text chat_history rest responses
  end.

(** Returns [Some responses], or [None] from the outermost [except]. *)
Definition process_pdf_with_gemini (sources : list Source) (prompt_text : string)
    (source_type : SourceType) (chat_history : option (list ChatTurn))
    : M (option (list Entry)) :=
  try_except
    (let* responses := for_sources source_type prompt_text chat_history sources [] in
     ret (Some responses))
    (fun e =>
       logging_error ("PDF processing error: " +:+ e) >>
       st_error ("Failed to process PDF: " +:+ e) >>
       ret None).

(** *** Response aggregator (lines 147-186) *)

Definition no_documents_message : string :=
  "Error: No se proporcionaron documentos. Por favor, sube un archivo PDF o proporciona una URL de PDF.".

(** [[url.strip() for url in url_docs
      if url.strip() and is_valid_url(url.strip())]]; the test
    [and is_pdf_url(url.strip())] is commented out in the source. *)
Definition valid_urls_of (url_docs : list string) : list string :=
  map strip
    (List.filter (fun url => truthy (strip url) && is_valid_url (strip url)) url_docs).

(** [f"**{resp['filename']}**\n{resp['response']}"]. *)
Definition format_entry (resp : Entry) : string :=
  "**" +:+ filename resp +:+ "**" +:+ nl +:+ response resp.

Definition separator : string := nl +:+ nl +:+ "---" +:+ nl +:+ nl.

(** The loop that fills [formatted_responses]. *)
Fixpoint format_loop (all_responses : list Entry)
    (formatted_responses : list string) : list string :=
  match all_responses with
  | [] => formatted_responses
  | resp :: rest => format_loop rest (formatted_responses ++ [format_entry resp])
  end.

(** Lines 178-186: the message when nothing was collected, the joined
    entries otherwise. *)
Definition render_responses (all_responses : list Entry) : string :=
  if negb (truthy_list all_responses) then no_documents_message
  else join separator (format_loop all_responses []).

(** [if rs: all_responses.extend(rs)], for the optional list that
    [process_pdf_with_gemini] returns. *)
Definition extend_if (all_responses : list Entry)
    (rs : option (list Entry)) : list Entry :=
  if truthy_opt_list rs then all_responses ++ default [] rs else all_responses.

Definition get_gemini_response (prompt_text : string)
    (file_docs : option (list UploadedFile)) (url_docs : option (list string))
    (chat_history : option (list ChatTurn)) : M string :=
  let all_responses := [] in
  let* all_responses :=
    if truthy_opt_list file_docs then
      let* file_responses :=
        process_pdf_with_gemini (map SFile (default [] file_docs))
          prompt_text TFile chat_history in
      ret (extend_if all_responses file_responses)
    else ret all_responses in
  let* all_responses :=
    if truthy_opt_list url_docs then
      let valid_urls := valid_urls_of (default [] url_docs) in
      if truthy_list valid_urls then
        let* url_responses :=
          process_pdf_with_gemini (map SUrl valid_urls)
            prompt_text TUrl chat_history in
        ret (extend_if all_responses url_responses)
      else ret all_responses
    else ret all_responses in
  ret (render_responses all_responses).

(** Lines 188-206. *)
Definition user_input (user_question : string)
    (file_docs : option (list UploadedFile)) (url_docs : option (list string))
    (chat_history : option (list ChatTurn)) : M (option string) :=
  try_except
    (if negb (truthy (strip user_question)) then raise "Pregunta vacía"
     else if negb (truthy_opt_list file_docs) && negb (truthy_opt_list url_docs) then
       st_error "Por favor, sube un archivo PDF o proporciona una URL de PDF primero!" >>
       ret None
     else
       let* r := get_gemini_response user_question file_docs url_docs chat_history in
       ret (Some r))
    (fun e =>
       logging_error ("Error al procesar la entrada: " +:+ e) >>
       ret (Some "Error: No se pudo procesar la solicitud. Por favor, verifica tu conexión a internet e inténtalo de nuevo.")).

(** *** Predefined questions (lines 210-226) *)

(** The dict literal, in insertion order; its keys are pairwise distinct. *)
Definition PREDEFINED_QUESTIONS : list (string * string) :=
  [ (EmptyString,
     EmptyString);
    ("Resumen del documento",
     "Por favor, proporciona un resumen detallado de los puntos clave de este documento, incluyendo los temas principales, hallazgos importantes y conclusiones relevantes. Incluye ejemplos específicos cuando sea posible.");
    ("Tema principal",
     "Analiza cuidadosamente este documento y describe en detalle cuál es su tema principal. Explica por qué es importante este tema y cómo se desarrolla a lo largo del texto. Incluye subtemas o aspectos clave que apoyen el tema principal.");
    ("Hallazgos principales",
     "Identifica y enumera los hallazgos o conclusiones principales presentados en este documento. Para cada hallazgo, proporciona el contexto necesario y explica su relevancia. Si es posible, incluye datos o estadísticas específicas que respalden estos hallazgos.");
    ("Argumentos clave",
     "Analiza y describe en detalle los argumentos principales presentados en este documento. Explica la lógica detrás de cada argumento, las pruebas presentadas y cómo se relacionan entre sí. Evalúa la solidez de estos argumentos si es posible.");
    ("Fechas importantes",
     "Extrae y enumera todas las fechas, plazos o hitos importantes mencionados en este documento. Para cada uno, proporciona el contexto relevante, incluyendo qué evento o acción está programada y cualquier consecuencia o requisito asociado.");
    ("Metodología",
     "Describe en detalle la metodología utilizada en este documento. Explica los métodos de investigación, herramientas, técnicas o enfoques empleados, así como la justificación para su uso. Incluye cualquier limitación o consideración especial mencionada.");
    ("Recomendaciones",
     "Identifica y describe todas las recomendaciones o elementos de acción propuestos en este documento. Para cada uno, explica su propósito, a quién está dirigido y qué resultados se esperan lograr. Incluye cualquier marco de tiempo o recurso mencionado.");
    ("Limitaciones",
     "Detalla las limitaciones o restricciones mencionadas en este documento. Explica cómo estas limitaciones podrían afectar los hallazgos o conclusiones presentadas. Si se mencionan formas de mitigar estas limitaciones, inclúyelas también.");
    ("Datos y estadísticas",
     "Extrae y resume los datos, estadísticas o cifras clave mencionadas en este documento. Para cada dato, proporciona el contexto, la fuente si está disponible y su relevancia para los hallazgos o conclusiones del documento.");
    ("Estructura del documento",
     "Describe la estructura y organización de este documento. Identifica las secciones principales, su propósito y cómo se relacionan entre sí. Explica cómo esta estructura ayuda a presentar la información de manera efectiva.");
    ("Resumen de licitación (JSON)",
     "Analiza este documento de licitación y devuelve un JSON con la siguiente estructura en formato Markdown:" +:+ nl +:+
     nl +:+
     "```json" +:+ nl +:+
     "{" +:+ nl +:+
     "  " +:+ dq +:+ "porcentaje_recomendacion" +:+ dq +:+ ": " +:+ dq +:+ "X%" +:+ dq +:+ "," +:+ nl +:+
     "  " +:+ dq +:+ "porcentaje_recomendacion_short_explain" +:+ dq +:+ ": " +:+ dq +:+ "Breve explicación de 1-2 frases sobre el porcentaje de recomendación" +:+ dq +:+ "," +:+ nl +:+
     "  " +:+ dq +:+ "objeto_contrato" +:+ dq +:+ ": " +:+ dq +:+ "Descripción detallada del objeto del contrato" +:+ dq +:+ "," +:+ nl +:+
     "  " +:+ dq +:+ "presupuesto" +:+ dq +:+ ": " +:+ dq +:+ "Presupuesto Base de Licitación (sin IVA)" +:+ dq +:+ "," +:+ nl +:+
     "  " +:+ dq +:+ "solvencia_requerida" +:+ dq +:+ ": " +:+ dq +:+ "Niveles de solvencia técnica y económica requeridos" +:+ dq +:+ "," +:+ nl +:+
     "  " +:+ dq +:+ "habilitaciones_necesarias" +:+ dq +:+ ": " +:+ dq +:+ "Lista de habilitaciones, certificaciones o requisitos necesarios" +:+ dq +:+ "," +:+ nl +:+
     "  " +:+ dq +:+ "garantias" +:+ dq +:+ ": " +:+ dq +:+ "Detalles sobre las garantías requeridas (provisionales, definitivas, etc.)" +:+ dq +:+ "," +:+ nl +:+
     "  " +:+ dq +:+ "ecuaciones" +:+ dq +:+ ": " +:+ dq +:+ "Fórmulas o criterios de valoración si los hay" +:+ dq +:+ "," +:+ nl +:+
     "  " +:+ dq +:+ "otras_condiciones" +:+ dq +:+ ": " +:+ dq +:+ "Otras condiciones relevantes de la licitación" +:+ dq +:+ "," +:+ nl +:+
     "  " +:+ dq +:+ "recomendacion" +:+ dq +:+ ": " +:+ dq +:+ "Análisis detallado y recomendación sobre la conveniencia de participar" +:+ dq +:+ nl +:+
     "}" +:+ nl +:+
     "```" +:+ nl +:+
     nl +:+
     "Por favor, completa cada campo con la información relevante extraída del documento. Si algún dato no está disponible, indícalo como No especificado. El campo `porcentaje_recomendacion` debe ser un porcentaje (ej: " +:+ dq +:+ "75%" +:+ dq +:+ ") y `porcentaje_recomendacion_short_explain` debe ser una explicación concisa de 1-2 frases. Todos los valores de este JSON serán strings que siguen el formato markdown.") ].

(** [PREDEFINED_QUESTIONS[key]]; [None] stands for [KeyError]. *)
Fixpoint dict_get (d : list (string * string)) (key : string) : option string :=
  match d with
  | [] => None
  | (k, v) :: rest => if String.eqb k key then Some v else dict_get rest key
  end.

(** The empty option, then [list(PREDEFINED_QUESTIONS.keys())[1:]]. *)
Definition QUESTION_OPTIONS : list string :=
  [EmptyString] ++ drop 1 (map fst PREDEFINED_QUESTIONS).

(** *** JSON extractor (lines 340-353) *)

Definition fence_open : string := "```json" +:+ nl.
Definition fence_close : string := nl +:+ "```".

(** Match the literal [lit] at the start of [s]; the rest of [s] on success. *)
Fixpoint match_lit (lit s : string) : option string :=
  match lit, s with
  | EmptyString, _ => Some s
  | String a lit', String b s' => if Ascii.eqb a b then match_lit lit' s' else None
  | String _ _, EmptyString => None
  end.

(** The lazy group [(.*?)] under [re.DOTALL] followed by the closing
    literal, at the start of [s]: the group takes no character if the
    closing literal matches here, else one more character (any one, line
    feeds included) and so on.  The result is the group. *)
Fixpoint lazy_until (close s : string) : option string :=
  match match_lit close s with
  | Some _ => Some EmptyString
  | None =>
      match s with
      | EmptyString => None
      | String c s' => option_map (String c) (lazy_until close s')
      end
  end.

(** The whole pattern at the start of [s]. *)
Definition match_fence_at (s : string) : option string :=
  match match_lit fence_open s with
  | Some rest => lazy_until fence_close rest
  | None => None
  end.

(** [re.search(r'```json\n(.*?)\n```', text, re.DOTALL)]: the pattern is
    tried at every start position from the left, and the first position
    where it matches wins.  The result is [json_match.group(1)]. *)
Fixpoint re_search_fence (text : string) : option string :=
  match match_fence_at text with
  | Some group1 => Some group1
  | None =>
      match text with
      | EmptyString => None
      | String _ text' => re_search_fence text'
      end
  end.

(** [except (json.JSONDecodeError, AttributeError) as e] (line 351): of
    what [json.loads] raises, only [JSONDecodeError] is caught; an exception
    of another class leaves the function.  Nothing in the [try] block raises
    [AttributeError] on a [str]. *)
Definition extract_json_from_markdown (text : string) : M JSON :=
  let loaded :=
    match re_search_fence text with
    | Some json_str => json_loads json_str
    | None => json_loads text
    end in
  match loaded with
  | Parsed v => ret v
  | DecodeError e =>
      logging_error ("Error parsing JSON: " +:+ e) >>
      ret JNull
  | OtherError e => raise e
  end.

(** The keys of [field_labels] in [display_json_cards] (lines 361-371). *)
Definition field_labels_keys : list string :=
  [ "porcentaje_recomendacion"; "objeto_contrato"; "presupuesto";
    "solvencia_requerida"; "habilitaciones_necesarias"; "garantias";
    "ecuaciones"; "otras_condiciones"; "recomendacion" ].

End Program.


(** ** Specification-side definitions

    Stated after the words of the specification, to be compared with the
    definitions above. *)

(** The text of one numbered question/answer pair of the transcript. *)
Definition render_pair (i : nat) (chat : ChatTurn) : string :=
  (nl +:+ nl +:+ "Pregunta " +:+ str_of_nat i +:+ ": " +:+ question chat) +:+
  (nl +:+ "Respuesta " +:+ str_of_nat i +:+ ": " +:+ answer chat).

(** The pairs of the transcript: every turn but the last, numbered from 1
    in the order of the history. *)
Definition transcript_pairs (h : list ChatTurn) : list string :=
  imap (fun k chat => render_pair (S k) chat) (all_but_last h).

(** [s] occurs in [text]. *)
Fixpoint contains (s text : string) : bool :=
  match match_lit s text with
  | Some _ => true
  | None =>
      match text with
      | EmptyString => false
      | String _ text' => contains s text'
      end
  end.

(** The lines of a text, split at line feeds. *)
Fixpoint lines_from (cur text : string) : list string :=
  match text with
  | EmptyString => [String.rev cur]
  | String c text' =>
      if Ascii.eqb c (ascii_of_nat 10) then String.rev cur :: lines_from EmptyString text'
      else lines_from (String c cur) text'
  end.

(** The characters of [s] before the first double quote. *)
Fixpoint until_quote (s : string) : string :=
  match s with
  | EmptyString => EmptyString
  | String c s' =>
      if Ascii.eqb c (ascii_of_nat 34) then EmptyString else String c (until_quote s')
  end.

(** The field a line of a JSON object names: the text between the quotes
    of a line that starts with two spaces and a double quote. *)
Definition field_of_line (line : string) : option string :=
  match match_lit ("  " +:+ dq) line with
  | Some rest => Some (until_quote rest)
  | None => None
  end.

(** The fields named by the JSON object shown in the first [json] fence of
    a prompt body. *)
Definition template_fields (body : string) : list string :=
  match re_search_fence body with
  | Some interior => omap field_of_line (lines_from EmptyString interior)
  | None => []
  end.

(** The keys the menu offers besides the empty default. *)
Definition offered_keys : list string := drop 1 QUESTION_OPTIONS.

Definition json_summary_key : string := "Resumen de licitación (JSON)".



(** The message of the [ValueError] that [int] raises on a literal of [n]
    digits, [n] above the limit of 4300. *)
Definition int_limit_message (n : nat) : string :=
  "Exceeds the limit (4300 digits) for integer string conversion: value has " +:+
  str_of_nat n +:+ " digits; use sys.set_int_max_str_digits() to increase the limit".

(** The text of the specification's example, and the same inside a fence. *)
Definition json_a1 : string :=
  "{" +:+ dq +:+ "a" +:+ dq +:+ ": " +:+ dq +:+ "1" +:+ dq +:+ "}".

Definition fenced_a1 : string :=
  "```json" +:+ nl +:+ json_a1 +:+ nl +:+ "```".

(** A reply with two fences, the first of which holds no JSON. *)
Definition two_fences : string :=
  "Resumen:" +:+ nl +:+ "```json" +:+ nl +:+ "{pendiente" +:+ nl +:+ "```" +:+ nl +:+
  "```json" +:+ nl +:+ json_a1 +:+ nl +:+ "```".

(** *** The batch, source by source *)

(** The reply [process_pdf_data] hands back for an outcome of the model
    client: the text when there is a non-empty one, [None] otherwise. *)
Definition reply_text (r : Result (option string)) : option string :=
  match r with
  | Ok text => text_or_none text
  | Raise _ => None
  end.

(** The world after a call of the model client with outcome [r]. *)
Definition after_model (pdf_data : bytes) (prompt : string)
    (r : Result (option string)) (w : World) : World :=
  match r with
  | Ok _ => add_model_call pdf_data prompt w
  | Raise e => add_log ("Error in Gemini API call: " +:+ e) (add_model_call pdf_data prompt w)
  end.

(** The world after a failure [e] on the URL [url]: logged and shown. *)
Definition after_url_error (url : string) (e : exn) (w : World) : World :=
  add_ui_error ("Failed to process PDF from URL: " +:+ url)
    (add_log ("Error processing URL " +:+ url +:+ ": " +:+ e) w).

(** The entries a reply adds: one for a non-empty text, none otherwise. *)
Definition reply_entries (filename : string) (reply : option string) : list Entry :=
  match reply with
  | Some t => if truthy t then [mkEntry filename t] else []
  | None => []
  end.

(** An entry list a source can add: nothing, or one entry that carries a
    non-empty text the model client replied to this prompt. *)
Definition from_model (generate_content : World → bytes → string → Result (option string))
    (prompt : string) (es : list Entry) : Prop :=
  es = [] ∨
  ∃ n t w0 d, es = [mkEntry n t] ∧ t ≠ EmptyString
              ∧ generate_content w0 d prompt = Ok (Some t).

(** The requests one source causes: its URL in URL mode, none otherwise. *)
Definition requested (st : SourceType) (s : Source) : list string :=
  match st, s with
  | TUrl, SUrl url => [url]
  | _, _ => []
  end.

Section Batch.

Variable urlparse : string → Result ParseResult.
Variable httpx_get : World → string → Result HttpResponse.
Variable generate_content : World → bytes → string → Result (option string).
Variable tmp_name : World → string.
Variable fs_fault : World → FsOp → option exn.
Variable source_type : SourceType.
Variable prompt_text : string.
Variable chat_history : option (list ChatTurn).

(** The entries one source yields when processed alone from the world [w]. *)
Definition source_entries (source : Source) (w : World) : list Entry :=
  match fst (process_source urlparse httpx_get generate_content tmp_name fs_fault
               source_type prompt_text chat_history source [] w) with
  | Ok es => es
  | Raise _ => []
  end.

(** The world one source leaves behind. *)
Definition source_world (source : Source) (w : World) : World :=
  snd (process_source urlparse httpx_get generate_content tmp_name fs_fault
         source_type prompt_text chat_history source [] w).

(** The result of a batch, source by source: the entries of the first
    source, then those of the remaining sources processed from the world
    the first one left. *)
Fixpoint collected (sources : list Source) (w : World) : list Entry :=
  match sources with
  | [] => []
  | source :: rest =>
      (source_entries source w ++ collected rest (source_world source w))%list
  end.

Fixpoint world_after (sources : list Source) (w : World) : World :=
  match sources with
  | [] => w
  | source :: rest => world_after rest (source_world source w)
  end.

End Batch.

(** The name under which a source appears in the result: the name of an
    uploaded file, and for a URL the name made from its authority. *)
Definition display_name (urlparse : string → Result ParseResult) (s : Source) : string :=
  match s with
  | SFile f => name f
  | SUrl url =>
      match urlparse url with
      | Ok parsed => "PDF_from_" +:+ netloc parsed +:+ ".pdf"
      | Raise _ => EmptyString
      end
  end.

(** No white space at the start of [s], for the scan of [lstrip] and, with
    the bytes of a character in reverse order, for that of [lstrip_rev]. *)
Definition starts_clean (rev : bool) (s : string) : bool :=
  match s with
  | String a s1 =>
      negb (is_space1 a) &&
      match s1 with
      | String b s2 =>
          negb (if rev then is_space2 b a else is_space2 a b) &&
          match s2 with
          | String c _ => negb (if rev then is_space3 c b a else is_space3 a b c)
          | EmptyString => true
          end
      | EmptyString => true
      end
  | EmptyString => true
  end.

(** ** The session controller

    The reads and writes of [st.session_state] in [show_landing_page]
    (lines 292-304), [show_main_app] (lines 501-533) and [main] (lines
    574-583 and 607-657), without the drawing of the page.  The widgets of a
    run are arguments: what the user typed, chose and pressed. *)

(** The keys of [st.session_state].  [ss_auto_run_complete] and
    [ss_json_summary_data] are [None] while the key is not set; the JSON
    value [JNull] is Python's [None]. *)
Record Session := mkSession {
  ss_chat_history : list ChatTurn;
  ss_file_docs : list UploadedFile;
  ss_url_docs : list string;
  ss_predefined_question_trigger : string;
  ss_show_main_app : bool;
  ss_auto_run_complete : option bool;
  ss_json_summary_data : option JSON
}.

(** The session after the initialisation at the top of [main]
    (lines 574-583) on a fresh session. *)
Definition initial_session : Session :=
  mkSession [] [] [] EmptyString false None None.

Definition set_chat_history (h : list ChatTurn) (ss : Session) : Session :=
  mkSession h (ss_file_docs ss) (ss_url_docs ss) (ss_predefined_question_trigger ss)
    (ss_show_main_app ss) (ss_auto_run_complete ss) (ss_json_summary_data ss).

Definition set_trigger (t : string) (ss : Session) : Session :=
  mkSession (ss_chat_history ss) (ss_file_docs ss) (ss_url_docs ss) t
    (ss_show_main_app ss) (ss_auto_run_complete ss) (ss_json_summary_data ss).

Definition set_show_main_app (b : bool) (ss : Session) : Session :=
  mkSession (ss_chat_history ss) (ss_file_docs ss) (ss_url_docs ss)
    (ss_predefined_question_trigger ss) b (ss_auto_run_complete ss)
    (ss_json_summary_data ss).

Definition set_docs (files : list UploadedFile) (urls : list string) (ss : Session)
    : Session :=
  mkSession (ss_chat_history ss) files urls (ss_predefined_question_trigger ss)
    (ss_show_main_app ss) (ss_auto_run_complete ss) (ss_json_summary_data ss).

Definition set_auto_run_complete (b : bool) (ss : Session) : Session :=
  mkSession (ss_chat_history ss) (ss_file_docs ss) (ss_url_docs ss)
    (ss_predefined_question_trigger ss) (ss_show_main_app ss) (Some b)
    (ss_json_summary_data ss).

Definition set_json_summary_data (j : JSON) (ss : Session) : Session :=
  mkSession (ss_chat_history ss) (ss_file_docs ss) (ss_url_docs ss)
    (ss_predefined_question_trigger ss) (ss_show_main_app ss)
    (ss_auto_run_complete ss) (Some j).

(** [l[-n:]] for a positive [n]: the last [n] elements, or all of them. *)
Definition last_n {A} (n : nat) (l : list A) : list A :=
  drop (length l - n) l.

(** [response or fallback]: the fallback for [None] and for the empty text. *)
Definition response_or (response : option string) (fallback : string) : string :=
  match response with
  | Some r => if truthy r then r else fallback
  | None => fallback
  end.

(** [if h and h[-1]["answer"] == placeholder: h[-1]["answer"] = new_answer]. *)
Definition replace_placeholder (placeholder new_answer : string)
    (h : list ChatTurn) : list ChatTurn :=
  match last h with
  | Some turn =>
      if String.eqb (answer turn) placeholder
      then (all_but_last h ++
            [mkChatTurn (question turn) new_answer (is_json_summary turn)])%list
      else h
  | None => h
  end.

Section Controller.

Variable urlparse : string → Result ParseResult.
Variable json_loads : string → JsonOutcome.
Variable httpx_get : World → string → Result HttpResponse.
Variable generate_content : World → bytes → string → Result (option string).
Variable tmp_name : World → string.
Variable fs_fault : World → FsOp → option exn.

(** *** Landing page (lines 292-304)

    The result holds the session and whether [st.rerun()] was called. *)

(** [[url.strip() for url in url_input.split('\n') if url.strip()]], then
    [[url for url in urls if is_valid_url(url)]]. *)
Definition landing_urls (url_input : string) : list string :=
  let urls :=
    map strip (List.filter (fun url => truthy (strip url))
                 (lines_from EmptyString url_input)) in
  List.filter (is_valid_url urlparse) urls.

Definition landing_start (uploaded_files : list UploadedFile) (url_input : string)
    (ss : Session) : M (Session * bool) :=
  if negb (truthy_list uploaded_files) && negb (truthy (strip url_input)) then
    st_error "Por favor, sube al menos un archivo o ingresa una URL para continuar." >>
    ret (ss, false)
  else
    let valid_urls := landing_urls url_input in
    let ss := set_docs (if truthy_list uploaded_files then uploaded_files else [])
                valid_urls ss in
    let ss := set_show_main_app true ss in
    ret (ss, true).

(** *** The automatic summary (lines 501-533 of [show_main_app])

    An exception that the extractor lets through leaves [show_main_app]
    before [st.rerun()]: it is then the result of [auto_run], which does
    not tell the session that the exception leaves behind. *)

Definition json_question : string := "Resumen de licitación (JSON)".

Definition summary_placeholder : string := "Procesando resumen de licitación...".

Definition auto_run (ss : Session) : M (Session * bool) :=
  let ss :=
    match ss_auto_run_complete ss with
    | None => set_auto_run_complete false ss
    | Some _ => ss
    end in
  let ss :=
    match ss_json_summary_data ss with
    | None => set_json_summary_data JNull ss
    | Some _ => ss
    end in
  let docs_available := truthy_list (ss_file_docs ss) || truthy_list (ss_url_docs ss) in
  if negb (default false (ss_auto_run_complete ss)) && docs_available then
    let ss := set_auto_run_complete true ss in
    let* ss :=
      match dict_get PREDEFINED_QUESTIONS json_question with
      | Some body =>
          let ss :=
            set_chat_history
              (ss_chat_history ss ++ [mkChatTurn body summary_placeholder true]) ss in
          let* response :=
            user_input urlparse httpx_get generate_content tmp_name fs_fault
              body (Some (ss_file_docs ss)) (Some (ss_url_docs ss))
              (Some (ss_chat_history ss)) in
          match last (ss_chat_history ss) with
          | Some turn =>
              if String.eqb (answer turn) summary_placeholder then
                let ss :=
                  set_chat_history
                    (replace_placeholder summary_placeholder
                       (response_or response "No se pudo generar el resumen de la licitación")
                       (ss_chat_history ss)) ss in
                match response with
                | Some r =>
                    if truthy r then
                      let* data := extract_json_from_markdown json_loads r in
                      ret (set_json_summary_data data ss)
                    else ret ss
                | None => ret ss
                end
              else ret ss
          | None => ret ss
          end
      | None => ret ss
      end in
    ret (ss, true)
  else ret (ss, false).

(** *** The chat (lines 607-657 of [main]) *)

(** The button that returns to the landing page (lines 607-609). *)
Definition back_to_landing (ss : Session) : Session := set_show_main_app false ss.

Definition chat_placeholder : string := "Procesando...".

(** Lines 613-657: the menu of predefined questions, the chat input and the
    question asked.  [chat_input] is what [st.chat_input] returned. *)
Definition main_chat (selected_question_key : string) (button : bool)
    (chat_input : option string) (ss : Session) : M (Session * bool) :=
  let* ss :=
    if button && truthy selected_question_key then
      match dict_get PREDEFINED_QUESTIONS selected_question_key with
      | Some body => ret (set_trigger body ss)
      | None => raise ("'" +:+ selected_question_key +:+ "'")
      end
    else ret ss in
  let typed := match chat_input with Some t => truthy t | None => false end in
  let user_question :=
    if negb typed && truthy (ss_predefined_question_trigger ss)
    then Some (ss_predefined_question_trigger ss)
    else chat_input in
  let ss :=
    if negb typed && truthy (ss_predefined_question_trigger ss)
    then set_trigger EmptyString ss
    else ss in
  match user_question with
  | Some q =>
      if truthy q && (truthy_list (ss_file_docs ss) || truthy_list (ss_url_docs ss)) then
        let ss :=
          set_chat_history
            (ss_chat_history ss ++ [mkChatTurn q chat_placeholder false]) ss in
        let* response :=
          user_input urlparse httpx_get generate_content tmp_name fs_fault
            q (Some (ss_file_docs ss)) (Some (ss_url_docs ss))
            (Some (last_n 10 (ss_chat_history ss))) in
        let ss :=
          set_chat_history
            (replace_placeholder chat_placeholder
               (response_or response "No se generó ninguna respuesta")
               (ss_chat_history ss)) ss in
        ret (ss, true)
      else ret (ss, false)
  | None => ret (ss, false)
  end.

End Controller.

(** ** Environments for the examples

    Concrete stand-ins for the third-party functions, used only to run the
    program on the inputs of the examples below.  No theorem about the
    program assumes them. *)

Module Ref.

(** *** A reader for [urlparse]

    Scheme and authority as [urllib.parse.urlsplit] computes them on an
    ASCII string: the scheme is the text before the first colon when it
    starts with a letter and holds only letters, digits, [+], [-] and [.];
    the authority follows a leading [//] up to the first [/], [?] or [#];
    an authority with one square bracket but not the other is refused.
    The rest of the URL is left in [path] unsplit, since the program reads
    [scheme] and [netloc] only. *)

Definition is_alpha (a : ascii) : bool :=
  let n := nat_of_ascii a in
  (((65 <=? n) && (n <=? 90)) || ((97 <=? n) && (n <=? 122)))%nat.

Definition is_digit (a : ascii) : bool :=
  let n := nat_of_ascii a in
  ((48 <=? n) && (n <=? 57))%nat.

Definition is_scheme_char (a : ascii) : bool :=
  is_alpha a || is_digit a ||
  Ascii.eqb a "+" || Ascii.eqb a "-" || Ascii.eqb a ".".

Fixpoint all_chars (p : ascii → bool) (s : string) : bool :=
  match s with
  | EmptyString => true
  | String a s' => p a && all_chars p s'
  end.

Fixpoint has_char (c : ascii) (s : string) : bool :=
  match s with
  | EmptyString => false
  | String a s' => Ascii.eqb a c || has_char c s'
  end.

(** [s.split(c, 1)] when [c] occurs in [s]. *)
Fixpoint split_first (c : ascii) (s : string) : option (string * string) :=
  match s with
  | EmptyString => None
  | String a s' =>
      if Ascii.eqb a c then Some (EmptyString, s')
      else option_map (fun p => (String a (fst p), snd p)) (split_first c s')
  end.

(** The longest prefix without [/], [?], [#], and what follows it. *)
Fixpoint split_netloc (s : string) : string * string :=
  match s with
  | EmptyString => (EmptyString, EmptyString)
  | String a s' =>
      if Ascii.eqb a "/" || Ascii.eqb a "?" || Ascii.eqb a "#" then (EmptyString, s)
      else (String a (fst (split_netloc s')), snd (split_netloc s'))
  end.

(** A character that may stand in a plain host name: none of the
    delimiters that end the authority, and no square bracket. *)
Definition is_host_char (a : ascii) : bool :=
  negb (Ascii.eqb a "/" || Ascii.eqb a "?" || Ascii.eqb a "#" ||
        Ascii.eqb a "[" || Ascii.eqb a "]").

Definition split_scheme (url : string) : string * string :=
  match split_first ":" url with
  | Some (String a pre, rest) =>
      if is_alpha a && all_chars is_scheme_char (String a pre)
      then (lower (String a pre), rest)
      else (EmptyString, url)
  | _ => (EmptyString, url)
  end.

Definition urlparse (url : string) : Result ParseResult :=
  let (sch, rest) := split_scheme url in
  match match_lit "//" rest with
  | Some after =>
      let (loc, rest') := split_netloc after in
      if xorb (has_char "[" loc) (has_char "]" loc)
      then Raise "Invalid IPv6 URL"
      else Ok (mkParseResult sch loc rest' EmptyString EmptyString EmptyString)
  | None => Ok (mkParseResult sch EmptyString rest EmptyString EmptyString EmptyString)
  end.

(** *** A reader for [json.loads]

    Objects, arrays, strings with the two-character escapes, numbers kept
    as their literal, [true], [false] and [null], with JSON white space
    between tokens.  Members are kept in the order of the text.  An integer
    literal of more than 4300 digits raises [ValueError], as [int] does
    since CPython 3.11 (and the security releases of 3.7 to 3.10).  The
    constants [NaN] and [Infinity], the [\u] escapes and the recursion limit
    of the interpreter are left out. *)

Definition is_json_space (a : ascii) : bool :=
  let n := nat_of_ascii a in
  ((n =? 32) || (n =? 9) || (n =? 10) || (n =? 13))%nat.

Fixpoint skip_space (s : string) : string :=
  match s with
  | String a s' => if is_json_space a then skip_space s' else s
  | EmptyString => s
  end.

(** The characters of a string literal after its opening quote. *)
Fixpoint read_string (s : string) : option (string * string) :=
  match s with
  | EmptyString => None
  | String a s' =>
      if Ascii.eqb a (ascii_of_nat 34) then Some (EmptyString, s')
      else if (nat_of_ascii a <? 32)%nat then None
      else if Ascii.eqb a (ascii_of_nat 92) then
        match s' with
        | String b s'' =>
            let put (c : ascii) :=
              option_map (fun p => (String c (fst p), snd p)) (read_string s'') in
            if Ascii.eqb b (ascii_of_nat 34) then put b
            else if Ascii.eqb b (ascii_of_nat 92) then put b
            else if Ascii.eqb b "/" then put b
            else if Ascii.eqb b "n" then put (ascii_of_nat 10)
            else if Ascii.eqb b "t" then put (ascii_of_nat 9)
            else if Ascii.eqb b "r" then put (ascii_of_nat 13)
            else if Ascii.eqb b "b" then put (ascii_of_nat 8)
            else if Ascii.eqb b "f" then put (ascii_of_nat 12)
            else None
        | EmptyString => None
        end
      else option_map (fun p => (String a (fst p), snd p)) (read_string s')
  end.

(** The outcome of a reading step: a result, a syntax error, or an
    exception that is no [JSONDecodeError]. *)
Inductive Read (A : Type) :=
| Got (a : A)
| Bad
| Fail (e : exn).
Arguments Got {A} a.
Arguments Bad {A}.
Arguments Fail {A} e.

Definition read_map {A B} (f : A → B) (r : Read A) : Read B :=
  match r with
  | Got a => Got (f a)
  | Bad => Bad
  | Fail e => Fail e
  end.

Definition of_option {A} (o : option A) : Read A :=
  match o with
  | Some a => Got a
  | None => Bad
  end.

(** The longest run of digits at the start of [s], and the rest. *)
Fixpoint read_digits (s : string) : string * string :=
  match s with
  | String a s' =>
      if is_digit a
      then let (digits, rest) := read_digits s' in (String a digits, rest)
      else (EmptyString, s)
  | EmptyString => (EmptyString, EmptyString)
  end.

(** A number at the start of [s], after the grammar of the decoder: an
    optional minus sign; a zero, or digits that do not start with a zero;
    optionally a dot and digits; optionally [e] or [E], an optional sign
    and digits.  The result is the literal, the digits of its integer
    part, whether it has a fraction or an exponent, and the rest. *)
Definition read_number (s : string) : option (string * string * bool * string) :=
  let (sign, s1) :=
    match s with
    | String a s' => if Ascii.eqb a "-" then (String a EmptyString, s') else (EmptyString, s)
    | EmptyString => (EmptyString, s)
    end in
  let (digits, s2) := read_digits s1 in
  match digits with
  | EmptyString => None
  | String d ds =>
      let (int, s2) :=
        if Ascii.eqb d "0" then (String d EmptyString, ds +:+ s2) else (digits, s2) in
      let (frac, s3) :=
        match s2 with
        | String a s' =>
            if Ascii.eqb a "." then
              let (f, rest) := read_digits s' in
              match f with
              | EmptyString => (EmptyString, s2)
              | String _ _ => (String a f, rest)
              end
            else (EmptyString, s2)
        | EmptyString => (EmptyString, s2)
        end in
      let (exp, s4) :=
        match s3 with
        | String a s' =>
            if Ascii.eqb a "e" || Ascii.eqb a "E" then
              let (sg, s'') :=
                match s' with
                | String b r =>
                    if Ascii.eqb b "+" || Ascii.eqb b "-"
                    then (String b EmptyString, r) else (EmptyString, s')
                | EmptyString => (EmptyString, s')
                end in
              let (x, rest) := read_digits s'' in
              match x with
              | EmptyString => (EmptyString, s3)
              | String _ _ => (String a (sg +:+ x), rest)
              end
            else (EmptyString, s3)
        | EmptyString => (EmptyString, s3)
        end in
      Some (sign +:+ int +:+ frac +:+ exp, int, truthy frac || truthy exp, s4)
  end.

(** One value at the start of [s], with [fuel] bounding the nesting and
    the number of members read.  An integer literal of more than 4300
    digits makes [int] raise [ValueError] as soon as it is read. *)
Fixpoint read_value (fuel : nat) (s : string) : Read (JSON * string) :=
  match fuel with
  | O => Bad
  | S fuel =>
      let fix read_items (n : nat) (s : string) : Read (list JSON * string) :=
        match n with
        | O => Bad
        | S n =>
            match read_value fuel s with
            | Got (v, rest) =>
                match skip_space rest with
                | String c rest' =>
                    if Ascii.eqb c "," then
                      read_map (fun p => (v :: fst p, snd p)) (read_items n rest')
                    else if Ascii.eqb c "]" then Got ([v], rest')
                    else Bad
                | EmptyString => Bad
                end
            | Bad => Bad
            | Fail e => Fail e
            end
        end in
      let fix read_members (n : nat) (s : string)
          : Read (list (string * JSON) * string) :=
        match n with
        | O => Bad
        | S n =>
            match skip_space s with
            | String q s1 =>
                if Ascii.eqb q (ascii_of_nat 34) then
                  match read_string s1 with
                  | Some (key, s2) =>
                      match skip_space s2 with
                      | String c s3 =>
                          if Ascii.eqb c ":" then
                            match read_value fuel s3 with
                            | Got (v, rest) =>
                                match skip_space rest with
                                | String d rest' =>
                                    if Ascii.eqb d "," then
                                      read_map (fun p => ((key, v) :: fst p, snd p))
                                        (read_members n rest')
                                    else if Ascii.eqb d "}" then Got ([(key, v)], rest')
                                    else Bad
                                | EmptyString => Bad
                                end
                            | Bad => Bad
                            | Fail e => Fail e
                            end
                          else Bad
                      | EmptyString => Bad
                      end
                  | None => Bad
                  end
                else Bad
            | EmptyString => Bad
            end
        end in
      match skip_space s with
      | EmptyString => Bad
      | String c s' =>
          if Ascii.eqb c (ascii_of_nat 34) then
            read_map (fun p => (JString (fst p), snd p)) (of_option (read_string s'))
          else if Ascii.eqb c "[" then
            match skip_space s' with
            | String d s'' =>
                if Ascii.eqb d "]" then Got (JArray [], s'')
                else read_map (fun p => (JArray (fst p), snd p)) (read_items fuel s')
            | EmptyString => Bad
            end
          else if Ascii.eqb c "{" then
            match skip_space s' with
            | String d s'' =>
                if Ascii.eqb d "}" then Got (JObject [], s'')
                else read_map (fun p => (JObject (fst p), snd p)) (read_members fuel s')
            | EmptyString => Bad
            end
          else if is_digit c || Ascii.eqb c "-" then
            match read_number (String c s') with
            | Some (literal, int, is_float, rest) =>
                if negb is_float && (4300 <? String.length int)%nat
                then Fail (int_limit_message (String.length int))
                else Got (JNumber literal, rest)
            | None => Bad
            end
          else
            match match_lit "true" (String c s'), match_lit "false" (String c s'),
                  match_lit "null" (String c s') with
            | Some rest, _, _ => Got (JBool true, rest)
            | _, Some rest, _ => Got (JBool false, rest)
            | _, _, Some rest => Got (JNull, rest)
            | _, _, _ => Bad
            end
      end
  end.

Definition json_loads (text : string) : JsonOutcome :=
  match read_value (S (String.length text)) text with
  | Got (v, rest) =>
      match skip_space rest with
      | EmptyString => Parsed v
      | String _ _ => DecodeError "Extra data"
      end
  | Bad => DecodeError "Expecting value"
  | Fail e => OtherError e
  end.

End Ref.

(** *** Scripted services *)

Module Env.

(** The world before anything happened. *)
Definition empty_world : World := mkWorld ∅ [] [] [] [].

(** A model client that gives its [k]-th caller the [k]-th reply of a
    script, and an API error once the script is used up. *)
Definition scripted_model (script : list (Result (option string)))
    : World → bytes → string → Result (option string) :=
  fun w _ _ => nth (length (model_calls w)) script (Raise "429 RESOURCE_EXHAUSTED").

(** A network that answers the [k]-th request with the [k]-th entry of a
    script, and refuses connections afterwards. *)
Definition scripted_get (script : list (Result HttpResponse))
    : World → string → Result HttpResponse :=
  fun w _ => nth (length (requests w)) script (Raise "[Errno 111] Connection refused").

(** A 200 response with the given body. *)
Definition ok_response (body : bytes) : HttpResponse :=
  mkHttpResponse 200 body None.

(** A 404 response: [raise_for_status] raises. *)
Definition not_found : HttpResponse :=
  mkHttpResponse 404 [] (Some "Client error '404 Not Found'").

(** A model client whose reply never has any text. *)
Definition silent_model : World → bytes → string → Result (option string) :=
  fun _ _ _ => Ok (Some EmptyString).

Definition tmp_name : World → string := fun _ => "/tmp/tmpk3v9x2.pdf".

(** An operating system that never fails. *)
Definition no_fault : World → FsOp → option exn := fun _ _ => None.

(** An operating system that refuses every [unlink]. *)
Definition unlink_fault : World → FsOp → option exn :=
  fun _ op =>
    match op with
    | OpUnlink _ => Some "[Errno 13] Permission denied"
    | _ => None
    end.

(** An operating system whose disk is full: every write fails. *)
Definition write_fault : World → FsOp → option exn :=
  fun _ op =>
    match op with
    | OpWrite _ => Some "[Errno 28] No space left on device"
    | _ => None
    end.

(** An operating system on which the temporary file cannot be read back. *)
Definition read_fault : World → FsOp → option exn :=
  fun _ op =>
    match op with
    | OpRead _ => Some "[Errno 5] Input/output error"
    | _ => None
    end.

Definition file_x : UploadedFile :=
  mkUploadedFile "x.pdf" [Byte.x25; Byte.x50; Byte.x44; Byte.x46] "UploadedFile(name='x.pdf')".

Definition file_y : UploadedFile :=
  mkUploadedFile "y.pdf" [Byte.x25; Byte.x50; Byte.x44; Byte.x46; Byte.x0a] "UploadedFile(name='y.pdf')".

End Env.

(** ** Sessions for the examples *)

Module Demo.

(** A session that has started with one uploaded file. *)
Definition with_file_x : Session :=
  set_show_main_app true (set_docs [Env.file_x] [] initial_session).

(** The same session after a conversation of eleven turns. *)
Definition long_talk : Session :=
  set_chat_history
    (map (fun k => mkChatTurn ("P" +:+ str_of_nat k) ("R" +:+ str_of_nat k) false)
       (seq 1 11))
    with_file_x.

(** The same session once the automatic summary has run. *)
Definition summarised : Session :=
  set_json_summary_data (JObject [("presupuesto", JString "1000 EUR")])
    (set_auto_run_complete true
       (set_chat_history [mkChatTurn "Resumen" "**x.pdf**" true] with_file_x)).

End Demo.


(** * Properties *)

(** ** Strings *)

Lemma append_nil_l (s : string) : EmptyString +:+ s = s.
Proof. reflexivity. Qed.

Lemma append_cons (a : ascii) (s t : string) :
  String a s +:+ t = String a (s +:+ t).
Proof. reflexivity. Qed.

Lemma append_nil_r (s : string) : s +:+ EmptyString = s.
Proof.
  induction s as [|a s IH]; [reflexivity|].
  now rewrite append_cons, IH.
Qed.

Lemma append_assoc (a b c : string) : (a +:+ b) +:+ c = a +:+ (b +:+ c).
Proof.
  induction a as [|x a IH]; [reflexivity|].
  now rewrite !append_cons, IH.
Qed.

Lemma append_length (a b : string) :
  String.length (a +:+ b) = String.length a + String.length b.
Proof.
  induction a as [|x a IH]; [reflexivity|].
  rewrite append_cons. simpl. now rewrite IH.
Qed.

Lemma truthy_true (s : string) : truthy s = true ↔ s ≠ EmptyString.
Proof. destruct s; simpl; split; intros; congruence. Qed.

Lemma truthy_list_true {A} (l : list A) : truthy_list l = true ↔ l ≠ [].
Proof. destruct l; simpl; split; intros; congruence. Qed.

(** ** Validator *)

Section Validator.

Variable urlparse : string → Result ParseResult.

(** C6.  [is_valid_url s] is true exactly when [s] parses into a URL whose
    scheme and whose authority are both non-empty.  So it is false for a
    string that does not parse, or whose parse lacks a scheme or lacks an
    authority, and true for a string that parses with both. *)
Theorem is_valid_url_iff (s : string) :
  (is_valid_url urlparse s = true ↔
     ∃ r, urlparse s = Ok r ∧ scheme r ≠ EmptyString ∧ netloc r ≠ EmptyString)
  ∧ (∀ r, urlparse s = Ok r →
       scheme r = EmptyString ∨ netloc r = EmptyString →
       is_valid_url urlparse s = false)
  ∧ (∀ e, urlparse s = Raise e → is_valid_url urlparse s = false)
  ∧ (∀ r, urlparse s = Ok r →
       scheme r ≠ EmptyString → netloc r ≠ EmptyString →
       is_valid_url urlparse s = true).
Proof.
  unfold is_valid_url.
  destruct (urlparse s) as [r|e] eqn:Hp.
  - assert (Hiff : truthy (scheme r) && truthy (netloc r) = true ↔
                   scheme r ≠ EmptyString ∧ netloc r ≠ EmptyString).
    { rewrite andb_true_iff, !truthy_true. reflexivity. }
    split; [|split; [|split]].
    + rewrite Hiff. split.
      * intros H. exists r. tauto.
      * intros (r' & Hr & H). inversion Hr; subst r'. exact H.
    + intros r' Hr H. inversion Hr; subst r'.
      apply not_true_is_false. rewrite Hiff. tauto.
    + intros e He. discriminate He.
    + intros r' Hr H1 H2. inversion Hr; subst r'. apply Hiff. tauto.
  - split; [|split; [|split]].
    + split; [intros H; discriminate H | intros (r & Hr & _); discriminate Hr].
    + intros r Hr. discriminate Hr.
    + reflexivity.
    + intros r Hr. discriminate Hr.
Qed.

End Validator.

(** C6, at concrete strings: a URL with scheme and host is valid, a bare
    file name is not. *)
Lemma is_valid_url_iff_witness :
  is_valid_url Ref.urlparse "https://contrataciondelestado.es/pliego" = true
  ∧ is_valid_url Ref.urlparse "pliego.pdf" = false.
Proof.
  split.
  - eapply (proj2 (proj2 (proj2
              (is_valid_url_iff Ref.urlparse "https://contrataciondelestado.es/pliego")))).
    + vm_compute. reflexivity.
    + vm_compute. discriminate.
    + vm_compute. discriminate.
  - eapply (proj1 (proj2
              (is_valid_url_iff Ref.urlparse "pliego.pdf"))).
    + vm_compute. reflexivity.
    + left. vm_compute. reflexivity.
Defined.

(** ** Prompt builder *)

Lemma concat_empty_cons (x : string) (l : list string) :
  String.concat EmptyString (x :: l) = x +:+ String.concat EmptyString l.
Proof.
  destruct l as [|y l]; simpl.
  - now rewrite append_nil_r.
  - reflexivity.
Qed.

(** The loop appends, to what it was given, the pairs of its turns numbered
    from its counter. *)
Lemma history_loop_spec (chats : list ChatTurn) :
  ∀ (i : nat) (acc : string),
    history_loop i chats acc =
    acc +:+ String.concat EmptyString (imap (fun k chat => render_pair (i + k) chat) chats).
Proof.
  induction chats as [|chat rest IH]; intros i acc.
  - simpl. now rewrite append_nil_r.
  - cbn [history_loop]. rewrite IH.
    rewrite imap_cons, concat_empty_cons, Nat.add_0_r.
    assert (Hshift :
      imap ((fun k chat => render_pair (i + k) chat) ∘ S) rest =
      imap (fun k chat => render_pair (S i + k) chat) rest).
    { apply imap_ext. intros k chat' _. simpl. now rewrite Nat.add_succ_r. }
    rewrite Hshift. unfold render_pair at 2.
    now rewrite !append_assoc.
Qed.

Lemma all_but_last_length {A} (l : list A) :
  length (all_but_last l) = length l - 1.
Proof. unfold all_but_last. rewrite length_take. lia. Qed.

Lemma all_but_last_snoc {A} (l : list A) (x : A) : all_but_last (l ++ [x]) = l.
Proof.
  unfold all_but_last. rewrite length_app. simpl.
  replace (length l + 1 - 1) with (length l) by lia.
  now rewrite take_app_length.
Qed.

Lemma all_but_last_lookup {A} (l : list A) (k : nat) :
  k < length l - 1 → all_but_last l !! k = l !! k.
Proof. intros Hk. unfold all_but_last. now apply lookup_take_lt. Qed.

(** C3.  With a history of at most one turn (or none) the prompt has no
    transcript block: the history part is empty, header included.  With
    two turns or more the prompt is the base prompt, a blank line, the
    header, then exactly [length h - 1] pairs, the [k]-th of them (from 0)
    being the pair numbered [k + 1] of the [k]-th turn, then the blank
    lines and the question; and the prompt does not depend on the last turn,
    which holds the placeholder answer.  This prompt is the one that
    [process_pdf_data] hands to the model client. *)
Theorem prompt_history_transcript (q : string) (chat_history : option (list ChatTurn)) :
  let h := default [] chat_history in
  ((length h ≤ 1)%nat →
     history_context chat_history = EmptyString
     ∧ build_prompt q chat_history =
         base_prompt +:+ (nl +:+ nl) +:+ (nl +:+ nl) +:+ "Pregunta: " +:+ q)
  ∧ ((2 ≤ length h)%nat →
     history_context chat_history =
       history_header +:+ String.concat EmptyString (transcript_pairs h) +:+ (nl +:+ nl)
     ∧ length (transcript_pairs h) = length h - 1
     ∧ (∀ k chat, (k < length h - 1)%nat → h !! k = Some chat →
          transcript_pairs h !! k = Some (render_pair (S k) chat))
     ∧ build_prompt q chat_history =
         base_prompt +:+ (nl +:+ nl) +:+
         (history_header +:+ String.concat EmptyString (transcript_pairs h) +:+
          (nl +:+ nl)) +:+
         (nl +:+ nl) +:+ "Pregunta: " +:+ q)
  ∧ (∀ (h0 : list ChatTurn) (last last' : ChatTurn),
       build_prompt q (Some (h0 ++ [last])%list) =
       build_prompt q (Some (h0 ++ [last'])%list))
  ∧ (∀ (generate_content : World → bytes → string → Result (option string))
       (pdf_data : bytes) (source_name : string) (w : World),
       model_calls
         (snd (process_pdf_data generate_content pdf_data q source_name
                 chat_history w)) =
       (model_calls w ++ [(pdf_data, build_prompt q chat_history)])%list).
Proof.
  assert (Hctx : ∀ l : list ChatTurn, (2 ≤ length l)%nat →
            history_context (Some l) =
            history_header +:+ String.concat EmptyString (transcript_pairs l) +:+ (nl +:+ nl)).
  { intros l Hl. unfold history_context.
    destruct l as [|a l]; [simpl in Hl; lia|].
    replace (1 <? length (a :: l))%nat with true
      by (symmetry; apply Nat.ltb_lt; lia).
    cbn [truthy_list andb]. rewrite history_loop_spec.
    unfold transcript_pairs. now rewrite append_assoc. }
  intros h. split; [|split; [|split]].
  - intros Hlen.
    assert (Hc : history_context chat_history = EmptyString).
    { unfold history_context. destruct chat_history as [l|]; [|reflexivity].
      simpl in h. subst h.
      destruct l as [|a [|b l]]; [reflexivity|reflexivity|simpl in Hlen; lia]. }
    split; [exact Hc|]. unfold build_prompt. now rewrite Hc.
  - intros Hlen.
    destruct chat_history as [l|]; [|simpl in h; subst h; simpl in Hlen; lia].
    simpl in h. subst h. split; [now apply Hctx|]. split; [|split].
    + unfold transcript_pairs. now rewrite length_imap, all_but_last_length.
    + intros k chat Hk Hchat. unfold transcript_pairs.
      rewrite list_lookup_imap, all_but_last_lookup by exact Hk.
      now rewrite Hchat.
    + unfold build_prompt. now rewrite (Hctx l Hlen).
  - intros h0 last last'. unfold build_prompt. do 2 f_equal.
    unfold history_context.
    rewrite !all_but_last_snoc, !length_app. simpl.
    destruct h0; reflexivity.
  - intros generate_content pdf_data source_name w.
    unfold process_pdf_data, try_except, bind, client_generate_content, ret,
      logging_error.
    destruct (generate_content w pdf_data (build_prompt q chat_history));
      reflexivity.
Qed.

(** C3, on a history of three turns, the last one in flight: two pairs,
    and the whole prompt. *)
Lemma prompt_history_transcript_witness :
  let h := [ mkChatTurn "¿Cuál es el presupuesto?" "120.000 EUR" false;
             mkChatTurn "¿Qué solvencia se exige?" "Clasificación C-2" false;
             mkChatTurn "¿Hay garantía?" "Procesando..." false ] in
  history_context (Some h) =
    history_header +:+ String.concat EmptyString (transcript_pairs h) +:+ (nl +:+ nl)
  ∧ length (transcript_pairs h) = 2
  ∧ contains "Procesando..." (build_prompt "¿Hay garantía?" (Some h)) = false
  ∧ build_prompt "¿Hay garantía?" (Some h) =
      base_prompt +:+ nl +:+ nl +:+
      nl +:+ nl +:+ "Historial de la conversación:" +:+
      nl +:+ nl +:+ "Pregunta 1: ¿Cuál es el presupuesto?" +:+
      nl +:+ "Respuesta 1: 120.000 EUR" +:+
      nl +:+ nl +:+ "Pregunta 2: ¿Qué solvencia se exige?" +:+
      nl +:+ "Respuesta 2: Clasificación C-2" +:+
      nl +:+ nl +:+
      nl +:+ nl +:+ "Pregunta: ¿Hay garantía?".
Proof.
  intros h.
  pose proof (proj1 (proj2 (prompt_history_transcript "¿Hay garantía?" (Some h)))) as H.
  assert (Hlen : (2 ≤ length (default [] (Some h)))%nat) by (simpl; lia).
  destruct (H Hlen) as (H1 & H2 & _ & H4).
  split; [exact H1|]. split; [exact H2|]. split; [vm_compute; reflexivity|].
  rewrite H4. vm_compute. reflexivity.
Defined.

(** ** Rendering of the aggregated response *)

Lemma format_loop_spec (rs : list Entry) :
  ∀ acc : list string, format_loop rs acc = (acc ++ map format_entry rs)%list.
Proof.
  induction rs as [|r rs IH]; intros acc; simpl.
  - now rewrite app_nil_r.
  - rewrite IH. now rewrite <- app_assoc.
Qed.

(** C7.  A non-empty list of entries is rendered as its entries, each
    formatted as two asterisks, the file name, two asterisks, a line feed
    and the response, joined in order by a blank line, three dashes and a
    blank line.  The two-entry example of the specification evaluates to
    the stated text. *)
Theorem render_responses_join (rs : list Entry) :
  (rs ≠ [] → render_responses rs = join separator (map format_entry rs))
  ∧ (∀ r : Entry,
       format_entry r = "**" +:+ filename r +:+ "**" +:+ nl +:+ response r)
  ∧ separator = nl +:+ nl +:+ "---" +:+ nl +:+ nl
  ∧ render_responses [mkEntry "x.pdf" "R1"; mkEntry "y.pdf" "R2"] =
      "**x.pdf**" +:+ nl +:+ "R1" +:+ nl +:+ nl +:+ "---" +:+ nl +:+ nl +:+
      "**y.pdf**" +:+ nl +:+ "R2".
Proof.
  split; [|split; [|split]]; try reflexivity.
  intros Hrs. unfold render_responses.
  destruct rs as [|r rs]; [congruence|].
  cbn [truthy_list negb]. now rewrite format_loop_spec.
Qed.

(** C7, on the two entries of the specification's example. *)
Lemma render_responses_join_witness :
  render_responses [mkEntry "x.pdf" "R1"; mkEntry "y.pdf" "R2"] =
  join separator [format_entry (mkEntry "x.pdf" "R1"); format_entry (mkEntry "y.pdf" "R2")].
Proof.
  apply (proj1 (render_responses_join [mkEntry "x.pdf" "R1"; mkEntry "y.pdf" "R2"])).
  discriminate.
Defined.

(** ** Predefined questions *)

(** C8 as stated fails: the menu offers eleven keys besides the empty
    default, not ten, and the object shown in the JSON summary body names
    ten fields, not nine. *)
Lemma predefined_questions_not_ten :
  length offered_keys ≠ 10
  ∧ length (template_fields
              (default EmptyString (dict_get PREDEFINED_QUESTIONS json_summary_key))) ≠ 9.
Proof. split; vm_compute; discriminate. Qed.

(** C8, amended.  Besides the empty default the table has exactly eleven
    keys, pairwise distinct, each mapped to a non-empty body; the menu
    lists the empty option and then these keys.  The body of the JSON
    summary shows an object with ten named fields, the nine that the cards
    label and the short explanation of the percentage, asks for
    "No especificado" where a datum is missing, and says that all values
    are strings. *)
Theorem predefined_questions_table :
  map fst PREDEFINED_QUESTIONS = EmptyString :: offered_keys
  ∧ offered_keys =
      [ "Resumen del documento"; "Tema principal"; "Hallazgos principales";
        "Argumentos clave"; "Fechas importantes"; "Metodología";
        "Recomendaciones"; "Limitaciones"; "Datos y estadísticas";
        "Estructura del documento"; json_summary_key ]
  ∧ length offered_keys = 11
  ∧ NoDup (map fst PREDEFINED_QUESTIONS)
  ∧ dict_get PREDEFINED_QUESTIONS EmptyString = Some EmptyString
  ∧ Forall (fun key => ∃ body, dict_get PREDEFINED_QUESTIONS key = Some body
                               ∧ body ≠ EmptyString) offered_keys
  ∧ (∃ body, dict_get PREDEFINED_QUESTIONS json_summary_key = Some body
       ∧ template_fields body =
           [ "porcentaje_recomendacion"; "porcentaje_recomendacion_short_explain";
             "objeto_contrato"; "presupuesto"; "solvencia_requerida";
             "habilitaciones_necesarias"; "garantias"; "ecuaciones";
             "otras_condiciones"; "recomendacion" ]
       ∧ length (template_fields body) = 10
       ∧ List.filter (fun f => negb (String.eqb f "porcentaje_recomendacion_short_explain"))
           (template_fields body) = field_labels_keys
       ∧ contains "indícalo como No especificado" body = true
       ∧ contains "Todos los valores de este JSON serán strings" body = true).
Proof.
  split; [reflexivity|]. split; [reflexivity|]. split; [reflexivity|].
  split; [apply NoDup_ListNoDup; vm_compute; repeat constructor;
          cbn; intuition discriminate|].
  split; [reflexivity|].
  split.
  - repeat (apply Forall_cons; split;
            [eexists; split; [vm_compute; reflexivity | discriminate]|]).
    apply Forall_nil. exact I.
  - eexists. split; [vm_compute; reflexivity|].
    repeat split; vm_compute; reflexivity.
Qed.

(** ** The fence pattern *)

Lemma match_lit_spec (lit : string) :
  ∀ s r, match_lit lit s = Some r ↔ s = lit +:+ r.
Proof.
  induction lit as [|a lit IH]; intros s r.
  - simpl. rewrite append_nil_l. split; congruence.
  - destruct s as [|b s]; simpl.
    + rewrite append_cons. split; discriminate.
    + rewrite append_cons. destruct (Ascii.eqb a b) eqn:Hab.
      * apply Ascii.eqb_eq in Hab. subst b. rewrite IH.
        split; [congruence | intros H; now inversion H].
      * apply Ascii.eqb_neq in Hab.
        split; [discriminate | intros H; inversion H; congruence].
Qed.

Lemma match_lit_refl (lit r : string) : match_lit lit (lit +:+ r) = Some r.
Proof. now apply match_lit_spec. Qed.

(** A literal that matches at the start of [x +:+ y] and is no longer than
    [x] matches at the start of [x]. *)
Lemma match_lit_app_l (lit : string) :
  ∀ x y, is_Some (match_lit lit (x +:+ y)) →
         (String.length lit ≤ String.length x)%nat →
         is_Some (match_lit lit x).
Proof.
  induction lit as [|a lit IH]; intros x y Hm Hlen.
  - simpl. eauto.
  - destruct x as [|b x]; [simpl in Hlen; lia|].
    rewrite append_cons in Hm. simpl in *.
    destruct (Ascii.eqb a b); [|exact Hm].
    apply (IH x y Hm). lia.
Qed.



(** What the lazy group returns is followed by the closing literal. *)
Lemma lazy_until_sound (close : string) :
  ∀ s g, lazy_until close s = Some g → ∃ post, s = g +:+ close +:+ post.
Proof.
  induction s as [|c s IH]; intros g; simpl.
  - destruct (match_lit close EmptyString) as [post|] eqn:Hm; [|discriminate].
    intros [= <-]. exists post. now apply match_lit_spec in Hm.
  - destruct (match_lit close (String c s)) as [post|] eqn:Hm.
    + intros [= <-]. exists post. now apply match_lit_spec in Hm.
    + destruct (lazy_until close s) as [g'|] eqn:Hl; [|discriminate].
      intros [= <-]. destruct (IH g' eq_refl) as [post ->].
      exists post. now rewrite append_cons.
Qed.

Lemma lazy_until_eq (close s : string) :
  lazy_until close s =
  match match_lit close s with
  | Some _ => Some EmptyString
  | None =>
      match s with
      | EmptyString => None
      | String c s' => option_map (String c) (lazy_until close s')
      end
  end.
Proof. destruct s; reflexivity. Qed.

Lemma re_search_fence_eq (text : string) :
  re_search_fence text =
  match match_fence_at text with
  | Some group1 => Some group1
  | None =>
      match text with
      | EmptyString => None
      | String _ text' => re_search_fence text'
      end
  end.
Proof. destruct text; reflexivity. Qed.

(** The lazy group finds a closing literal whenever one follows. *)
Lemma lazy_until_complete (close : string) :
  ∀ g post, is_Some (lazy_until close (g +:+ close +:+ post)).
Proof.
  induction g as [|c g IH]; intros post; rewrite lazy_until_eq.
  - rewrite append_nil_l, match_lit_refl. eauto.
  - rewrite append_cons.
    destruct (match_lit close (String c (g +:+ close +:+ post))); [eauto|].
    destruct (IH post) as [g' ->]. simpl. eauto.
Qed.


(** When no closing literal follows, none follows further right either. *)
Lemma lazy_until_none_suffix (close : string) :
  ∀ x s, lazy_until close (x +:+ s) = None → lazy_until close s = None.
Proof.
  induction x as [|c x IH]; intros s H; [exact H|].
  rewrite append_cons, lazy_until_eq in H.
  destruct (match_lit close (String c (x +:+ s))); [discriminate|].
  apply IH. destruct (lazy_until close (x +:+ s)); [discriminate|reflexivity].
Qed.

(** What the search returns lies between an opening and a closing fence. *)
Lemma re_search_fence_sound :
  ∀ text g, re_search_fence text = Some g →
    ∃ pre post, text = pre +:+ fence_open +:+ g +:+ fence_close +:+ post.
Proof.
  assert (Hat : ∀ text g, match_fence_at text = Some g →
            ∃ post, text = fence_open +:+ g +:+ fence_close +:+ post).
  { intros text g. unfold match_fence_at.
    destruct (match_lit fence_open text) as [rest|] eqn:Hm; [|discriminate].
    intros Hl. apply match_lit_spec in Hm.
    destruct (lazy_until_sound _ _ _ Hl) as [post ->].
    exists post. exact Hm. }
  induction text as [|c text IH]; intros g; rewrite re_search_fence_eq.
  - destruct (match_fence_at EmptyString) as [g'|] eqn:Hm; [|discriminate].
    intros [= <-]. destruct (Hat _ _ Hm) as [post Hpost].
    exists EmptyString, post. exact Hpost.
  - destruct (match_fence_at (String c text)) as [g'|] eqn:Hm.
    + intros [= <-]. destruct (Hat _ _ Hm) as [post Hpost].
      exists EmptyString, post. exact Hpost.
    + intros Hs. destruct (IH g Hs) as (pre & post & ->).
      exists (String c pre), post. now rewrite append_cons.
Qed.




(** ** The reference reader of URLs *)

Lemma split_first_app (c : ascii) (pre rest : string) :
  Ref.has_char c pre = false →
  Ref.split_first c (pre +:+ String c rest) = Some (pre, rest).
Proof.
  induction pre as [|a pre IH]; intros Hno.
  - rewrite append_nil_l. simpl. now rewrite Ascii.eqb_refl.
  - rewrite append_cons. simpl in *.
    apply orb_false_iff in Hno as [Ha Hpre].
    rewrite Ha, (IH Hpre). reflexivity.
Qed.

Lemma split_first_none (c : ascii) (s : string) :
  Ref.has_char c s = false → Ref.split_first c s = None.
Proof.
  induction s as [|a s IH]; intros Hno; [reflexivity|].
  simpl in *. apply orb_false_iff in Hno as [Ha Hs].
  now rewrite Ha, (IH Hs).
Qed.

Lemma scheme_chars_no_colon (s : string) :
  Ref.all_chars Ref.is_scheme_char s = true → Ref.has_char ":" s = false.
Proof.
  induction s as [|a s IH]; intros Hall; [reflexivity|].
  simpl in *. apply andb_true_iff in Hall as [Ha Hs].
  rewrite (IH Hs), orb_false_r.
  destruct (Ascii.eqb a ":") eqn:Hc; [|reflexivity].
  apply Ascii.eqb_eq in Hc. subst a. discriminate Ha.
Qed.

Lemma split_netloc_app (host rest : string) :
  Ref.all_chars Ref.is_host_char host = true →
  Ref.split_netloc (host +:+ String "/" rest) = (host, String "/" rest).
Proof.
  induction host as [|a host IH]; intros Hall.
  - reflexivity.
  - rewrite append_cons. simpl in *.
    apply andb_true_iff in Hall as [Ha Hhost]. rewrite (IH Hhost).
    unfold Ref.is_host_char in Ha. apply negb_true_iff in Ha.
    repeat (apply orb_false_iff in Ha as [Ha ?]).
    replace (Ascii.eqb a "/" || Ascii.eqb a "?" || Ascii.eqb a "#") with false
      by (symmetry; repeat (apply orb_false_iff; split); assumption).
    reflexivity.
Qed.

Lemma host_chars_no_bracket (c : ascii) (host : string) :
  Ref.is_host_char c = false →
  Ref.all_chars Ref.is_host_char host = true → Ref.has_char c host = false.
Proof.
  intros Hc. induction host as [|a host IH]; intros Hall; [reflexivity|].
  simpl in *. apply andb_true_iff in Hall as [Ha Hhost].
  rewrite (IH Hhost), orb_false_r.
  destruct (Ascii.eqb a c) eqn:Hac; [|reflexivity].
  apply Ascii.eqb_eq in Hac. subst a. congruence.
Qed.

Lemma lower_nonempty (a : ascii) (s : string) : lower (String a s) ≠ EmptyString.
Proof. simpl. discriminate. Qed.

(** With the reference reader, every string made of a scheme (a letter,
    then letters, digits, [+], [-], [.]), [://], a non-empty host without
    delimiter or bracket, [/] and anything is a valid URL. *)
Lemma ref_scheme_host_valid (a : ascii) (sch host rest : string) :
  Ref.is_alpha a = true →
  Ref.all_chars Ref.is_scheme_char sch = true →
  host ≠ EmptyString →
  Ref.all_chars Ref.is_host_char host = true →
  is_valid_url Ref.urlparse (String a sch +:+ "://" +:+ host +:+ "/" +:+ rest) = true.
Proof.
  intros Ha Hsch Hne Hhost.
  assert (Hall : Ref.all_chars Ref.is_scheme_char (String a sch) = true).
  { simpl. rewrite Hsch, andb_true_r. unfold Ref.is_scheme_char. now rewrite Ha. }
  unfold is_valid_url, Ref.urlparse, Ref.split_scheme.
  change (String a sch +:+ "://" +:+ host +:+ "/" +:+ rest)
    with (String a sch +:+ String ":" ("//" +:+ host +:+ "/" +:+ rest)).
  rewrite split_first_app by now apply scheme_chars_no_colon.
  rewrite Ha, Hall. cbn [andb].
  rewrite match_lit_refl.
  change (host +:+ "/" +:+ rest) with (host +:+ String "/" rest).
  rewrite split_netloc_app by exact Hhost.
  rewrite !(host_chars_no_bracket _ host) by (reflexivity || exact Hhost).
  cbn [xorb scheme netloc]. 
  destruct host; [congruence|]. reflexivity.
Qed.

(** With the reference reader, a string without a colon has no scheme and
    is not a valid URL. *)
Lemma ref_no_colon_invalid (s : string) :
  Ref.has_char ":" s = false → is_valid_url Ref.urlparse s = false.
Proof.
  intros Hno. unfold is_valid_url, Ref.urlparse, Ref.split_scheme.
  rewrite (split_first_none _ _ Hno).
  destruct (match_lit "//" s) as [after|]; [|reflexivity].
  destruct (Ref.split_netloc after) as [loc rest'].
  destruct (xorb _ _); reflexivity.
Qed.

(** ** JSON extractor *)

(** The extractor parses one text, the interior of the first fence or else
    the whole input; it logs a [JSONDecodeError] and lets any other exception
    through. *)
Lemma extract_json_eq (json_loads : string → JsonOutcome) (text : string) (w : World) :
  extract_json_from_markdown json_loads text w =
  match json_loads (default text (re_search_fence text)) with
  | Parsed v => (Ok v, w)
  | DecodeError e => (Ok JNull, add_log ("Error parsing JSON: " +:+ e) w)
  | OtherError e => (Raise e, w)
  end.
Proof.
  unfold extract_json_from_markdown.
  destruct (re_search_fence text) as [g|]; simpl;
    destruct (json_loads _); reflexivity.
Qed.

Section Extractor.

Variable json_loads : string → JsonOutcome.



End Extractor.





(** ** The per-source pipeline and the aggregator *)

Section Pipeline.

Variable urlparse : string → Result ParseResult.
Variable httpx_get : World → string → Result HttpResponse.
Variable generate_content : World → bytes → string → Result (option string).
Variable tmp_name : World → string.
Variable fs_fault : World → FsOp → option exn.

Local Abbreviation process_pdf_data := (process_pdf_data generate_content).
Local Abbreviation process_url := (process_url urlparse httpx_get generate_content).
Local Abbreviation process_file := (process_file generate_content tmp_name fs_fault).
Local Abbreviation process_source :=
  (process_source urlparse httpx_get generate_content tmp_name fs_fault).
Local Abbreviation for_sources :=
  (for_sources urlparse httpx_get generate_content tmp_name fs_fault).
Local Abbreviation process_pdf_with_gemini :=
  (process_pdf_with_gemini urlparse httpx_get generate_content tmp_name fs_fault).
Local Abbreviation get_gemini_response :=
  (get_gemini_response urlparse httpx_get generate_content tmp_name fs_fault).
Local Abbreviation source_entries :=
  (source_entries urlparse httpx_get generate_content tmp_name fs_fault).
Local Abbreviation source_world :=
  (source_world urlparse httpx_get generate_content tmp_name fs_fault).
Local Abbreviation collected :=
  (collected urlparse httpx_get generate_content tmp_name fs_fault).
Local Abbreviation world_after :=
  (world_after urlparse httpx_get generate_content tmp_name fs_fault).

Lemma append_response_eq (rs : list Entry) (filename : string) (reply : option string) :
  append_response rs filename reply = (rs ++ reply_entries filename reply)%list.
Proof.
  unfold append_response, reply_entries.
  destruct reply as [t|]; [destruct (truthy t)|]; now rewrite ?app_nil_r.
Qed.

(** The model client never makes [process_pdf_data] raise. *)
Lemma process_pdf_data_eq (d : bytes) (q n : string)
    (h : option (list ChatTurn)) (w : World) :
  process_pdf_data d q n h w =
  (Ok (reply_text (generate_content w d (build_prompt q h))),
   after_model d (build_prompt q h) (generate_content w d (build_prompt q h)) w).
Proof.
  unfold process_pdf_data, try_except, bind, client_generate_content,
    ret, logging_error, reply_text, after_model.
  destruct (generate_content w d (build_prompt q h)); reflexivity.
Qed.

Lemma after_model_fs (d : bytes) (p : string) (r : Result (option string)) (w : World) :
  fs (after_model d p r w) = fs w.
Proof. destruct r; reflexivity. Qed.

Lemma after_model_requests (d : bytes) (p : string) (r : Result (option string))
    (w : World) :
  requests (after_model d p r w) = requests w.
Proof. destruct r; reflexivity. Qed.

(** The ['url'] branch on a URL, case by case. *)
Lemma process_url_eq (url q : string) (h : option (list ChatTurn))
    (rs : list Entry) (w : World) :
  process_url (SUrl url) q h rs w =
  let w1 := add_request url w in
  match httpx_get w url with
  | Raise e => (Ok rs, after_url_error url e w1)
  | Ok r =>
      match raise_for_status r with
      | Some e => (Ok rs, after_url_error url e w1)
      | None =>
          if (status_code r =? 200)%nat then
            match urlparse url with
            | Raise e => (Ok rs, after_url_error url e w1)
            | Ok parsed =>
                let filename := "PDF_from_" +:+ netloc parsed +:+ ".pdf" in
                let reply := generate_content w1 (content r) (build_prompt q h) in
                (Ok (rs ++ reply_entries filename (reply_text reply))%list,
                 after_model (content r) (build_prompt q h) reply w1)
            end
          else (Ok rs, w1)
      end
  end.
Proof.
  unfold process_url, st_spinner, try_except, bind, http_get,
    do_raise_for_status, lift, ret, raise, logging_error, st_error, after_url_error.
  cbn [source_repr].
  destruct (httpx_get w url) as [r|e]; [|reflexivity].
  destruct (raise_for_status r) as [e|]; [reflexivity|].
  destruct (status_code r =? 200)%nat; [|reflexivity].
  destruct (urlparse url) as [parsed|e]; [|reflexivity].
  rewrite process_pdf_data_eq, append_response_eq. reflexivity.
Qed.

(** The ['file'] branch on an uploaded file, case by case.  [w1] is the
    world with the new empty file, [w2] the world with the payload written,
    [w3] the world when the [finally] block starts. *)
Lemma process_file_eq (f : UploadedFile) (q : string) (h : option (list ChatTurn))
    (rs : list Entry) (w : World) :
  process_file (SFile f) q h rs w =
  let p := tmp_name w in
  let w1 := set_fs (insert p []) w in
  let w2 := set_fs (insert p (getvalue f)) w1 in
  match fs_fault w OpCreate with
  | Some e => (Raise e, w)
  | None =>
      match fs_fault w1 (OpWrite p) with
      | Some e => (Raise e, w1)
      | None =>
          let reply := generate_content w2 (getvalue f) (build_prompt q h) in
          let body :=
            match fs_fault w2 (OpRead p) with
            | Some e => (Raise e, w2)
            | None =>
                (Ok (rs ++ reply_entries (name f) (reply_text reply))%list,
                 after_model (getvalue f) (build_prompt q h) reply w2)
            end in
          match fs_fault (snd body) (OpUnlink p) with
          | Some e =>
              (fst body, add_log ("Error deleting temporary file: " +:+ e) (snd body))
          | None => (fst body, set_fs (delete p) (snd body))
          end
      end
  end.
Proof.
  unfold process_file, st_spinner, bind, named_temporary_file, file_write, ret.
  cbv zeta.
  destruct (fs_fault w OpCreate) as [e|]; [reflexivity|].
  destruct (fs_fault _ (OpWrite _)) as [e|]; [reflexivity|].
  unfold try_finally, try_except, bind, open_read, os_unlink, logging_error, ret.
  set (p := tmp_name w).
  set (w2 := set_fs (insert p (getvalue f)) (set_fs (insert p []) w)).
  assert (Hp : fs w2 !! p = Some (getvalue f)) by apply lookup_insert_eq.
  destruct (fs_fault w2 (OpRead p)) as [e|].
  - cbn [fst snd]. destruct (fs_fault w2 (OpUnlink p)); [reflexivity|].
    now rewrite Hp.
  - rewrite Hp, process_pdf_data_eq, append_response_eq. cbn [fst snd].
    destruct (fs_fault _ (OpUnlink p)); [reflexivity|].
    now rewrite after_model_fs, Hp.
Qed.

Lemma reply_entries_from_model (n prompt : string) (w0 : World) (d : bytes) :
  from_model generate_content prompt
    (reply_entries n (reply_text (generate_content w0 d prompt))).
Proof.
  unfold from_model, reply_entries, reply_text, text_or_none.
  destruct (generate_content w0 d prompt) as [[[|a t]|]|e] eqn:Hr; cbn; auto.
  right. exists n, (String a t), w0, d.
  split; [reflexivity|]. split; [discriminate | exact Hr].
Qed.

(** Closes a case of [process_source_shape] in which nothing is added. *)
Ltac nothing_added :=
  eexists [], _; split;
  [ intros rs; rewrite app_nil_r; reflexivity
  | split; [left; reflexivity | cbn; now rewrite ?app_nil_r] ].

(** One source never raises: it leaves the entries it was given in place
    and adds, at their end, entries that do not depend on them. *)
Lemma process_source_shape (st : SourceType) (q : string)
    (h : option (list ChatTurn)) (s : Source) (w : World) :
  ∃ es w',
    (∀ rs, process_source st q h s rs w = (Ok (rs ++ es)%list, w'))
    ∧ from_model generate_content (build_prompt q h) es
    ∧ requests w' = (requests w ++ requested st s)%list.
Proof.
  unfold process_source, try_except.
  destruct st as [| |other]; [destruct s as [f|url] | destruct s as [f|url] |].
  - (* a file, as a file *)
    setoid_rewrite (process_file_eq f q h). cbv zeta.
    destruct (fs_fault w OpCreate) as [e|]; [nothing_added|].
    destruct (fs_fault _ (OpWrite _)) as [e|]; [nothing_added|].
    destruct (fs_fault _ (OpRead _)) as [e|]; cbn [fst snd].
    + destruct (fs_fault _ (OpUnlink _)) as [e'|]; nothing_added.
    + destruct (fs_fault _ (OpUnlink _)) as [e'|];
        (eexists _, _; split; [intros rs; reflexivity|];
         split; [apply reply_entries_from_model|];
         cbn; rewrite after_model_requests; cbn; now rewrite app_nil_r).
  - (* a URL string where a file is expected *)
    nothing_added.
  - (* a file where a URL is expected *)
    nothing_added.
  - (* a URL, as a URL *)
    setoid_rewrite (process_url_eq url q h). cbv zeta.
    destruct (httpx_get w url) as [r|e]; [|nothing_added].
    destruct (raise_for_status r) as [e|]; [nothing_added|].
    destruct (status_code r =? 200)%nat; [|nothing_added].
    destruct (urlparse url) as [parsed|e]; [|nothing_added].
    eexists _, _. split; [intros rs; reflexivity|].
    split; [apply reply_entries_from_model|].
    now rewrite after_model_requests.
  - (* neither 'file' nor 'url' *)
    nothing_added.
Qed.


Lemma process_source_eq (st : SourceType) (q : string) (h : option (list ChatTurn))
    (s : Source) (rs : list Entry) (w : World) :
  process_source st q h s rs w =
  (Ok (rs ++ source_entries st q h s w)%list, source_world st q h s w).
Proof.
  destruct (process_source_shape st q h s w) as (es & w' & Heq & _).
  unfold source_entries, source_world. now rewrite Heq, (Heq []).
Qed.

Lemma source_entries_from_model (st : SourceType) (q : string)
    (h : option (list ChatTurn)) (s : Source) (w : World) :
  from_model generate_content (build_prompt q h) (source_entries st q h s w).
Proof.
  destruct (process_source_shape st q h s w) as (es & w' & Heq & Hes & _).
  unfold source_entries. now rewrite (Heq []).
Qed.

Lemma source_world_requests (st : SourceType) (q : string)
    (h : option (list ChatTurn)) (s : Source) (w : World) :
  requests (source_world st q h s w) = (requests w ++ requested st s)%list.
Proof.
  destruct (process_source_shape st q h s w) as (es & w' & Heq & _ & Hreq).
  unfold source_world. now rewrite (Heq []).
Qed.

(** The loop yields what it was given followed by the entries of its
    sources, whatever happens on each of them. *)
Lemma for_sources_eq (st : SourceType) (q : string) (h : option (list ChatTurn))
    (sources : list Source) :
  ∀ rs w,
    for_sources st q h sources rs w =
    (Ok (rs ++ collected st q h sources w)%list, world_after st q h sources w).
Proof.
  induction sources as [|s rest IH]; intros rs w.
  - simpl. unfold ret. now rewrite app_nil_r.
  - cbn [for_sources]. unfold bind. rewrite process_source_eq, IH.
    cbn [collected world_after]. now rewrite app_assoc.
Qed.

Lemma process_pdf_with_gemini_eq (sources : list Source) (q : string)
    (st : SourceType) (h : option (list ChatTurn)) (w : World) :
  process_pdf_with_gemini sources q st h w =
  (Ok (Some (collected st q h sources w)), world_after st q h sources w).
Proof.
  unfold process_pdf_with_gemini, try_except, bind. now rewrite for_sources_eq.
Qed.

Lemma world_after_requests (st : SourceType) (q : string)
    (h : option (list ChatTurn)) (sources : list Source) :
  ∀ w, requests (world_after st q h sources w) =
       (requests w ++ flat_map (requested st) sources)%list.
Proof.
  induction sources as [|s rest IH]; intros w; simpl.
  - now rewrite app_nil_r.
  - rewrite IH, source_world_requests. now rewrite app_assoc.
Qed.

Lemma extend_if_eq (all_responses rs : list Entry) :
  extend_if all_responses (Some rs) = (all_responses ++ rs)%list.
Proof. destruct rs; unfold extend_if; simpl; now rewrite ?app_nil_r. Qed.

(** The aggregator: the files first, then the valid URLs, each batch
    collected source by source, and the whole rendered. *)
Lemma get_gemini_response_eq (q : string) (file_docs : option (list UploadedFile))
    (url_docs : option (list string)) (h : option (list ChatTurn)) (w : World) :
  let files := map SFile (default [] file_docs) in
  let urls := map SUrl (valid_urls_of urlparse (default [] url_docs)) in
  let w1 := world_after TFile q h files w in
  get_gemini_response q file_docs url_docs h w =
  (Ok (render_responses
         (collected TFile q h files w ++ collected TUrl q h urls w1)),
   world_after TUrl q h urls w1).
Proof.
  cbv zeta. unfold get_gemini_response, bind, ret.
  destruct file_docs as [[|f fl]|];
    cbn [truthy_opt_list truthy_list default from_option id];
    rewrite ?process_pdf_with_gemini_eq, ?extend_if_eq;
    (destruct url_docs as [[|u ul]|];
     cbn [truthy_opt_list truthy_list default from_option id];
     [ | destruct (valid_urls_of urlparse (u :: ul)) as [|v vl];
         cbn [truthy_list];
         rewrite ?process_pdf_with_gemini_eq, ?extend_if_eq | ];
     cbn; rewrite ?app_nil_r; reflexivity).
Qed.

(** What a URL yields: an entry exactly when the download succeeds with
    status 200, the URL parses, and the model replies a non-empty text. *)
Lemma source_entries_url (q : string) (h : option (list ChatTurn))
    (url : string) (w : World) :
  source_entries TUrl q h (SUrl url) w =
  match httpx_get w url with
  | Ok r =>
      match raise_for_status r with
      | None =>
          if (status_code r =? 200)%nat then
            match urlparse url with
            | Ok parsed =>
                reply_entries ("PDF_from_" +:+ netloc parsed +:+ ".pdf")
                  (reply_text (generate_content (add_request url w) (content r)
                                 (build_prompt q h)))
            | Raise _ => []
            end
          else []
      | Some _ => []
      end
  | Raise _ => []
  end.
Proof.
  unfold source_entries, process_source, try_except.
  rewrite process_url_eq. cbv zeta.
  destruct (httpx_get w url) as [r|e]; [|reflexivity].
  destruct (raise_for_status r); [reflexivity|].
  destruct (status_code r =? 200)%nat; [|reflexivity].
  destruct (urlparse url); reflexivity.
Qed.

(** What an uploaded file yields: an entry exactly when the temporary file
    is created, written and read back, and the model replies a non-empty
    text.  A failure of [unlink] changes nothing. *)
Lemma source_entries_file (q : string) (h : option (list ChatTurn))
    (f : UploadedFile) (w : World) :
  let p := tmp_name w in
  let w1 := set_fs (insert p []) w in
  let w2 := set_fs (insert p (getvalue f)) w1 in
  source_entries TFile q h (SFile f) w =
  match fs_fault w OpCreate, fs_fault w1 (OpWrite p), fs_fault w2 (OpRead p) with
  | None, None, None =>
      reply_entries (name f)
        (reply_text (generate_content w2 (getvalue f) (build_prompt q h)))
  | _, _, _ => []
  end.
Proof.
  cbv zeta. unfold source_entries, process_source, try_except.
  rewrite process_file_eq. cbv zeta.
  destruct (fs_fault w OpCreate); [reflexivity|].
  destruct (fs_fault _ (OpWrite _)); [reflexivity|].
  destruct (fs_fault _ (OpRead _)); cbn [fst snd];
    destruct (fs_fault _ (OpUnlink _)); reflexivity.
Qed.

(** The world an uploaded file leaves, once its temporary file has been
    created and written: [w3] is the world when the [finally] block starts,
    [w4] the world after it. *)
Lemma source_world_file (q : string) (h : option (list ChatTurn))
    (f : UploadedFile) (w : World) :
  let p := tmp_name w in
  let w1 := set_fs (insert p []) w in
  let w2 := set_fs (insert p (getvalue f)) w1 in
  let w3 :=
    match fs_fault w2 (OpRead p) with
    | Some _ => w2
    | None =>
        after_model (getvalue f) (build_prompt q h)
          (generate_content w2 (getvalue f) (build_prompt q h)) w2
    end in
  let w4 :=
    match fs_fault w3 (OpUnlink p) with
    | Some e => add_log ("Error deleting temporary file: " +:+ e) w3
    | None => set_fs (delete p) w3
    end in
  fs_fault w OpCreate = None →
  fs_fault w1 (OpWrite p) = None →
  source_world TFile q h (SFile f) w =
  match fs_fault w2 (OpRead p) with
  | Some e => add_log ("Error processing source " +:+ file_repr f +:+ ": " +:+ e) w4
  | None => w4
  end.
Proof.
  cbv zeta. intros Hc Hw. unfold source_world, process_source, try_except.
  rewrite process_file_eq. cbv zeta. rewrite Hc, Hw.
  destruct (fs_fault _ (OpRead _)); cbn [fst snd];
    destruct (fs_fault _ (OpUnlink _)); reflexivity.
Qed.

(** C1.  A call on any list of sources returns a list and never raises:
    its result is the entries of the first source followed by the result
    of the remaining sources, processed from the world the first one left,
    whatever happened on the first.  A source adds nothing or one entry,
    and an entry only for a non-empty text replied by the model; a URL
    whose download fails, whose status is an error or not 200, or which
    does not parse, and a file whose temporary copy cannot be created,
    written or read, add nothing.  So for [[A; B]], when [A] adds nothing
    and [B] adds the entry [eB], the result is [[eB]]. *)
Theorem sources_fail_independently (q : string) (h : option (list ChatTurn)) :
  (∀ st sources w,
     process_pdf_with_gemini sources q st h w =
     (Ok (Some (collected st q h sources w)), world_after st q h sources w))
  ∧ (∀ st s rest w,
       fst (process_pdf_with_gemini (s :: rest) q st h w) =
       Ok (Some (source_entries st q h s w ++
                 collected st q h rest (source_world st q h s w))%list))
  ∧ (∀ st s rs w,
       process_source st q h s rs w =
       (Ok (rs ++ source_entries st q h s w)%list, source_world st q h s w))
  ∧ (∀ st s w,
       from_model generate_content (build_prompt q h) (source_entries st q h s w))
  ∧ (∀ url w,
       source_entries TUrl q h (SUrl url) w =
       match httpx_get w url with
       | Ok r =>
           match raise_for_status r with
           | None =>
               if (status_code r =? 200)%nat then
                 match urlparse url with
                 | Ok parsed =>
                     reply_entries ("PDF_from_" +:+ netloc parsed +:+ ".pdf")
                       (reply_text (generate_content (add_request url w) (content r)
                                      (build_prompt q h)))
                 | Raise _ => []
                 end
               else []
           | Some _ => []
           end
       | Raise _ => []
       end)
  ∧ (∀ f w,
       let p := tmp_name w in
       let w1 := set_fs (insert p []) w in
       let w2 := set_fs (insert p (getvalue f)) w1 in
       source_entries TFile q h (SFile f) w =
       match fs_fault w OpCreate, fs_fault w1 (OpWrite p), fs_fault w2 (OpRead p) with
       | None, None, None =>
           reply_entries (name f)
             (reply_text (generate_content w2 (getvalue f) (build_prompt q h)))
       | _, _, _ => []
       end)
  ∧ (∀ st A B w eB,
       source_entries st q h A w = [] →
       source_entries st q h B (source_world st q h A w) = [eB] →
       fst (process_pdf_with_gemini [A; B] q st h w) = Ok (Some [eB])).
Proof.
  split; [|split; [|split; [|split; [|split; [|split]]]]].
  - intros. apply process_pdf_with_gemini_eq.
  - intros. now rewrite process_pdf_with_gemini_eq.
  - intros. apply process_source_eq.
  - intros. apply source_entries_from_model.
  - intros. apply source_entries_url.
  - intros. apply source_entries_file.
  - intros st A B w eB HA HB. rewrite process_pdf_with_gemini_eq.
    cbn [fst collected]. now rewrite HA, HB.
Qed.

Lemma collected_nil_no_reply (q : string) (h : option (list ChatTurn)) :
  (∀ w0 d, reply_text (generate_content w0 d (build_prompt q h)) = None) →
  ∀ st sources w, collected st q h sources w = [].
Proof.
  intros Hno st sources. induction sources as [|s rest IH]; intros w.
  - reflexivity.
  - cbn [collected]. rewrite IH, app_nil_r.
    destruct (source_entries_from_model st q h s w)
      as [Hnil | (n & t & w0 & d & _ & Ht & Hreply)]; [exact Hnil|].
    specialize (Hno w0 d). rewrite Hreply in Hno. simpl in Hno.
    destruct t; [congruence | discriminate].
Qed.

(** C4.  With no file and no URL the aggregator returns the message that
    no documents were provided, and touches nothing.  It returns the same
    message whenever no source yields an entry, in particular when the
    model never replies a non-empty text.  It always returns a text and
    never raises. *)
Theorem no_output_gives_message (q : string) (h : option (list ChatTurn)) :
  (∀ file_docs url_docs w,
     default [] file_docs = [] → default [] url_docs = [] →
     get_gemini_response q file_docs url_docs h w = (Ok no_documents_message, w))
  ∧ ((∀ w0 d, reply_text (generate_content w0 d (build_prompt q h)) = None) →
     ∀ file_docs url_docs w,
       fst (get_gemini_response q file_docs url_docs h w) = Ok no_documents_message)
  ∧ (∀ file_docs url_docs w,
       let files := map SFile (default [] file_docs) in
       let urls := map SUrl (valid_urls_of urlparse (default [] url_docs)) in
       collected TFile q h files w = [] →
       collected TUrl q h urls (world_after TFile q h files w) = [] →
       fst (get_gemini_response q file_docs url_docs h w) = Ok no_documents_message)
  ∧ (∀ file_docs url_docs w,
       ∃ text, fst (get_gemini_response q file_docs url_docs h w) = Ok text)
  ∧ no_documents_message =
      "Error: No se proporcionaron documentos. Por favor, sube un archivo PDF o proporciona una URL de PDF.".
Proof.
  split; [|split; [|split; [|split]]].
  - intros file_docs url_docs w Hf Hu.
    rewrite get_gemini_response_eq. cbv zeta. now rewrite Hf, Hu.
  - intros Hno file_docs url_docs w.
    rewrite get_gemini_response_eq. cbv zeta.
    now rewrite !(collected_nil_no_reply q h Hno).
  - cbv zeta. intros file_docs url_docs w Hf Hu.
    rewrite get_gemini_response_eq. cbv zeta. now rewrite Hf, Hu.
  - intros file_docs url_docs w.
    rewrite get_gemini_response_eq. cbv zeta. eauto.
  - reflexivity.
Qed.

Lemma requested_urls (us : list string) : flat_map (requested TUrl) (map SUrl us) = us.
Proof. induction us as [|u us IH]; simpl; [reflexivity | now rewrite IH]. Qed.

Lemma requested_files (fl : list UploadedFile) :
  flat_map (requested TFile) (map SFile fl) = [].
Proof. induction fl as [|f fl IH]; simpl; [reflexivity | exact IH]. Qed.

Lemma valid_urls_of_elem (url_docs : list string) (u : string) :
  u ∈ valid_urls_of urlparse url_docs ↔
  ∃ u0, u0 ∈ url_docs ∧ u = strip u0 ∧ strip u0 ≠ EmptyString
        ∧ is_valid_url urlparse (strip u0) = true.
Proof.
  unfold valid_urls_of. rewrite list_elem_of_In, in_map_iff. split.
  - intros (u0 & Hu & Hin). apply filter_In in Hin as [Hin Hok].
    apply andb_true_iff in Hok as [H1 H2]. apply truthy_true in H1.
    exists u0. rewrite list_elem_of_In. auto.
  - intros (u0 & Hin & Hu & H1 & H2). exists u0. split; [now symmetry|].
    apply filter_In. rewrite <- list_elem_of_In. split; [exact Hin|].
    apply andb_true_iff. rewrite truthy_true. auto.
Qed.

(** C9.  The URLs requested during a call are, in order, the stripped
    forms of exactly those entries that are non-empty after stripping and
    valid: a URL is requested exactly when it is the stripped form of such
    an entry.  The suffix test plays no part: such an entry is requested
    also when [is_pdf_url] rejects it. *)
Theorem valid_urls_processed (q : string) (h : option (list ChatTurn))
    (file_docs : option (list UploadedFile)) (url_docs : option (list string))
    (w : World) :
  let urls := default [] url_docs in
  let after := snd (get_gemini_response q file_docs url_docs h w) in
  requests after =
    (requests w ++
     map strip (List.filter
                  (fun url => truthy (strip url) && is_valid_url urlparse (strip url))
                  urls))%list
  ∧ (∀ u, u ∈ drop (length (requests w)) (requests after) ↔
          ∃ u0, u0 ∈ urls ∧ u = strip u0 ∧ strip u0 ≠ EmptyString
                ∧ is_valid_url urlparse (strip u0) = true)
  ∧ (∀ u0, u0 ∈ urls → strip u0 ≠ EmptyString →
           is_valid_url urlparse (strip u0) = true →
           is_pdf_url (strip u0) = false →
           strip u0 ∈ requests after).
Proof.
  cbv zeta.
  assert (Hreq : requests (snd (get_gemini_response q file_docs url_docs h w)) =
                 (requests w ++ valid_urls_of urlparse (default [] url_docs))%list).
  { rewrite get_gemini_response_eq. cbv zeta. cbn [snd].
    rewrite !world_after_requests, requested_urls, requested_files.
    now rewrite app_nil_r. }
  split; [exact Hreq|]. split.
  - intros u. rewrite Hreq, drop_app_length. apply valid_urls_of_elem.
  - intros u0 Hin H1 H2 _. rewrite Hreq. apply elem_of_app. right.
    apply valid_urls_of_elem. eauto.
Qed.

(** The rendered result of the aggregator lists the entries of the files,
    then those of the valid URLs, each batch in the order of its sources. *)
Lemma get_gemini_response_order (q : string) (h : option (list ChatTurn))
    (file_docs : option (list UploadedFile)) (url_docs : option (list string))
    (w : World) :
  let files := map SFile (default [] file_docs) in
  let urls := map SUrl (valid_urls_of urlparse (default [] url_docs)) in
  fst (get_gemini_response q file_docs url_docs h w) =
  Ok (render_responses
        (collected TFile q h files w ++
         collected TUrl q h urls (world_after TFile q h files w))).
Proof. cbv zeta. now rewrite get_gemini_response_eq. Qed.

(** A failed write leaves the new file behind: the [finally] block that
    removes it is entered only after the [with] block has ended. *)
Lemma write_failure_leaves_file (q : string) (h : option (list ChatTurn))
    (f : UploadedFile) (w : World) (e : exn) :
  let p := tmp_name w in
  fs_fault w OpCreate = None →
  fs_fault (set_fs (insert p []) w) (OpWrite p) = Some e →
  fs (source_world TFile q h (SFile f) w) !! p = Some [].
Proof.
  cbv zeta. intros Hc Hw. unfold source_world, process_source, try_except.
  rewrite process_file_eq. cbv zeta. rewrite Hc, Hw. cbn.
  apply lookup_insert_eq.
Qed.

(** C2, amended.  For a payload whose temporary file has been created and
    written, the call attempts the deletion on every path that follows,
    a failed read included.  When the deletion succeeds the file does not
    exist after the call.  When the deletion fails the file is still
    there, the failure is logged, and it is not propagated: the call
    returns its list, and the file branch ends as its [try] block did, with
    the read error or with the entries. *)
Theorem temp_file_removed_unless_unlink_fails (q : string)
    (h : option (list ChatTurn)) (f : UploadedFile) (w : World) :
  let p := tmp_name w in
  let w1 := set_fs (insert p []) w in
  let w2 := set_fs (insert p (getvalue f)) w1 in
  let reply := generate_content w2 (getvalue f) (build_prompt q h) in
  let w3 :=
    match fs_fault w2 (OpRead p) with
    | Some _ => w2
    | None => after_model (getvalue f) (build_prompt q h) reply w2
    end in
  let out := process_pdf_with_gemini [SFile f] q TFile h w in
  fs_fault w OpCreate = None →
  fs_fault w1 (OpWrite p) = None →
  (fs_fault w3 (OpUnlink p) = None → fs (snd out) !! p = None)
  ∧ (∀ e, fs_fault w3 (OpUnlink p) = Some e →
       fs (snd out) !! p = Some (getvalue f)
       ∧ "Error deleting temporary file: " +:+ e ∈ log (snd out))
  ∧ fst out = Ok (Some (source_entries TFile q h (SFile f) w))
  ∧ (∀ rs, fst (process_file (SFile f) q h rs w) =
           match fs_fault w2 (OpRead p) with
           | Some e' => Raise e'
           | None => Ok (rs ++ reply_entries (name f) (reply_text reply))%list
           end).
Proof.
  cbv zeta. intros Hc Hw.
  rewrite process_pdf_with_gemini_eq. cbn [fst snd collected world_after].
  rewrite (source_world_file q h f w Hc Hw).
  set (p := tmp_name w).
  set (w2 := set_fs (insert p (getvalue f)) (set_fs (insert p []) w)).
  set (w3 := match fs_fault w2 (OpRead p) with
             | Some _ => w2
             | None => after_model _ _ _ w2
             end).
  assert (Hp : fs w3 !! p = Some (getvalue f)).
  { subst w3. destruct (fs_fault w2 (OpRead p)).
    - apply lookup_insert_eq.
    - rewrite after_model_fs. apply lookup_insert_eq. }
  split; [|split; [|split]].
  - intros Hu. rewrite Hu.
    destruct (fs_fault w2 (OpRead p)); cbn; apply lookup_delete_eq.
  - intros e Hu. rewrite Hu.
    destruct (fs_fault w2 (OpRead p)); cbn; (split; [exact Hp|]);
      rewrite !elem_of_app, !list_elem_of_singleton; auto.
  - now rewrite app_nil_r.
  - intros rs. rewrite process_file_eq. cbv zeta. rewrite Hc, Hw.
    fold p. fold w2.
    destruct (fs_fault w2 (OpRead p)); cbn [fst snd];
      destruct (fs_fault _ (OpUnlink p)); reflexivity.
Qed.
End Pipeline.

(** C1, on two URLs: the download of the first times out, the second is
    fetched and answered, and the result is the one entry of the second. *)
Lemma sources_fail_independently_witness :
  fst (process_pdf_with_gemini Ref.urlparse
         (Env.scripted_get [Raise "timed out"; Ok (Env.ok_response (getvalue Env.file_x))])
         (Env.scripted_model [Ok (Some "Presupuesto: 120.000 EUR")])
         Env.tmp_name Env.no_fault
         [SUrl "https://a.example/caido.pdf"; SUrl "https://b.example/pliego"]
         "¿Cuál es el presupuesto?" TUrl None Env.empty_world) =
  Ok (Some [mkEntry "PDF_from_b.example.pdf" "Presupuesto: 120.000 EUR"]).
Proof.
  apply (proj2 (proj2 (proj2 (proj2 (proj2 (proj2
           (sources_fail_independently Ref.urlparse
              (Env.scripted_get [Raise "timed out"; Ok (Env.ok_response (getvalue Env.file_x))])
              (Env.scripted_model [Ok (Some "Presupuesto: 120.000 EUR")])
              Env.tmp_name Env.no_fault "¿Cuál es el presupuesto?" None))))))).
  - vm_compute. reflexivity.
  - vm_compute. reflexivity.
Defined.

(** C4, with a model that never replies any text: one file and one valid
    URL are processed and the result is the message. *)
Lemma no_output_gives_message_witness :
  fst (get_gemini_response Ref.urlparse
         (Env.scripted_get [Ok (Env.ok_response (getvalue Env.file_y))])
         Env.silent_model Env.tmp_name Env.no_fault
         "Resumen" (Some [Env.file_x]) (Some ["https://b.example/pliego.pdf"])
         None Env.empty_world) =
  Ok no_documents_message.
Proof.
  apply (proj1 (proj2
           (no_output_gives_message Ref.urlparse
              (Env.scripted_get [Ok (Env.ok_response (getvalue Env.file_y))])
              Env.silent_model Env.tmp_name Env.no_fault "Resumen" None))).
  intros w0 d. reflexivity.
Defined.

(** C9, on four entries: the two valid ones are requested, stripped, and
    the first of them does not end in [.pdf]. *)
Lemma valid_urls_processed_witness :
  let url_docs := [" https://a.example/pliego "; "sin esquema"; "   ";
                   "https://b.example/anexo.pdf"] in
  let after :=
    snd (get_gemini_response Ref.urlparse (Env.scripted_get []) Env.silent_model
           Env.tmp_name Env.no_fault "Resumen" None (Some url_docs) None
           Env.empty_world) in
  requests after = ["https://a.example/pliego"; "https://b.example/anexo.pdf"]
  ∧ is_pdf_url "https://a.example/pliego" = false
  ∧ "https://a.example/pliego" ∈ requests after.
Proof.
  intros url_docs after.
  pose proof (valid_urls_processed Ref.urlparse (Env.scripted_get []) Env.silent_model
                Env.tmp_name Env.no_fault "Resumen" None None (Some url_docs)
                Env.empty_world) as (Hreq & _ & Hpdf).
  split; [exact Hreq|]. split; [reflexivity|].
  apply (Hpdf " https://a.example/pliego ").
  - apply list_elem_of_here.
  - vm_compute. discriminate.
  - vm_compute. reflexivity.
  - vm_compute. reflexivity.
Defined.

(** C2 as stated fails where the deletion fails: the call returns its
    entry and the temporary file is still there. *)
Lemma temp_file_survives_failed_unlink :
  let out :=
    process_pdf_with_gemini Ref.urlparse (Env.scripted_get [])
      (Env.scripted_model [Ok (Some "R1")]) Env.tmp_name Env.unlink_fault
      [SFile Env.file_x] "Resumen" TFile None Env.empty_world in
  fst out = Ok (Some [mkEntry "x.pdf" "R1"])
  ∧ fs (snd out) !! Env.tmp_name Env.empty_world = Some (getvalue Env.file_x)
  ∧ fs (snd out) !! Env.tmp_name Env.empty_world ≠ None.
Proof.
  vm_compute. split; [reflexivity|]. split; [reflexivity | discriminate].
Qed.

(** C2, amended, on a system without failures: the file is gone after the
    call.  On a system where the file cannot be read back: it is gone as
    well, and nothing is added.  On a system that refuses the deletion:
    the call still returns its entry. *)
Lemma temp_file_removed_unless_unlink_fails_witness :
  fs (snd (process_pdf_with_gemini Ref.urlparse (Env.scripted_get [])
             (Env.scripted_model [Ok (Some "R1")]) Env.tmp_name Env.no_fault
             [SFile Env.file_x] "Resumen" TFile None Env.empty_world))
    !! Env.tmp_name Env.empty_world = None
  ∧ fs (snd (process_pdf_with_gemini Ref.urlparse (Env.scripted_get [])
               (Env.scripted_model [Ok (Some "R1")]) Env.tmp_name Env.read_fault
               [SFile Env.file_x] "Resumen" TFile None Env.empty_world))
      !! Env.tmp_name Env.empty_world = None
  ∧ fst (process_pdf_with_gemini Ref.urlparse (Env.scripted_get [])
           (Env.scripted_model [Ok (Some "R1")]) Env.tmp_name Env.unlink_fault
           [SFile Env.file_x] "Resumen" TFile None Env.empty_world) =
    Ok (Some [mkEntry "x.pdf" "R1"]).
Proof.
  split; [|split].
  - apply (temp_file_removed_unless_unlink_fails Ref.urlparse (Env.scripted_get [])
             (Env.scripted_model [Ok (Some "R1")]) Env.tmp_name Env.no_fault
             "Resumen" None Env.file_x Env.empty_world); reflexivity.
  - apply (temp_file_removed_unless_unlink_fails Ref.urlparse (Env.scripted_get [])
             (Env.scripted_model [Ok (Some "R1")]) Env.tmp_name Env.read_fault
             "Resumen" None Env.file_x Env.empty_world); reflexivity.
  - destruct (temp_file_removed_unless_unlink_fails Ref.urlparse (Env.scripted_get [])
                (Env.scripted_model [Ok (Some "R1")]) Env.tmp_name Env.unlink_fault
                "Resumen" None Env.file_x Env.empty_world eq_refl eq_refl)
      as (_ & _ & Hout & _).
    rewrite Hout. vm_compute. reflexivity.
Defined.

(** On a full disk the write fails, the source is skipped, and the empty
    temporary file stays behind. *)
Example full_disk_leaves_file :
  let out :=
    process_pdf_with_gemini Ref.urlparse (Env.scripted_get [])
      (Env.scripted_model [Ok (Some "R1")]) Env.tmp_name Env.write_fault
      [SFile Env.file_x] "Resumen" TFile None Env.empty_world in
  fst out = Ok (Some [])
  ∧ fs (snd out) !! Env.tmp_name Env.empty_world = Some []
  ∧ log (snd out) =
      ["Error processing source UploadedFile(name='x.pdf'): [Errno 28] No space left on device"].
Proof. vm_compute. repeat split; reflexivity. Qed.

(** Two uploaded files answered in turn, rendered end to end. *)
Example two_files_rendered :
  fst (get_gemini_response Ref.urlparse (Env.scripted_get [])
         (Env.scripted_model [Ok (Some "R1"); Ok (Some "R2")])
         Env.tmp_name Env.no_fault "Resumen"
         (Some [Env.file_x; Env.file_y]) None None Env.empty_world) =
  Ok ("**x.pdf**" +:+ nl +:+ "R1" +:+ nl +:+ nl +:+ "---" +:+ nl +:+ nl +:+
      "**y.pdf**" +:+ nl +:+ "R2").
Proof. vm_compute. reflexivity. Qed.

(** An empty question is turned into the error text by [user_input], and a
    question without documents into a message on the page. *)
Example user_input_guards :
  fst (user_input Ref.urlparse (Env.scripted_get []) Env.silent_model
         Env.tmp_name Env.no_fault "   " (Some [Env.file_x]) None None
         Env.empty_world) =
    Ok (Some "Error: No se pudo procesar la solicitud. Por favor, verifica tu conexión a internet e inténtalo de nuevo.")
  ∧ user_input Ref.urlparse (Env.scripted_get []) Env.silent_model
      Env.tmp_name Env.no_fault "Resumen" None None None Env.empty_world =
    (Ok None,
     add_ui_error "Por favor, sube un archivo PDF o proporciona una URL de PDF primero!"
       Env.empty_world).
Proof. vm_compute. split; reflexivity. Qed.

(** A URL answered with 404 is logged, shown on the page and skipped; the
    next URL is fetched and answered. *)
Example http_error_skipped :
  let out :=
    get_gemini_response Ref.urlparse
      (Env.scripted_get [Ok Env.not_found; Ok (Env.ok_response (getvalue Env.file_y))])
      (Env.scripted_model [Ok (Some "R1")]) Env.tmp_name Env.no_fault "Resumen"
      None (Some ["https://a.example/x"; "https://b.example/y.pdf"]) None
      Env.empty_world in
  fst out = Ok ("**PDF_from_b.example.pdf**" +:+ nl +:+ "R1")
  ∧ log (snd out) = ["Error processing URL https://a.example/x: Client error '404 Not Found'"]
  ∧ ui_errors (snd out) = ["Failed to process PDF from URL: https://a.example/x"]
  ∧ requests (snd out) = ["https://a.example/x"; "https://b.example/y.pdf"].
Proof. vm_compute. repeat split; reflexivity. Qed.


(** * Further properties of the code *)

(** ** More on strings *)

Lemma rev_app_spec (s1 : string) :
  ∀ s2, String.rev_app s1 s2 = String.rev s1 +:+ s2.
Proof.
  unfold String.rev. induction s1 as [|a s1 IH]; intros s2; [reflexivity|].
  cbn [String.rev_app]. rewrite IH, (IH (String a EmptyString)).
  now rewrite append_assoc.
Qed.

Lemma rev_cons (a : ascii) (s : string) :
  String.rev (String a s) = String.rev s +:+ String a EmptyString.
Proof. unfold String.rev at 1. cbn [String.rev_app]. apply rev_app_spec. Qed.

Lemma rev_append (a b : string) :
  String.rev (a +:+ b) = String.rev b +:+ String.rev a.
Proof.
  induction a as [|x a IH].
  - rewrite append_nil_l. change (String.rev EmptyString) with EmptyString.
    now rewrite append_nil_r.
  - rewrite append_cons, !rev_cons, IH. now rewrite append_assoc.
Qed.

Lemma rev_involutive (s : string) : String.rev (String.rev s) = s.
Proof.
  induction s as [|a s IH]; [reflexivity|].
  rewrite rev_cons, rev_append, IH. reflexivity.
Qed.

Lemma prefix_spec (p : string) :
  ∀ s, String.prefix p s = true ↔ ∃ r, s = p +:+ r.
Proof.
  induction p as [|a p IH]; intros s.
  - split; [intros _; exists s; reflexivity | intros _; destruct s; reflexivity].
  - destruct s as [|b s]; simpl.
    + split; [discriminate | intros [r Hr]; rewrite append_cons in Hr; discriminate].
    + destruct (ascii_dec a b) as [->|Hab].
      * rewrite IH. split; intros [r Hr]; exists r.
        -- now rewrite append_cons, Hr.
        -- rewrite append_cons in Hr. now inversion Hr.
      * split; [discriminate|].
        intros [r Hr]. rewrite append_cons in Hr. inversion Hr. congruence.
Qed.

Lemma endswith_spec (s suffix : string) :
  endswith s suffix = true ↔ ∃ pre, s = pre +:+ suffix.
Proof.
  unfold endswith. rewrite prefix_spec. split.
  - intros [r Hr]. exists (String.rev r).
    rewrite <- (rev_involutive s), Hr, rev_append. now rewrite rev_involutive.
  - intros [pre ->]. exists (String.rev pre). apply rev_append.
Qed.

Lemma lower_append (a b : string) : lower (a +:+ b) = lower a +:+ lower b.
Proof.
  induction a as [|x a IH]; [reflexivity|].
  rewrite append_cons. cbn [lower]. now rewrite IH, append_cons.
Qed.

Lemma lower_append_inv (a : string) :
  ∀ s b, lower s = a +:+ b →
         ∃ s1 s2, s = s1 +:+ s2 ∧ lower s1 = a ∧ lower s2 = b.
Proof.
  induction a as [|x a IH]; intros s b Hs.
  - exists EmptyString, s. auto.
  - destruct s as [|y s]; [discriminate Hs|].
    rewrite append_cons in Hs. cbn [lower] in Hs. inversion Hs as [[Hx Hrest]].
    destruct (IH s b Hrest) as (s1 & s2 & -> & H1 & H2).
    exists (String y s1), s2. cbn [lower]. rewrite H1. auto.
Qed.

Lemma lower_ascii_not_upper (a : ascii) :
  (65 <=? nat_of_ascii (lower_ascii a))%nat && (nat_of_ascii (lower_ascii a) <=? 90)%nat
  = false.
Proof.
  destruct a as [[] [] [] [] [] [] [] []]; vm_compute; reflexivity.
Qed.

Lemma lower_not_upper_pdf (s : string) : lower s ≠ ".PDF".
Proof.
  destruct s as [|a [|b s]]; cbn [lower]; try discriminate.
  intros H. inversion H as [[Ha Hb Hrest]].
  pose proof (lower_ascii_not_upper b) as Hup. rewrite Hb in Hup.
  vm_compute in Hup. discriminate Hup.
Qed.

(** X1: [is_pdf_url] holds exactly for the strings that end in a dot and
    the letters p, d, f in any mix of upper and lower case; the second
    alternative of the source, the suffix in capitals, never decides. *)
Theorem is_pdf_url_suffix (url : string) :
  (is_pdf_url url = true ↔ ∃ stem ext, url = stem +:+ ext ∧ lower ext = ".pdf")
  ∧ is_pdf_url url = endswith (lower url) ".pdf".
Proof.
  assert (Hdead : endswith (lower url) ".PDF" = false).
  { apply not_true_is_false. rewrite endswith_spec. intros [pre Hpre].
    destruct (lower_append_inv _ _ _ Hpre) as (s1 & s2 & _ & _ & H2).
    exact (lower_not_upper_pdf s2 H2). }
  unfold is_pdf_url. rewrite Hdead, orb_false_r. split; [|reflexivity].
  rewrite endswith_spec. split.
  - intros [pre Hpre].
    destruct (lower_append_inv _ _ _ Hpre) as (s1 & s2 & -> & _ & H2). eauto.
  - intros (stem & ext & -> & Hext). exists (lower stem).
    now rewrite lower_append, Hext.
Qed.

(** ** The fence pattern inside a longer text *)

Lemma contains_char_append (c : ascii) (a b : string) :
  contains (String c EmptyString) (a +:+ b) =
  contains (String c EmptyString) a || contains (String c EmptyString) b.
Proof.
  induction a as [|x a IH].
  - rewrite append_nil_l. destruct b; reflexivity.
  - rewrite append_cons. cbn [contains match_lit].
    destruct (Ascii.eqb c x); [reflexivity | exact IH].
Qed.

(** Text without a backquote in front of [y] does not change the search. *)
Lemma re_search_fence_skip (x y : string) :
  contains "`" x = false → re_search_fence (x +:+ y) = re_search_fence y.
Proof.
  induction x as [|c x IH]; intros Hx; [reflexivity|].
  rewrite append_cons, re_search_fence_eq.
  cbn [contains match_lit] in Hx.
  destruct (Ascii.eqb "`" c) eqn:Hc; [discriminate Hx|].
  unfold match_fence_at. change fence_open with (String "`" ("``json" +:+ nl)).
  cbn [match_lit]. rewrite Hc.
  apply IH, Hx.
Qed.

Lemma match_lit_append (lit s r z : string) :
  match_lit lit s = Some r → match_lit lit (s +:+ z) = Some (r +:+ z).
Proof.
  rewrite !match_lit_spec. intros ->. now rewrite append_assoc.
Qed.

Lemma lazy_until_append (close : string) :
  ∀ s g z, lazy_until close s = Some g → lazy_until close (s +:+ z) = Some g.
Proof.
  induction s as [|c s IH]; intros g z Hs;
    rewrite lazy_until_eq in Hs; rewrite lazy_until_eq.
  - destruct (match_lit close EmptyString) as [r|] eqn:Hm; [|discriminate].
    injection Hs as <-. rewrite append_nil_l.
    apply match_lit_spec in Hm.
    destruct close as [|a close].
    + destruct z; reflexivity.
    + rewrite append_cons in Hm. discriminate Hm.
  - destruct (match_lit close (String c s)) as [r|] eqn:Hm.
    + injection Hs as <-. now rewrite (match_lit_append _ _ _ z Hm).
    + destruct (lazy_until close s) as [g'|] eqn:Hl; cbn [option_map] in Hs;
        [|discriminate].
      injection Hs as <-. rewrite append_cons.
      destruct (match_lit close (String c (s +:+ z))) as [r|] eqn:Hm2.
      * exfalso. destruct (lazy_until_sound _ _ _ Hl) as [post Hpost].
        assert (His : is_Some (match_lit close (String c s))).
        { apply (match_lit_app_l close (String c s) z).
          - rewrite append_cons, Hm2. eauto.
          - subst s. simpl. rewrite !append_length. lia. }
        destruct His as [r' Hr']. congruence.
      * now rewrite (IH g' z eq_refl).
Qed.

Lemma append_split (a : string) :
  ∀ u b v, a +:+ u = b +:+ v → (String.length a ≤ String.length b)%nat →
           ∃ m, b = a +:+ m ∧ u = m +:+ v.
Proof.
  induction a as [|x a IH]; intros u b v Heq Hlen.
  - exists b. auto.
  - destruct b as [|y b]; [simpl in Hlen; lia|].
    rewrite !append_cons in Heq. inversion Heq as [[Hxy Hrest]].
    destruct (IH u b v Hrest) as (m & -> & ->); [simpl in Hlen; lia|].
    exists m. auto.
Qed.

(** Text behind a text that holds a fence does not change the search. *)
Lemma re_search_fence_append :
  ∀ y g z, re_search_fence y = Some g → re_search_fence (y +:+ z) = Some g.
Proof.
  induction y as [|c y IH]; intros g z Hy0;
    rewrite re_search_fence_eq in Hy0; rewrite re_search_fence_eq.
  - unfold match_fence_at in Hy0. cbn in Hy0. discriminate.
  - destruct (match_fence_at (String c y)) as [g'|] eqn:Hm.
    + injection Hy0 as <-. unfold match_fence_at in *.
      destruct (match_lit fence_open (String c y)) as [rest|] eqn:Ho; [|discriminate].
      rewrite (match_lit_append _ _ _ z Ho).
      now rewrite (lazy_until_append _ _ _ z Hm).
    + rename Hy0 into Hs. rewrite append_cons.
      replace (match_fence_at (String c (y +:+ z))) with (@None string);
        [now apply IH|].
      symmetry. unfold match_fence_at in *.
      destruct (match_lit fence_open (String c (y +:+ z))) as [rest|] eqn:Ho;
        [|reflexivity].
      exfalso.
      destruct (re_search_fence_sound _ _ Hs) as (pre & post & Hy).
      assert (His : is_Some (match_lit fence_open (String c y))).
      { apply (match_lit_app_l fence_open (String c y) z).
        - rewrite append_cons, Ho. eauto.
        - subst y. simpl. rewrite !append_length. simpl. lia. }
      destruct His as [r0 Hr0]. rewrite Hr0 in Hm.
      apply match_lit_spec in Hr0.
      assert (Hsplit : fence_open +:+ r0 =
                       (String c pre +:+ fence_open +:+ g) +:+ fence_close +:+ post).
      { rewrite <- Hr0, Hy. now rewrite !append_assoc, append_cons. }
      destruct (append_split _ _ _ _ Hsplit) as (m & _ & ->).
      { rewrite append_cons. cbn [String.length]. rewrite !append_length. lia. }
      destruct (lazy_until_complete fence_close m post) as [g2 Hg2]. congruence.
Qed.


(** ** [strip] *)

(** One more character to strip: the scan goes on behind it. *)
Lemma lstrip_step (a : ascii) (s1 : string) :
  lstrip (String a s1) =
  if is_space1 a then lstrip s1 else
  match s1 with
  | String b s2 =>
      if is_space2 a b then lstrip s2 else
      match s2 with
      | String c s3 => if is_space3 a b c then lstrip s3 else String a s1
      | EmptyString => String a s1
      end
  | EmptyString => String a s1
  end.
Proof. reflexivity. Qed.

Lemma lstrip_rev_step (a : ascii) (s1 : string) :
  lstrip_rev (String a s1) =
  if is_space1 a then lstrip_rev s1 else
  match s1 with
  | String b s2 =>
      if is_space2 b a then lstrip_rev s2 else
      match s2 with
      | String c s3 => if is_space3 c b a then lstrip_rev s3 else String a s1
      | EmptyString => String a s1
      end
  | EmptyString => String a s1
  end.
Proof. reflexivity. Qed.

(** Closes a case of the two lemmas below: the scan stops at once, or goes
    on behind a prefix [pre] on a shorter string. *)
Ltac strip_stop :=
  split; [cbn [starts_clean]; repeat match goal with H : _ = false |- _ => rewrite H end;
          reflexivity
         | now exists EmptyString].

Ltac strip_go IH rest pre :=
  let Hc := fresh "Hc" in let p := fresh "p" in let Hp := fresh "Hp" in
  destruct (IH rest) as [Hc [p Hp]]; [simpl in *; lia|];
  split; [exact Hc|]; exists (pre +:+ p);
  rewrite append_assoc, <- Hp; reflexivity.

Lemma lstrip_clean_go (n : nat) :
  ∀ s, (String.length s ≤ n)%nat →
       starts_clean false (lstrip s) = true ∧ ∃ p, s = p +:+ lstrip s.
Proof.
  induction n as [|n IH]; intros s Hlen.
  - destruct s; [|simpl in Hlen; lia]. split; [reflexivity | now exists EmptyString].
  - destruct s as [|a s1]; [split; [reflexivity | now exists EmptyString]|].
    rewrite lstrip_step.
    destruct (is_space1 a) eqn:Ha; [strip_go IH s1 (String a EmptyString)|].
    destruct s1 as [|b s2]; [strip_stop|].
    destruct (is_space2 a b) eqn:Hab;
      [strip_go IH s2 (String a (String b EmptyString))|].
    destruct s2 as [|c s3]; [strip_stop|].
    destruct (is_space3 a b c) eqn:Habc;
      [strip_go IH s3 (String a (String b (String c EmptyString))) | strip_stop].
Qed.

Lemma lstrip_rev_clean_go (n : nat) :
  ∀ s, (String.length s ≤ n)%nat →
       starts_clean true (lstrip_rev s) = true ∧ ∃ p, s = p +:+ lstrip_rev s.
Proof.
  induction n as [|n IH]; intros s Hlen.
  - destruct s; [|simpl in Hlen; lia]. split; [reflexivity | now exists EmptyString].
  - destruct s as [|a s1]; [split; [reflexivity | now exists EmptyString]|].
    rewrite lstrip_rev_step.
    destruct (is_space1 a) eqn:Ha; [strip_go IH s1 (String a EmptyString)|].
    destruct s1 as [|b s2]; [strip_stop|].
    destruct (is_space2 b a) eqn:Hab;
      [strip_go IH s2 (String a (String b EmptyString))|].
    destruct s2 as [|c s3]; [strip_stop|].
    destruct (is_space3 c b a) eqn:Habc;
      [strip_go IH s3 (String a (String b (String c EmptyString))) | strip_stop].
Qed.

Lemma lstrip_fixed (s : string) : starts_clean false s = true → lstrip s = s.
Proof.
  destruct s as [|a [|b [|c s3]]]; cbn [lstrip starts_clean]; intros H;
    repeat (apply andb_true_iff in H as [? H]);
    repeat match goal with
           | Hn : negb ?x = true |- _ => apply negb_true_iff in Hn; rewrite Hn
           end; reflexivity.
Qed.

Lemma lstrip_rev_fixed (s : string) : starts_clean true s = true → lstrip_rev s = s.
Proof.
  destruct s as [|a [|b [|c s3]]]; cbn [lstrip_rev starts_clean]; intros H;
    repeat (apply andb_true_iff in H as [? H]);
    repeat match goal with
           | Hn : negb ?x = true |- _ => apply negb_true_iff in Hn; rewrite Hn
           end; reflexivity.
Qed.

Lemma starts_clean_prefix (r x : string) :
  starts_clean false (r +:+ x) = true → starts_clean false r = true.
Proof.
  destruct r as [|a [|b [|c r3]]]; rewrite ?append_cons; cbn [starts_clean];
    try reflexivity; intros H.
  - destruct x; rewrite ?append_nil_l in H;
      repeat (apply andb_true_iff in H as [? H]); now rewrite ?H0, ?H.
  - rewrite append_nil_l in H. destruct x;
      repeat (apply andb_true_iff in H as [? H]);
      repeat (apply andb_true_iff; split); auto.
  - exact H.
Qed.

(** Stripping is idempotent. *)
Lemma strip_idempotent (s : string) : strip (strip s) = strip s.
Proof.
  unfold strip, rstrip.
  destruct (lstrip_clean_go _ s (le_n _)) as [Hclean _].
  set (t := lstrip s) in *.
  destruct (lstrip_rev_clean_go _ (String.rev t) (le_n _)) as [Hrclean [p Hp]].
  set (y := lstrip_rev (String.rev t)) in *.
  assert (Ht : t = String.rev y +:+ String.rev p).
  { rewrite <- (rev_involutive t), Hp. apply rev_append. }
  rewrite (lstrip_fixed (String.rev y)).
  - now rewrite rev_involutive, (lstrip_rev_fixed y Hrclean).
  - apply (starts_clean_prefix _ (String.rev p)). now rewrite <- Ht.
Qed.

Section Behaviour.

Variable urlparse : string → Result ParseResult.
Variable httpx_get : World → string → Result HttpResponse.
Variable generate_content : World → bytes → string → Result (option string).
Variable tmp_name : World → string.
Variable fs_fault : World → FsOp → option exn.
Variable json_loads : string → JsonOutcome.

Local Abbreviation process_pdf_data := (process_pdf_data generate_content).
Local Abbreviation process_url := (process_url urlparse httpx_get generate_content).
Local Abbreviation process_file := (process_file generate_content tmp_name fs_fault).
Local Abbreviation process_source :=
  (process_source urlparse httpx_get generate_content tmp_name fs_fault).
Local Abbreviation process_pdf_with_gemini :=
  (process_pdf_with_gemini urlparse httpx_get generate_content tmp_name fs_fault).
Local Abbreviation get_gemini_response :=
  (get_gemini_response urlparse httpx_get generate_content tmp_name fs_fault).
Local Abbreviation user_input :=
  (user_input urlparse httpx_get generate_content tmp_name fs_fault).
Local Abbreviation source_entries :=
  (source_entries urlparse httpx_get generate_content tmp_name fs_fault).
Local Abbreviation source_world :=
  (source_world urlparse httpx_get generate_content tmp_name fs_fault).
Local Abbreviation collected :=
  (collected urlparse httpx_get generate_content tmp_name fs_fault).
Local Abbreviation world_after :=
  (world_after urlparse httpx_get generate_content tmp_name fs_fault).
Local Abbreviation landing_urls := (landing_urls urlparse).
Local Abbreviation landing_start := (landing_start urlparse).
Local Abbreviation auto_run :=
  (auto_run urlparse json_loads httpx_get generate_content tmp_name fs_fault).
Local Abbreviation main_chat :=
  (main_chat urlparse httpx_get generate_content tmp_name fs_fault).


(** Splits the processing of one source into its cases, each with the
    world it leaves written out. *)
Ltac source_cases st s w q h :=
  unfold source_world, source_entries, process_source, try_except;
  destruct st as [| |?]; [destruct s as [?f|?url] | destruct s as [?f|?url] |];
  [ rewrite (process_file_eq generate_content tmp_name fs_fault); cbv zeta;
    destruct (fs_fault w OpCreate) as [?e|] eqn:?;
    [| destruct (fs_fault _ (OpWrite _)) as [?e|] eqn:?;
       [| destruct (fs_fault _ (OpRead _)) as [?e|] eqn:?; cbn [fst snd];
          destruct (fs_fault _ (OpUnlink _)) as [?e|] eqn:? ] ]
  | idtac
  | idtac
  | rewrite (process_url_eq urlparse httpx_get generate_content); cbv zeta;
    destruct (httpx_get w _) as [?r|?e] eqn:?;
    [ destruct (raise_for_status _) as [?e|] eqn:?;
      [| destruct (status_code _ =? 200)%nat eqn:?;
         [ destruct (urlparse _) as [?parsed|?e] eqn:? |] ] |]
  | idtac ];
  cbn [fst snd].

Lemma after_model_calls (d : bytes) (p : string) (r : Result (option string))
    (w : World) :
  model_calls (after_model d p r w) = (model_calls w ++ [(d, p)])%list.
Proof. destruct r; reflexivity. Qed.

Lemma after_model_ui (d : bytes) (p : string) (r : Result (option string))
    (w : World) :
  ui_errors (after_model d p r w) = ui_errors w.
Proof. destruct r; reflexivity. Qed.

(** One source sends at most one request to the model, with the prompt
    built from the question and the history. *)
Lemma source_world_model_calls (st : SourceType) (q : string)
    (h : option (list ChatTurn)) (s : Source) (w : World) :
  ∃ calls,
    model_calls (source_world st q h s w) = (model_calls w ++ calls)%list
    ∧ (calls = [] ∨ ∃ d, calls = [(d, build_prompt q h)]).
Proof.
  source_cases st s w q h;
    try (exists []; split; [cbn; now rewrite app_nil_r | now left]);
    (eexists [_]; split; [cbn; rewrite after_model_calls; reflexivity | right; eauto]).
Qed.

(** X2: no retries.  Whatever fails, a batch sends the model at most one
    request per source, each with the prompt built from the question and
    the history, and keeps the record of earlier requests. *)
Theorem model_called_once_per_source (st : SourceType) (q : string)
    (h : option (list ChatTurn)) (sources : list Source) (w : World) :
  ∃ calls,
    model_calls (snd (process_pdf_with_gemini sources q st h w)) =
      (model_calls w ++ calls)%list
    ∧ (length calls ≤ length sources)%nat
    ∧ Forall (fun call => snd call = build_prompt q h) calls.
Proof.
  rewrite (process_pdf_with_gemini_eq urlparse httpx_get generate_content tmp_name fs_fault).
  cbn [snd]. revert w.
  induction sources as [|s rest IH]; intros w.
  - exists []. cbn. rewrite app_nil_r. repeat split; [lia | constructor].
  - cbn [world_after].
    destruct (IH (source_world st q h s w)) as (calls & Hc & Hlen & Hall).
    destruct (source_world_model_calls st q h s w) as (c1 & Hc1 & Hshape).
    exists (c1 ++ calls)%list. rewrite Hc, Hc1, app_assoc. split; [reflexivity|].
    rewrite length_app. split.
    + destruct Hshape as [-> | [d ->]]; simpl; lia.
    + apply Forall_app. split; [|exact Hall].
      destruct Hshape as [-> | [d ->]]; repeat constructor.
Qed.

(** In URL mode the file system is never touched. *)
Lemma source_world_url_fs (q : string) (h : option (list ChatTurn))
    (s : Source) (w : World) :
  fs (source_world TUrl q h s w) = fs w.
Proof.
  set (st := TUrl). assert (Hst : st = TUrl) by reflexivity. clearbody st.
  source_cases st s w q h; try discriminate Hst; cbn;
    rewrite ?after_model_fs; reflexivity.
Qed.

(** In file mode nothing is requested and nothing is shown on the page. *)
Lemma source_world_file_ui (q : string) (h : option (list ChatTurn))
    (s : Source) (w : World) :
  ui_errors (source_world TFile q h s w) = ui_errors w.
Proof.
  set (st := TFile). assert (Hst : st = TFile) by reflexivity. clearbody st.
  source_cases st s w q h; try discriminate Hst; cbn;
    rewrite ?after_model_ui; reflexivity.
Qed.

Lemma world_after_url_fs (q : string) (h : option (list ChatTurn))
    (sources : list Source) :
  ∀ w, fs (world_after TUrl q h sources w) = fs w.
Proof.
  induction sources as [|s rest IH]; intros w; [reflexivity|].
  cbn [world_after]. now rewrite IH, source_world_url_fs.
Qed.

Lemma world_after_file_ui (q : string) (h : option (list ChatTurn))
    (sources : list Source) :
  ∀ w, ui_errors (world_after TFile q h sources w) = ui_errors w.
Proof.
  induction sources as [|s rest IH]; intros w; [reflexivity|].
  cbn [world_after]. now rewrite IH, source_world_file_ui.
Qed.

(** The model calls of one uploaded file whose temporary copy is created,
    written and read back: one call, with the payload as uploaded. *)
Lemma source_world_file_calls (q : string) (h : option (list ChatTurn))
    (f : UploadedFile) (w : World) :
  (∀ w', fs_fault w' OpCreate = None) →
  (∀ w' p, fs_fault w' (OpWrite p) = None) →
  (∀ w' p, fs_fault w' (OpRead p) = None) →
  model_calls (source_world TFile q h (SFile f) w) =
  (model_calls w ++ [(getvalue f, build_prompt q h)])%list.
Proof.
  intros Hc Hw Hr.
  rewrite (source_world_file urlparse httpx_get generate_content tmp_name fs_fault)
    by auto.
  rewrite Hr.
  destruct (fs_fault _ (OpUnlink _)); cbn; now rewrite after_model_calls.
Qed.

(** X3: round trip through the temporary file.  When creating, writing and
    reading the temporary files does not fail, the documents sent to the
    model are the uploaded payloads, byte for byte, one call per file in
    upload order, whether or not the deletions succeed. *)
Theorem uploads_reach_model_unchanged (q : string) (h : option (list ChatTurn))
    (files : list UploadedFile) (w : World) :
  (∀ w', fs_fault w' OpCreate = None) →
  (∀ w' p, fs_fault w' (OpWrite p) = None) →
  (∀ w' p, fs_fault w' (OpRead p) = None) →
  model_calls (snd (process_pdf_with_gemini (map SFile files) q TFile h w)) =
  (model_calls w ++ map (fun f => (getvalue f, build_prompt q h)) files)%list.
Proof.
  intros Hc Hw Hr.
  rewrite (process_pdf_with_gemini_eq urlparse httpx_get generate_content tmp_name fs_fault).
  cbn [snd]. revert w.
  induction files as [|f rest IH]; intros w.
  - cbn. now rewrite app_nil_r.
  - cbn [map world_after]. rewrite IH, source_world_file_calls by auto.
    now rewrite <- app_assoc.
Qed.

(** The file system after one source in file mode, when neither a write
    nor a deletion fails: no file is added and no content is changed. *)
Lemma source_world_file_fs (q : string) (h : option (list ChatTurn))
    (s : Source) (w : World) :
  (∀ w' p, fs_fault w' (OpWrite p) = None) →
  (∀ w' p, fs_fault w' (OpUnlink p) = None) →
  fs (source_world TFile q h s w) ⊆ fs w
  ∧ (fs w !! tmp_name w = None → fs (source_world TFile q h s w) = fs w).
Proof.
  intros Hw Hu.
  assert (Hback : ∀ data, delete (tmp_name w)
                    (<[tmp_name w := data]> (<[tmp_name w := []]> (fs w))) =
                  delete (tmp_name w) (fs w)).
  { intros data. now rewrite insert_insert_eq, delete_insert_eq. }
  set (st := TFile). assert (Hst : st = TFile) by reflexivity. clearbody st.
  source_cases st s w q h; try discriminate Hst; try congruence; cbn;
    rewrite ?after_model_fs; cbn;
    try (split; [reflexivity | intros _; reflexivity]);
    rewrite Hback; (split; [apply delete_subseteq | apply delete_id]).
Qed.

(** X4: a batch of uploads leaves no file behind and changes no file, as
    long as no write and no deletion fails: every file that exists after
    the call existed before it with the same content.  Failures to create
    or to read a temporary file, and failures of the model, do not
    matter. *)
Theorem uploads_leave_no_file (q : string) (h : option (list ChatTurn))
    (sources : list Source) (w : World) :
  (∀ w' p, fs_fault w' (OpWrite p) = None) →
  (∀ w' p, fs_fault w' (OpUnlink p) = None) →
  fs (snd (process_pdf_with_gemini sources q TFile h w)) ⊆ fs w.
Proof.
  intros Hw Hu.
  rewrite (process_pdf_with_gemini_eq urlparse httpx_get generate_content tmp_name fs_fault).
  cbn [snd]. revert w.
  induction sources as [|s rest IH]; intros w; [reflexivity|].
  cbn [world_after]. etrans; [apply IH|].
  now apply source_world_file_fs.
Qed.

(** X5: URL mode never touches the file system, whatever the sources are
    and whatever fails. *)
Theorem urls_touch_no_file (q : string) (h : option (list ChatTurn))
    (sources : list Source) (w : World) :
  fs (snd (process_pdf_with_gemini sources q TUrl h w)) = fs w.
Proof.
  rewrite (process_pdf_with_gemini_eq urlparse httpx_get generate_content tmp_name fs_fault).
  apply world_after_url_fs.
Qed.

Lemma reply_entries_shape (n : string) (reply : option string) :
  reply_entries n reply = [] ∨
  ∃ t, t ≠ EmptyString ∧ reply_entries n reply = [mkEntry n t].
Proof.
  destruct reply as [[|a t]|]; cbn; auto.
  right. exists (String a t). split; [discriminate | reflexivity].
Qed.

(** What one source adds: nothing, or one entry with a non-empty response
    under the display name of the source. *)
Lemma source_entries_shape (st : SourceType) (q : string)
    (h : option (list ChatTurn)) (s : Source) (w : World) :
  source_entries st q h s w = [] ∨
  ∃ t, t ≠ EmptyString ∧
       source_entries st q h s w = [mkEntry (display_name urlparse s) t].
Proof.
  source_cases st s w q h; try (now left);
    cbn [app display_name name]; rewrite ?Heqr0; try apply reply_entries_shape.
  all: match goal with H : urlparse _ = Ok _ |- _ => rewrite H end;
    apply reply_entries_shape.
Qed.

(** X6: the entries of a batch follow the order of its sources.  Their
    file names are, in order, display names of sources of the batch, a
    source gives at most one entry, and no entry has an empty response. *)
Theorem entries_follow_sources (st : SourceType) (q : string)
    (h : option (list ChatTurn)) (sources : list Source) (w : World) :
  ∃ entries,
    fst (process_pdf_with_gemini sources q st h w) = Ok (Some entries)
    ∧ sublist (map filename entries) (map (display_name urlparse) sources)
    ∧ (length entries ≤ length sources)%nat
    ∧ Forall (fun e => response e ≠ EmptyString) entries.
Proof.
  rewrite (process_pdf_with_gemini_eq urlparse httpx_get generate_content tmp_name fs_fault).
  eexists. split; [reflexivity|]. revert w.
  induction sources as [|s rest IH]; intros w.
  - cbn. repeat split; constructor.
  - cbn [collected map]. destruct (IH (source_world st q h s w)) as (Hsub & Hlen & Hall).
    destruct (source_entries_shape st q h s w) as [-> | (t & Ht & ->)]; cbn.
    + split; [now apply sublist_cons|]. split; [lia | exact Hall].
    + split; [now apply sublist_skip|]. split; [lia|].
      constructor; [exact Ht | exact Hall].
Qed.

Lemma render_responses_cons (e : Entry) (rest : list Entry) :
  ∃ tail, render_responses (e :: rest) =
          ("**" +:+ filename e +:+ "**" +:+ nl) +:+ response e +:+ tail.
Proof.
  unfold render_responses. cbn [truthy_list negb].
  rewrite format_loop_spec. cbn [app map]. unfold join.
  destruct rest as [|e2 rest].
  - exists EmptyString. cbn. unfold format_entry.
    now rewrite !append_assoc, append_nil_r.
  - eexists. cbn [map String.concat]. unfold format_entry at 1.
    rewrite !append_assoc. reflexivity.
Qed.

Lemma render_responses_stars (e : Entry) (rest : list Entry) :
  ∃ tail, render_responses (e :: rest) = String "*" (String "*" tail).
Proof.
  destruct (render_responses_cons e rest) as [tail ->]. eexists. reflexivity.
Qed.

(** X7: the message that no documents were provided is returned exactly
    when no source yielded an entry; any other result starts with the
    bold name of the first entry. *)
Theorem message_iff_nothing_collected (q : string) (h : option (list ChatTurn))
    (file_docs : option (list UploadedFile)) (url_docs : option (list string))
    (w : World) :
  let files := map SFile (default [] file_docs) in
  let urls := map SUrl (valid_urls_of urlparse (default [] url_docs)) in
  let entries := (collected TFile q h files w ++
                  collected TUrl q h urls (world_after TFile q h files w))%list in
  (fst (get_gemini_response q file_docs url_docs h w) = Ok no_documents_message
   ↔ entries = [])
  ∧ (∀ e rest, entries = e :: rest →
       ∃ tail, fst (get_gemini_response q file_docs url_docs h w) =
               Ok (("**" +:+ filename e +:+ "**" +:+ nl) +:+ response e +:+ tail)).
Proof.
  cbv zeta.
  rewrite (get_gemini_response_eq urlparse httpx_get generate_content tmp_name fs_fault).
  cbv zeta. cbn [fst].
  set (entries := (_ ++ _)%list). split.
  - split.
    + intros [= Hmsg]. destruct entries as [|e rest]; [reflexivity|].
      destruct (render_responses_stars e rest) as [tail Htail].
      rewrite Htail in Hmsg. discriminate Hmsg.
    + intros ->. reflexivity.
  - intros e rest ->. destruct (render_responses_cons e rest) as [tail ->]. eauto.
Qed.

(** X8: [user_input] turns a blank question into the text about the
    connection and a log line, and a question without documents into
    [None] and a message on the page; in both cases nothing is fetched,
    nothing is sent to the model and no file is touched. *)
Theorem user_input_rejects_blank_and_bare (q : string) (file_docs : option (list UploadedFile))
    (url_docs : option (list string)) (h : option (list ChatTurn)) (w : World) :
  (strip q = EmptyString →
     user_input q file_docs url_docs h w =
     (Ok (Some "Error: No se pudo procesar la solicitud. Por favor, verifica tu conexión a internet e inténtalo de nuevo."),
      add_log "Error al procesar la entrada: Pregunta vacía" w))
  ∧ (strip q ≠ EmptyString → default [] file_docs = [] → default [] url_docs = [] →
     user_input q file_docs url_docs h w =
     (Ok None,
      add_ui_error "Por favor, sube un archivo PDF o proporciona una URL de PDF primero!" w)).
Proof.
  unfold user_input, try_except, raise, bind, st_error, logging_error, ret. split.
  - intros ->. reflexivity.
  - intros Hq Hf Hu. apply truthy_true in Hq. rewrite Hq. cbn [negb].
    destruct file_docs as [[|f fl]|]; try discriminate Hf;
      destruct url_docs as [[|u ul]|]; try discriminate Hu; reflexivity.
Qed.

(** X9: with a question that is not blank and at least one document,
    [user_input] returns the text of the aggregator and never [None];
    it never raises. *)
Theorem user_input_passes_through (q : string)
    (file_docs : option (list UploadedFile)) (url_docs : option (list string))
    (h : option (list ChatTurn)) (w : World) :
  strip q ≠ EmptyString →
  default [] file_docs ≠ [] ∨ default [] url_docs ≠ [] →
  ∃ text,
    fst (get_gemini_response q file_docs url_docs h w) = Ok text
    ∧ text ≠ EmptyString
    ∧ user_input q file_docs url_docs h w =
      (Ok (Some text), snd (get_gemini_response q file_docs url_docs h w)).
Proof.
  intros Hq Hdocs. apply truthy_true in Hq.
  unfold user_input, try_except, bind, ret. rewrite Hq. cbn [negb].
  replace (negb (truthy_opt_list file_docs) && negb (truthy_opt_list url_docs))
    with false.
  2:{ destruct file_docs as [[|f fl]|], url_docs as [[|u ul]|]; cbn in *;
        try reflexivity; destruct Hdocs; congruence. }
  rewrite (get_gemini_response_eq urlparse httpx_get generate_content tmp_name fs_fault).
  cbv zeta. eexists. split; [reflexivity|]. split; [|reflexivity].
  destruct (_ ++ _)%list as [|e rest]; [discriminate|].
  destruct (render_responses_stars e rest) as [tail ->]. discriminate.
Qed.


(** *** The landing page *)

Lemma filter_map_commute {A B} (f : B → bool) (g : A → B) (l : list A) :
  List.filter f (map g l) = map g (List.filter (fun a => f (g a)) l).
Proof.
  induction l as [|a l IH]; [reflexivity|].
  cbn [map List.filter]. destruct (f (g a)); cbn [map]; now rewrite IH.
Qed.

Lemma filter_filter_and {A} (f g : A → bool) (l : list A) :
  List.filter f (List.filter g l) = List.filter (fun a => g a && f a) l.
Proof.
  induction l as [|a l IH]; [reflexivity|].
  cbn [List.filter]. destruct (g a); cbn [List.filter andb]; [|exact IH].
  destruct (f a); now rewrite IH.
Qed.

(** The landing page keeps the lines that the aggregator would keep. *)
Lemma landing_urls_eq (url_input : string) :
  landing_urls url_input = valid_urls_of urlparse (lines_from EmptyString url_input).
Proof.
  unfold landing_urls, valid_urls_of.
  now rewrite filter_map_commute, filter_filter_and.
Qed.

Lemma valid_urls_of_idempotent (l : list string) :
  valid_urls_of urlparse (valid_urls_of urlparse l) = valid_urls_of urlparse l.
Proof.
  unfold valid_urls_of. induction l as [|u l IH]; [reflexivity|].
  cbn [List.filter].
  destruct (truthy (strip u) && is_valid_url urlparse (strip u)) eqn:Hu; [|exact IH].
  cbn [map List.filter]. rewrite strip_idempotent, Hu. cbn [map].
  now rewrite strip_idempotent, IH.
Qed.

(** X10: the URLs that the landing page stores are exactly the lines that
    are valid after stripping, and the aggregator requests each of them as
    stored on every later question: its own filter drops none of them and
    changes none. *)
Theorem landing_urls_requested_as_stored (uploaded_files : list UploadedFile)
    (url_input q : string) (h : option (list ChatTurn)) (ss ss' : Session)
    (w w' w0 : World) :
  landing_start uploaded_files url_input ss w = (Ok (ss', true), w') →
  ss_url_docs ss' = valid_urls_of urlparse (lines_from EmptyString url_input)
  ∧ ss_file_docs ss' = uploaded_files
  ∧ valid_urls_of urlparse (ss_url_docs ss') = ss_url_docs ss'
  ∧ requests (snd (get_gemini_response q (Some (ss_file_docs ss'))
                     (Some (ss_url_docs ss')) h w0)) =
    (requests w0 ++ ss_url_docs ss')%list.
Proof.
  unfold landing_start, bind, st_error, ret.
  destruct (negb (truthy_list uploaded_files) && negb (truthy (strip url_input)));
    [discriminate|].
  intros [= <- <-]. cbn [ss_url_docs ss_file_docs set_docs set_show_main_app].
  rewrite landing_urls_eq.
  split; [reflexivity|]. split; [now destruct uploaded_files|].
  split; [apply valid_urls_of_idempotent|].
  rewrite (get_gemini_response_eq urlparse httpx_get generate_content tmp_name fs_fault).
  cbv zeta. cbn [snd default from_option id].
  rewrite !(world_after_requests urlparse httpx_get generate_content tmp_name fs_fault).
  rewrite requested_urls, requested_files, valid_urls_of_idempotent.
  now rewrite app_nil_r.
Qed.

(** X11: the landing page refuses to start only when there is no file and
    the URL box is blank; it starts with an empty list of documents when
    the box holds lines but none of them is a valid URL. *)
Theorem landing_start_cases (uploaded_files : list UploadedFile)
    (url_input : string) (ss : Session) (w : World) :
  (uploaded_files = [] → strip url_input = EmptyString →
     landing_start uploaded_files url_input ss w =
     (Ok (ss, false),
      add_ui_error "Por favor, sube al menos un archivo o ingresa una URL para continuar." w))
  ∧ (uploaded_files = [] → strip url_input ≠ EmptyString →
     valid_urls_of urlparse (lines_from EmptyString url_input) = [] →
     landing_start uploaded_files url_input ss w =
     (Ok (set_show_main_app true (set_docs [] [] ss), true), w)).
Proof.
  unfold landing_start, bind, st_error, ret. split.
  - intros -> ->. reflexivity.
  - intros -> Hne Hnone. apply truthy_true in Hne.
    cbn [truthy_list negb andb]. rewrite Hne. cbn [negb].
    now rewrite landing_urls_eq, Hnone.
Qed.

(** *** The chat and the automatic summary *)

Lemma world_after_model_calls (st : SourceType) (q : string)
    (h : option (list ChatTurn)) (sources : list Source) :
  ∀ w, ∃ calls,
    model_calls (world_after st q h sources w) = (model_calls w ++ calls)%list
    ∧ (length calls ≤ length sources)%nat
    ∧ Forall (fun call => snd call = build_prompt q h) calls.
Proof.
  induction sources as [|s rest IH]; intros w.
  - exists []. cbn. rewrite app_nil_r. repeat split; [lia | constructor].
  - cbn [world_after].
    destruct (IH (source_world st q h s w)) as (calls & Hc & Hlen & Hall).
    destruct (source_world_model_calls st q h s w) as (c1 & Hc1 & Hshape).
    exists (c1 ++ calls)%list. rewrite Hc, Hc1, app_assoc. split; [reflexivity|].
    rewrite length_app. split.
    + destruct Hshape as [-> | [d ->]]; simpl; lia.
    + apply Forall_app. split; [|exact Hall].
      destruct Hshape as [-> | [d ->]]; repeat constructor.
Qed.

(** What [user_input] hands back: nothing, or a text that is neither empty
    nor one of the two placeholders; and every request it sends to the
    model carries the prompt of its question and history. *)
Lemma user_input_result (q : string) (file_docs : option (list UploadedFile))
    (url_docs : option (list string)) (h : option (list ChatTurn)) (w : World) :
  ∃ r w' calls,
    user_input q file_docs url_docs h w = (Ok r, w')
    ∧ (∀ fallback, fallback ≠ EmptyString → fallback ≠ chat_placeholder →
         fallback ≠ summary_placeholder →
         response_or r fallback ≠ EmptyString
         ∧ response_or r fallback ≠ chat_placeholder
         ∧ response_or r fallback ≠ summary_placeholder)
    ∧ model_calls w' = (model_calls w ++ calls)%list
    ∧ Forall (fun call => snd call = build_prompt q h) calls
    ∧ (strip q ≠ EmptyString →
       default [] file_docs ≠ [] ∨ default [] url_docs ≠ [] →
       ∃ text, r = Some text ∧ text ≠ EmptyString).
Proof.
  unfold user_input, try_except, raise, bind, st_error, logging_error, ret.
  destruct (truthy (strip q)) eqn:Hq; cbn [negb].
  2:{ eexists _, _, []. split; [reflexivity|]. split; [|split; [|split]].
      - intros fb _ _ _. cbn. repeat split; discriminate.
      - cbn. now rewrite app_nil_r.
      - constructor.
      - intros Hne _. apply truthy_true in Hne. congruence. }
  destruct (negb (truthy_opt_list file_docs) && negb (truthy_opt_list url_docs))
    eqn:Hdocs.
  { eexists _, _, []. split; [reflexivity|]. split; [|split; [|split]].
    - intros fb H1 H2 H3. cbn. auto.
    - cbn. now rewrite app_nil_r.
    - constructor.
    - intros _ Hne. exfalso.
      destruct file_docs as [[|f fl]|], url_docs as [[|u ul]|]; cbn in *;
        try discriminate; destruct Hne; congruence. }
  rewrite (get_gemini_response_eq urlparse httpx_get generate_content tmp_name fs_fault).
  cbv zeta.
  set (files := map SFile (default [] file_docs)).
  set (urls := map SUrl (valid_urls_of urlparse (default [] url_docs))).
  destruct (world_after_model_calls TFile q h files w) as (c1 & Hc1 & _ & Hall1).
  destruct (world_after_model_calls TUrl q h urls (world_after TFile q h files w))
    as (c2 & Hc2 & _ & Hall2).
  set (entries := (collected TFile q h files w ++
                   collected TUrl q h urls (world_after TFile q h files w))%list).
  assert (Htext : ∃ text,
             render_responses entries = text
             ∧ text ≠ EmptyString ∧ text ≠ chat_placeholder
             ∧ text ≠ summary_placeholder).
  { eexists. split; [reflexivity|]. destruct entries as [|e rest].
    - cbn. repeat split; discriminate.
    - destruct (render_responses_stars e rest) as [tail ->].
      cbn. repeat split; discriminate. }
  destruct Htext as (text & Htext & T1 & T2 & T3).
  eexists _, _, (c1 ++ c2)%list. split; [reflexivity|]. rewrite Htext.
  split; [|split; [|split]].
  - intros fb H1 H2 H3. cbn [response_or]. rewrite (proj2 (truthy_true text) T1). auto.
  - rewrite Hc2, Hc1. now rewrite app_assoc.
  - apply Forall_app. auto.
  - intros _ _. eauto.
Qed.

Lemma replace_placeholder_snoc (p a q : string) (j : bool) (h : list ChatTurn) :
  replace_placeholder p a (h ++ [mkChatTurn q p j]) = (h ++ [mkChatTurn q a j])%list.
Proof.
  unfold replace_placeholder. rewrite last_snoc. cbn [answer question is_json_summary].
  now rewrite String.eqb_refl, all_but_last_snoc.
Qed.

Lemma last_n_snoc {A} (n : nat) (l : list A) (x : A) :
  last_n (S n) (l ++ [x]) = (last_n n l ++ [x])%list.
Proof.
  unfold last_n. rewrite length_app. cbn [length].
  replace (length l + 1 - S n)%nat with (length l - n)%nat by lia.
  apply drop_app_le. lia.
Qed.

Lemma options_are_keys :
  Forall (fun key => is_Some (dict_get PREDEFINED_QUESTIONS key)) QUESTION_OPTIONS.
Proof. repeat (constructor; [vm_compute; eauto|]). constructor. Qed.

(** The part of [main_chat] behind the menu: the choice between what was
    typed and the pending predefined question, and the question asked. *)
Lemma chat_core (chat_input : option string) (ss : Session) (w : World) :
  let typed := match chat_input with Some t => truthy t | None => false end in
  let use := negb typed && truthy (ss_predefined_question_trigger ss) in
  let user_question :=
    if use then Some (ss_predefined_question_trigger ss) else chat_input in
  let ss2 := if use then set_trigger EmptyString ss else ss in
  let asked :=
    match user_question with
    | Some q => truthy q && (truthy_list (ss_file_docs ss) || truthy_list (ss_url_docs ss))
    | None => false
    end in
  let q := default EmptyString user_question in
  let window := last_n 10 (ss_chat_history ss ++ [mkChatTurn q chat_placeholder false]) in
  ∃ ss' w' a calls,
    main_chat EmptyString false chat_input ss w = (Ok (ss', asked), w')
    ∧ ss_file_docs ss' = ss_file_docs ss
    ∧ ss_url_docs ss' = ss_url_docs ss
    ∧ ss_json_summary_data ss' = ss_json_summary_data ss
    ∧ ss_auto_run_complete ss' = ss_auto_run_complete ss
    ∧ ss_predefined_question_trigger ss' = ss_predefined_question_trigger ss2
    ∧ (if asked
       then q ≠ EmptyString ∧ a ≠ EmptyString ∧ a ≠ chat_placeholder
            ∧ ss_chat_history ss' = (ss_chat_history ss ++ [mkChatTurn q a false])%list
            ∧ model_calls w' = (model_calls w ++ calls)%list
            ∧ Forall (fun call => snd call = build_prompt q (Some window)) calls
       else ss_chat_history ss' = ss_chat_history ss ∧ w' = w).
Proof.
  cbv zeta. unfold main_chat, bind, ret. cbn [andb].
  set (typed := match chat_input with Some t => truthy t | None => false end).
  set (use := negb typed && truthy (ss_predefined_question_trigger ss)).
  set (ss2 := if use then set_trigger EmptyString ss else ss).
  assert (Hsame2 : ss_file_docs ss2 = ss_file_docs ss ∧ ss_url_docs ss2 = ss_url_docs ss
                   ∧ ss_json_summary_data ss2 = ss_json_summary_data ss
                   ∧ ss_auto_run_complete ss2 = ss_auto_run_complete ss
                   ∧ ss_chat_history ss2 = ss_chat_history ss).
  { subst ss2. destruct use; cbn; auto. }
  destruct Hsame2 as (Hf2 & Hu2 & Hj2 & Ha2 & Hh2).
  destruct (if use then Some (ss_predefined_question_trigger ss) else chat_input)
    as [q|].
  2:{ exists ss2, w, EmptyString, []. auto 10. }
  cbn [default from_option id]. rewrite Hf2, Hu2.
  destruct (truthy q && (truthy_list (ss_file_docs ss) || truthy_list (ss_url_docs ss)))
    eqn:Hgo.
  2:{ exists ss2, w, EmptyString, []. auto 10. }
  apply andb_true_iff in Hgo as [Hq _]. apply truthy_true in Hq.
  cbn [ss_file_docs ss_url_docs ss_chat_history set_chat_history].
  rewrite Hf2, Hu2, Hh2.
  destruct (user_input_result q (Some (ss_file_docs ss)) (Some (ss_url_docs ss))
              (Some (last_n 10 (ss_chat_history ss ++ [mkChatTurn q chat_placeholder false])))
              w) as (r & w' & calls & Hrun & Hgood & Hcalls & Hall & _).
  rewrite Hrun.
  destruct (Hgood "No se generó ninguna respuesta") as (G1 & G2 & _);
    try discriminate.
  eexists _, w', (response_or r "No se generó ninguna respuesta"), calls.
  split; [reflexivity|].
  cbn [ss_file_docs ss_url_docs ss_json_summary_data ss_auto_run_complete
       ss_chat_history ss_predefined_question_trigger set_chat_history].
  rewrite replace_placeholder_snoc. auto 12.
Qed.

(** The menu of predefined questions only arms the pending question. *)
Lemma main_chat_menu (key body : string) (button : bool)
    (chat_input : option string) (ss : Session) (w : World) :
  dict_get PREDEFINED_QUESTIONS key = Some body →
  main_chat key button chat_input ss w =
  main_chat EmptyString false chat_input
    (if button && truthy key then set_trigger body ss else ss) w.
Proof.
  intros Hbody. unfold main_chat, bind, ret. rewrite Hbody. cbn [andb].
  destruct (button && truthy key); reflexivity.
Qed.

(** X12: a run of the chat adds at most one turn to the history and never
    leaves the placeholder in it.  When it asks a question, the history is
    the old one followed by one turn whose answer is neither empty nor the
    placeholder; otherwise the history and the world stay as they were.
    The documents and the summary are never changed, and with a key of the
    menu nothing is raised. *)
Theorem chat_appends_one_answered_turn (selected_question_key : string)
    (button : bool) (chat_input : option string) (ss : Session) (w : World) :
  selected_question_key ∈ QUESTION_OPTIONS →
  ∃ ss' rerun w',
    main_chat selected_question_key button chat_input ss w = (Ok (ss', rerun), w')
    ∧ ss_file_docs ss' = ss_file_docs ss
    ∧ ss_url_docs ss' = ss_url_docs ss
    ∧ ss_json_summary_data ss' = ss_json_summary_data ss
    ∧ ss_auto_run_complete ss' = ss_auto_run_complete ss
    ∧ (if rerun
       then ∃ q a, q ≠ EmptyString ∧ a ≠ EmptyString ∧ a ≠ chat_placeholder
                   ∧ ss_chat_history ss' =
                     (ss_chat_history ss ++ [mkChatTurn q a false])%list
       else ss_chat_history ss' = ss_chat_history ss ∧ w' = w).
Proof.
  intros Hkey.
  destruct (proj1 (Forall_forall _ _) options_are_keys _ Hkey) as [body Hbody].
  rewrite (main_chat_menu _ body) by exact Hbody.
  set (ss1 := if button && truthy selected_question_key then set_trigger body ss else ss).
  assert (Hsame : ss_file_docs ss1 = ss_file_docs ss ∧ ss_url_docs ss1 = ss_url_docs ss
                  ∧ ss_json_summary_data ss1 = ss_json_summary_data ss
                  ∧ ss_auto_run_complete ss1 = ss_auto_run_complete ss
                  ∧ ss_chat_history ss1 = ss_chat_history ss).
  { subst ss1. destruct (button && truthy selected_question_key); cbn; auto. }
  destruct Hsame as (Hf & Hu & Hj & Ha & Hh).
  destruct (chat_core chat_input ss1 w)
    as (ss' & w' & a & calls & Hrun & Hf' & Hu' & Hj' & Ha' & _ & Hcase).
  cbv zeta in Hrun, Hcase. rewrite Hrun. eexists _, _, _. split; [reflexivity|].
  rewrite Hf', Hu', Hj', Ha'. repeat (split; [assumption|]).
  destruct (match _ with Some _ => _ | None => false end).
  - destruct Hcase as (Hq & G1 & G2 & Hhist & _). rewrite Hh in Hhist. eauto 10.
  - destruct Hcase as [Hhist ->]. rewrite Hh in Hhist. auto.
Qed.

Lemma history_context_window (hist : list ChatTurn) (turn : ChatTurn) :
  history_context (Some (last_n 10 (hist ++ [turn]))) =
  match hist with
  | [] => EmptyString
  | _ :: _ =>
      history_header +:+
      String.concat EmptyString
        (imap (fun k chat => render_pair (S k) chat) (last_n 9 hist)) +:+
      (nl +:+ nl)
  end.
Proof.
  rewrite last_n_snoc. unfold history_context.
  rewrite all_but_last_snoc, length_app. cbn [length].
  destruct hist as [|c hist]; [reflexivity|].
  assert (Hlen : (0 < length (last_n 9 (c :: hist)))%nat).
  { unfold last_n. rewrite length_drop. cbn [length]. lia. }
  destruct (last_n 9 (c :: hist)) as [|c' l'] eqn:Hl; [simpl in Hlen; lia|].
  replace (1 <? length (c' :: l') + 1)%nat with true
    by (symmetry; apply Nat.ltb_lt; cbn [length]; lia).
  cbn [app truthy_list andb]. rewrite history_loop_spec.
  now rewrite append_assoc.
Qed.

(** X13: the prompt of a chat question carries at most the nine turns before
    it, numbered from 1 at the oldest turn kept, however long the
    conversation is; with no earlier turn it carries no transcript.  Every
    request the run sends to the model has this prompt. *)
Theorem chat_sends_last_nine_turns (q : string) (ss : Session) (w : World) :
  q ≠ EmptyString →
  ss_file_docs ss ≠ [] ∨ ss_url_docs ss ≠ [] →
  let hist := ss_chat_history ss in
  let transcript :=
    match hist with
    | [] => EmptyString
    | _ :: _ =>
        history_header +:+
        String.concat EmptyString
          (imap (fun k chat => render_pair (S k) chat) (last_n 9 hist)) +:+
        (nl +:+ nl)
    end in
  let prompt :=
    base_prompt +:+ (nl +:+ nl) +:+ transcript +:+ (nl +:+ nl) +:+ "Pregunta: " +:+ q in
  length (last_n 9 hist) = Nat.min 9 (length hist)
  ∧ ∃ calls,
      model_calls (snd (main_chat EmptyString false (Some q) ss w)) =
        (model_calls w ++ calls)%list
      ∧ Forall (fun call => snd call = prompt) calls.
Proof.
  intros Hq Hdocs. cbv zeta. split.
  { unfold last_n. rewrite length_drop. lia. }
  destruct (chat_core (Some q) ss w)
    as (ss' & w' & a & calls & Hrun & _ & _ & _ & _ & _ & Hcase).
  cbv zeta in Hrun, Hcase. rewrite Hrun. cbn [snd].
  apply truthy_true in Hq. rewrite Hq in Hcase. cbn [negb andb] in Hcase.
  rewrite Hq in Hcase. cbn [andb] in Hcase.
  replace (truthy_list (ss_file_docs ss) || truthy_list (ss_url_docs ss)) with true
    in Hcase.
  2:{ symmetry. apply orb_true_iff. rewrite !truthy_list_true. exact Hdocs. }
  cbn [default from_option id] in Hcase.
  destruct Hcase as (_ & _ & _ & _ & Hcalls & Hall).
  exists calls. split; [exact Hcalls|].
  eapply Forall_impl; [exact Hall|]. intros call ->.
  unfold build_prompt. now rewrite history_context_window.
Qed.

(** X14: without documents the chat asks nothing: the question is dropped
    without a turn, a message or a request, and a pending predefined
    question is discarded. *)
Theorem chat_without_documents (chat_input : option string) (ss : Session)
    (w : World) :
  ss_file_docs ss = [] → ss_url_docs ss = [] →
  ∃ ss',
    main_chat EmptyString false chat_input ss w = (Ok (ss', false), w)
    ∧ ss_chat_history ss' = ss_chat_history ss
    ∧ (chat_input = None → ss_predefined_question_trigger ss' = EmptyString).
Proof.
  intros Hf Hu.
  destruct (chat_core chat_input ss w)
    as (ss' & w' & a & calls & Hrun & _ & _ & _ & _ & Htrig & Hcase).
  cbv zeta in Hrun, Hcase, Htrig. rewrite Hf, Hu in Hrun, Hcase.
  cbn [truthy_list orb] in Hrun, Hcase.
  set (asked := match _ with Some q => truthy q && false | None => false end) in *.
  assert (Hasked : asked = false).
  { subst asked. destruct (if negb _ && _ then _ else chat_input);
      [apply andb_false_r | reflexivity]. }
  rewrite Hasked in Hrun, Hcase.
  destruct Hcase as [Hh ->]. exists ss'. split; [exact Hrun|]. split; [exact Hh|].
  intros ->. rewrite Htrig. cbn [negb andb].
  destruct (truthy (ss_predefined_question_trigger ss)) eqn:Ht; [reflexivity|].
  cbn. destruct (ss_predefined_question_trigger ss); [reflexivity | discriminate].
Qed.


(** X15: the automatic summary runs at most once in a session: once it has
    run, or while there is no document, opening the page asks nothing,
    leaves the history and the world as they are and keeps the stored
    summary. *)
Theorem summary_runs_at_most_once (ss : Session) (w : World) :
  ss_auto_run_complete ss = Some true
  ∨ (ss_file_docs ss = [] ∧ ss_url_docs ss = []) →
  ∃ ss',
    auto_run ss w = (Ok (ss', false), w)
    ∧ ss_chat_history ss' = ss_chat_history ss
    ∧ ss_file_docs ss' = ss_file_docs ss
    ∧ ss_url_docs ss' = ss_url_docs ss
    ∧ ss_json_summary_data ss' = Some (default JNull (ss_json_summary_data ss))
    ∧ ss_auto_run_complete ss' = Some (default false (ss_auto_run_complete ss)).
Proof.
  intros Hskip. unfold auto_run, ret.
  destruct ss as [h fd ud tr sh ac js]. cbn in Hskip. cbn.
  destruct Hskip as [-> | [-> ->]].
  - destruct js; cbn; eexists; (split; [reflexivity|]); cbn; auto 10.
  - destruct ac as [[|]|], js; cbn; eexists; (split; [reflexivity|]); cbn; auto 10.
Qed.

(** X16: documents chosen after the first summary get no summary of their
    own: going back to the landing page and starting again with other
    documents leaves the flag set, so the page keeps the summary and the
    history of the earlier documents and asks the model nothing. *)
Theorem summary_not_refreshed_for_new_documents
    (uploaded_files : list UploadedFile) (url_input : string)
    (ss ss1 : Session) (w w1 : World) :
  ss_auto_run_complete ss = Some true →
  landing_start uploaded_files url_input (back_to_landing ss) w = (Ok (ss1, true), w1) →
  ∃ ss2,
    auto_run ss1 w1 = (Ok (ss2, false), w1)
    ∧ w1 = w
    ∧ ss_file_docs ss2 = uploaded_files
    ∧ ss_url_docs ss2 = landing_urls url_input
    ∧ ss_chat_history ss2 = ss_chat_history ss
    ∧ ss_json_summary_data ss2 = Some (default JNull (ss_json_summary_data ss)).
Proof.
  intros Hdone Hstart. unfold landing_start, back_to_landing, bind, st_error, ret in Hstart.
  destruct (negb (truthy_list uploaded_files) && negb (truthy (strip url_input)));
    [discriminate|].
  injection Hstart as <- <-.
  destruct ss as [h fd ud tr sh ac js]. cbn in Hdone. subst ac.
  unfold auto_run, ret. cbn.
  destruct js as [j|]; cbn; eexists; (split; [reflexivity|]); cbn;
    (split; [reflexivity|]); (split; [destruct uploaded_files; reflexivity|]); auto.
Qed.



(** X18: with several documents the stored summary is that of the first
    one: when the first entry of the rendered answer holds a fenced block
    (and its name has no backquote), the extractor reads from the whole
    answer what it reads from that entry alone, whatever the other
    documents answered. *)
Theorem summary_from_first_document (e : Entry) (rest : list Entry)
    (g : string) (w : World) :
  contains "`" (filename e) = false →
  re_search_fence (response e) = Some g →
  re_search_fence (render_responses (e :: rest)) = Some g
  ∧ extract_json_from_markdown json_loads (render_responses (e :: rest)) w =
    extract_json_from_markdown json_loads (response e) w.
Proof.
  intros Hname Hfence.
  assert (Hsearch : re_search_fence (render_responses (e :: rest)) = Some g).
  { destruct (render_responses_cons e rest) as [tail ->].
    rewrite re_search_fence_skip.
    - now apply re_search_fence_append.
    - rewrite !contains_char_append, Hname. reflexivity. }
  split; [exact Hsearch|].
  rewrite !extract_json_eq. now rewrite Hsearch, Hfence.
Qed.

(** X19: uploaded files are processed without the network and without a
    message on the page: whatever fails, a batch of uploads sends no HTTP
    request and shows no error to the user (failures only reach the
    log). *)
Theorem upload_failures_are_silent (q : string) (h : option (list ChatTurn))
    (files : list UploadedFile) (w : World) :
  let w' := snd (process_pdf_with_gemini (map SFile files) q TFile h w) in
  requests w' = requests w ∧ ui_errors w' = ui_errors w.
Proof.
  cbv zeta.
  rewrite (process_pdf_with_gemini_eq urlparse httpx_get generate_content tmp_name fs_fault).
  cbn [snd]. rewrite world_after_requests, requested_files, app_nil_r.
  now rewrite world_after_file_ui.
Qed.



(** X22: a download that fails, by an exception of the client or by an
    error status, is reported once on the page and once in the log; the
    URL gives no entry and the model is not called for it. *)
Theorem failed_download_is_reported (q : string) (h : option (list ChatTurn))
    (url : string) (w : World) (e : exn) :
  httpx_get w url = Raise e
  ∨ (∃ r, httpx_get w url = Ok r ∧ raise_for_status r = Some e) →
  let w' := source_world TUrl q h (SUrl url) w in
  source_entries TUrl q h (SUrl url) w = []
  ∧ model_calls w' = model_calls w
  ∧ requests w' = (requests w ++ [url])%list
  ∧ ui_errors w' = (ui_errors w ++ ["Failed to process PDF from URL: " +:+ url])%list
  ∧ log w' = (log w ++ ["Error processing URL " +:+ url +:+ ": " +:+ e])%list.
Proof.
  intros Hfail. cbv zeta.
  unfold source_entries, source_world, process_source, try_except.
  rewrite (process_url_eq urlparse httpx_get generate_content). cbv zeta.
  destruct Hfail as [-> | (r & -> & ->)]; cbn; auto.
Qed.

(** X23: a response that is no error but whose status is not 200 is dropped
    without a trace: no entry, no call of the model, no line in the log
    and no message on the page; only the request has been made. *)
Theorem other_status_is_dropped_silently (q : string) (h : option (list ChatTurn))
    (url : string) (w : World) (r : HttpResponse) :
  httpx_get w url = Ok r →
  raise_for_status r = None →
  status_code r ≠ 200%nat →
  source_entries TUrl q h (SUrl url) w = []
  ∧ source_world TUrl q h (SUrl url) w = add_request url w.
Proof.
  intros Hget Hok Hstatus.
  unfold source_entries, source_world, process_source, try_except.
  rewrite (process_url_eq urlparse httpx_get generate_content). cbv zeta.
  rewrite Hget, Hok. apply Nat.eqb_neq in Hstatus. rewrite Hstatus. cbn. auto.
Qed.

End Behaviour.

(** ** The further properties on concrete runs *)

(** Two uploads on a system where no temporary file can be deleted: the
    model still receives both payloads, in order. *)
Lemma uploads_reach_model_unchanged_witness :
  model_calls
    (snd (process_pdf_with_gemini Ref.urlparse (Env.scripted_get [])
            (Env.scripted_model [Ok (Some "R1")]) Env.tmp_name Env.unlink_fault
            (map SFile [Env.file_x; Env.file_y]) "Resumen" TFile None
            Env.empty_world)) =
  [(getvalue Env.file_x, build_prompt "Resumen" None);
   (getvalue Env.file_y, build_prompt "Resumen" None)].
Proof.
  exact (uploads_reach_model_unchanged Ref.urlparse (Env.scripted_get [])
           (Env.scripted_model [Ok (Some "R1")]) Env.tmp_name Env.unlink_fault
           "Resumen" None [Env.file_x; Env.file_y] Env.empty_world
           (fun _ => eq_refl) (fun _ _ => eq_refl) (fun _ _ => eq_refl)).
Defined.

(** Two uploads on a system where no temporary file can be read back:
    nothing is left on disk. *)
Lemma uploads_leave_no_file_witness :
  fs (snd (process_pdf_with_gemini Ref.urlparse (Env.scripted_get [])
             (Env.scripted_model [Ok (Some "R1")]) Env.tmp_name Env.read_fault
             [SFile Env.file_x; SFile Env.file_y] "Resumen" TFile None
             Env.empty_world)) ⊆ fs Env.empty_world.
Proof.
  apply uploads_leave_no_file; intros; reflexivity.
Defined.

(** A question on one uploaded file comes back as the aggregator's text. *)
Lemma user_input_passes_through_witness :
  ∃ text,
    fst (get_gemini_response Ref.urlparse (Env.scripted_get [])
           (Env.scripted_model [Ok (Some "R1")]) Env.tmp_name Env.no_fault
           "Resumen" (Some [Env.file_x]) None None Env.empty_world) = Ok text
    ∧ text ≠ EmptyString
    ∧ user_input Ref.urlparse (Env.scripted_get [])
        (Env.scripted_model [Ok (Some "R1")]) Env.tmp_name Env.no_fault
        "Resumen" (Some [Env.file_x]) None None Env.empty_world =
      (Ok (Some text),
       snd (get_gemini_response Ref.urlparse (Env.scripted_get [])
              (Env.scripted_model [Ok (Some "R1")]) Env.tmp_name Env.no_fault
              "Resumen" (Some [Env.file_x]) None None Env.empty_world)).
Proof.
  apply user_input_passes_through.
  - vm_compute. discriminate.
  - left. discriminate.
Defined.

(** A blank question, and a question without documents. *)
Lemma user_input_rejects_blank_and_bare_witness :
  fst (user_input Ref.urlparse (Env.scripted_get []) Env.silent_model
         Env.tmp_name Env.no_fault "   " (Some [Env.file_x]) None None
         Env.empty_world) =
  Ok (Some "Error: No se pudo procesar la solicitud. Por favor, verifica tu conexión a internet e inténtalo de nuevo.")
  ∧ fst (user_input Ref.urlparse (Env.scripted_get []) Env.silent_model
           Env.tmp_name Env.no_fault "Resumen" (Some []) None None
           Env.empty_world) = Ok None.
Proof.
  split.
  - destruct (user_input_rejects_blank_and_bare Ref.urlparse (Env.scripted_get [])
                Env.silent_model Env.tmp_name Env.no_fault "   "
                (Some [Env.file_x]) None None Env.empty_world) as [H _].
    rewrite H; reflexivity.
  - destruct (user_input_rejects_blank_and_bare Ref.urlparse (Env.scripted_get [])
                Env.silent_model Env.tmp_name Env.no_fault "Resumen"
                (Some []) None None Env.empty_world) as [_ H].
    rewrite H; [reflexivity | vm_compute; discriminate | reflexivity | reflexivity].
Defined.

(** Three lines in the URL box, one of them a URL: it is stored stripped
    and requested as stored. *)
Lemma landing_urls_requested_as_stored_witness :
  let url_input := " https://a.example/pliego.pdf " +:+ nl +:+ "no es url" +:+ nl in
  let stored := landing_urls Ref.urlparse url_input in
  stored = ["https://a.example/pliego.pdf"]
  ∧ requests (snd (get_gemini_response Ref.urlparse (Env.scripted_get [])
                     Env.silent_model Env.tmp_name Env.no_fault "Resumen"
                     (Some []) (Some stored) None Env.empty_world)) = stored.
Proof.
  cbv zeta. split; [vm_compute; reflexivity|].
  set (url_input := " https://a.example/pliego.pdf " +:+ nl +:+ "no es url" +:+ nl).
  pose proof (landing_urls_requested_as_stored Ref.urlparse (Env.scripted_get [])
                Env.silent_model Env.tmp_name Env.no_fault [] url_input "Resumen" None
                initial_session
                (set_show_main_app true
                   (set_docs [] (landing_urls Ref.urlparse url_input) initial_session))
                Env.empty_world Env.empty_world Env.empty_world)
    as H.
  destruct H as (_ & _ & _ & H); [vm_compute; reflexivity|].
  exact H.
Defined.

(** The two cases on the empty upload list. *)
Lemma landing_start_cases_witness :
  fst (landing_start Ref.urlparse [] "   " initial_session Env.empty_world) =
    Ok (initial_session, false)
  ∧ fst (landing_start Ref.urlparse [] "no es url" initial_session Env.empty_world) =
    Ok (set_show_main_app true initial_session, true).
Proof.
  split.
  - destruct (landing_start_cases Ref.urlparse [] "   " initial_session Env.empty_world)
      as [H _].
    rewrite H; reflexivity.
  - destruct (landing_start_cases Ref.urlparse [] "no es url" initial_session
                Env.empty_world) as [_ H].
    rewrite H; [reflexivity | reflexivity | vm_compute; discriminate
               | vm_compute; reflexivity].
Defined.

(** One upload that the model answers and one that it does not. *)
Lemma message_iff_nothing_collected_witness :
  fst (get_gemini_response Ref.urlparse (Env.scripted_get []) Env.silent_model
         Env.tmp_name Env.no_fault "Resumen" (Some [Env.file_x]) None None
         Env.empty_world) = Ok no_documents_message.
Proof.
  apply (message_iff_nothing_collected Ref.urlparse (Env.scripted_get [])
           Env.silent_model Env.tmp_name Env.no_fault "Resumen" None
           (Some [Env.file_x]) None Env.empty_world).
  vm_compute. reflexivity.
Defined.

(** A question of the menu on a session with one upload. *)
Lemma chat_appends_one_answered_turn_witness :
  ∃ ss' rerun w',
    main_chat Ref.urlparse (Env.scripted_get []) (Env.scripted_model [Ok (Some "R1")])
      Env.tmp_name Env.no_fault "Tema principal" true None Demo.with_file_x
      Env.empty_world = (Ok (ss', rerun), w')
    ∧ ss_file_docs ss' = [Env.file_x]
    ∧ ss_url_docs ss' = []
    ∧ ss_json_summary_data ss' = None
    ∧ ss_auto_run_complete ss' = None
    ∧ (if rerun
       then ∃ q a, q ≠ EmptyString ∧ a ≠ EmptyString ∧ a ≠ chat_placeholder
                   ∧ ss_chat_history ss' = ([] ++ [mkChatTurn q a false])%list
       else ss_chat_history ss' = [] ∧ w' = Env.empty_world).
Proof.
  apply (chat_appends_one_answered_turn Ref.urlparse (Env.scripted_get [])
           (Env.scripted_model [Ok (Some "R1")]) Env.tmp_name Env.no_fault
           "Tema principal" true None Demo.with_file_x Env.empty_world).
  apply list_elem_of_In. vm_compute. auto.
Defined.

(** The twelfth question of a conversation: nine turns are sent. *)
Lemma chat_sends_last_nine_turns_witness :
  let hist := ss_chat_history Demo.long_talk in
  let prompt :=
    base_prompt +:+ (nl +:+ nl) +:+
    (history_header +:+
     String.concat EmptyString
       (imap (fun k chat => render_pair (S k) chat) (last_n 9 hist)) +:+
     (nl +:+ nl)) +:+
    (nl +:+ nl) +:+ "Pregunta: " +:+ "Plazo" in
  length hist = 11
  ∧ map question (last_n 9 hist) =
      ["P3"; "P4"; "P5"; "P6"; "P7"; "P8"; "P9"; "P10"; "P11"]
  ∧ ∃ calls,
      model_calls
        (snd (main_chat Ref.urlparse (Env.scripted_get [])
                (Env.scripted_model [Ok (Some "R1")]) Env.tmp_name Env.no_fault
                EmptyString false (Some "Plazo") Demo.long_talk Env.empty_world)) =
        (model_calls Env.empty_world ++ calls)%list
      ∧ Forall (fun call => snd call = prompt) calls.
Proof.
  cbv zeta. split; [reflexivity|]. split; [vm_compute; reflexivity|].
  apply (chat_sends_last_nine_turns Ref.urlparse (Env.scripted_get [])
           (Env.scripted_model [Ok (Some "R1")]) Env.tmp_name Env.no_fault
           "Plazo" Demo.long_talk Env.empty_world).
  - discriminate.
  - left. discriminate.
Defined.

(** A pending question on a session without documents. *)
Lemma chat_without_documents_witness :
  ∃ ss',
    main_chat Ref.urlparse (Env.scripted_get []) Env.silent_model Env.tmp_name
      Env.no_fault EmptyString false None (set_trigger "Plazo" initial_session)
      Env.empty_world = (Ok (ss', false), Env.empty_world)
    ∧ ss_chat_history ss' = []
    ∧ ss_predefined_question_trigger ss' = EmptyString.
Proof.
  destruct (chat_without_documents Ref.urlparse (Env.scripted_get []) Env.silent_model
              Env.tmp_name Env.no_fault None (set_trigger "Plazo" initial_session)
              Env.empty_world eq_refl eq_refl) as (ss' & H1 & H2 & H3).
  exists ss'. split; [exact H1|]. split; [exact H2|]. exact (H3 eq_refl).
Defined.

(** Opening the page again after the summary. *)
Lemma summary_runs_at_most_once_witness :
  ∃ ss',
    auto_run Ref.urlparse Ref.json_loads (Env.scripted_get [])
      (Env.scripted_model [Ok (Some "R1")]) Env.tmp_name Env.no_fault
      Demo.summarised Env.empty_world = (Ok (ss', false), Env.empty_world)
    ∧ ss_chat_history ss' = ss_chat_history Demo.summarised
    ∧ ss_file_docs ss' = ss_file_docs Demo.summarised
    ∧ ss_url_docs ss' = ss_url_docs Demo.summarised
    ∧ ss_json_summary_data ss' =
        Some (default JNull (ss_json_summary_data Demo.summarised))
    ∧ ss_auto_run_complete ss' =
        Some (default false (ss_auto_run_complete Demo.summarised)).
Proof.
  apply summary_runs_at_most_once. left. reflexivity.
Defined.

(** After the summary of [x.pdf], the user loads [y.pdf] instead: the page
    still shows the summary of [x.pdf]. *)
Lemma summary_not_refreshed_for_new_documents_witness :
  let ss1 := set_show_main_app true
               (set_docs [Env.file_y] [] (back_to_landing Demo.summarised)) in
  ∃ ss2,
    auto_run Ref.urlparse Ref.json_loads (Env.scripted_get [])
      (Env.scripted_model [Ok (Some "R1")]) Env.tmp_name Env.no_fault
      ss1 Env.empty_world = (Ok (ss2, false), Env.empty_world)
    ∧ ss_file_docs ss2 = [Env.file_y]
    ∧ ss_json_summary_data ss2 = Some (JObject [("presupuesto", JString "1000 EUR")]).
Proof.
  cbv zeta.
  destruct (summary_not_refreshed_for_new_documents Ref.urlparse (Env.scripted_get [])
              (Env.scripted_model [Ok (Some "R1")]) Env.tmp_name Env.no_fault
              Ref.json_loads [Env.file_y] EmptyString Demo.summarised
              (set_show_main_app true
                 (set_docs [Env.file_y] [] (back_to_landing Demo.summarised)))
              Env.empty_world Env.empty_world eq_refl)
    as (ss2 & H1 & _ & H2 & _ & _ & H3).
  - vm_compute. reflexivity.
  - exists ss2. split; [exact H1|]. split; [exact H2|]. exact H3.
Defined.


(** Two documents, the first answered with a fenced object. *)
Lemma summary_from_first_document_witness :
  let answers := [mkEntry "x.pdf" fenced_a1; mkEntry "y.pdf" two_fences] in
  re_search_fence (render_responses answers) = Some json_a1
  ∧ extract_json_from_markdown Ref.json_loads (render_responses answers)
      Env.empty_world =
    extract_json_from_markdown Ref.json_loads fenced_a1 Env.empty_world.
Proof.
  cbv zeta.
  apply (summary_from_first_document Ref.json_loads (mkEntry "x.pdf" fenced_a1)
           [mkEntry "y.pdf" two_fences] json_a1 Env.empty_world).
  - vm_compute. reflexivity.
  - vm_compute. reflexivity.
Defined.




(** A URL answered with 404. *)
Lemma failed_download_is_reported_witness :
  let w' := source_world Ref.urlparse (Env.scripted_get [Ok Env.not_found])
              Env.silent_model Env.tmp_name Env.no_fault
              TUrl "Resumen" None (SUrl "https://a.example/x.pdf") Env.empty_world in
  source_entries Ref.urlparse (Env.scripted_get [Ok Env.not_found])
    Env.silent_model Env.tmp_name Env.no_fault
    TUrl "Resumen" None (SUrl "https://a.example/x.pdf") Env.empty_world = []
  ∧ model_calls w' = model_calls Env.empty_world
  ∧ requests w' = (requests Env.empty_world ++ ["https://a.example/x.pdf"])%list
  ∧ ui_errors w' =
      (ui_errors Env.empty_world ++
       ["Failed to process PDF from URL: " +:+ "https://a.example/x.pdf"])%list
  ∧ log w' =
      (log Env.empty_world ++
       ["Error processing URL " +:+ "https://a.example/x.pdf" +:+ ": " +:+
        "Client error '404 Not Found'"])%list.
Proof.
  cbv zeta.
  apply (failed_download_is_reported Ref.urlparse (Env.scripted_get [Ok Env.not_found])
           Env.silent_model Env.tmp_name Env.no_fault "Resumen" None
           "https://a.example/x.pdf" Env.empty_world "Client error '404 Not Found'").
  right. exists Env.not_found. split; reflexivity.
Defined.

(** A URL answered with 204 and no content. *)
Lemma other_status_is_dropped_silently_witness :
  let get := Env.scripted_get [Ok (mkHttpResponse 204 [] None)] in
  source_entries Ref.urlparse get (Env.scripted_model [Ok (Some "R1")])
    Env.tmp_name Env.no_fault TUrl "Resumen" None
    (SUrl "https://a.example/x.pdf") Env.empty_world = []
  ∧ source_world Ref.urlparse get (Env.scripted_model [Ok (Some "R1")])
      Env.tmp_name Env.no_fault TUrl "Resumen" None
      (SUrl "https://a.example/x.pdf") Env.empty_world =
    add_request "https://a.example/x.pdf" Env.empty_world.
Proof.
  cbv zeta.
  apply (other_status_is_dropped_silently Ref.urlparse
           (Env.scripted_get [Ok (mkHttpResponse 204 [] None)])
           (Env.scripted_model [Ok (Some "R1")]) Env.tmp_name Env.no_fault
           "Resumen" None "https://a.example/x.pdf" Env.empty_world
           (mkHttpResponse 204 [] None)).
  - reflexivity.
  - reflexivity.
  - cbn. lia.
Defined.
